(** * Chart data of python-pptx: series markup, worksheet layout, cache reader

    A shallow embedding of

    - [pptx/chart/data.py]: [ChartData], [_SeriesData], [ChartDataMoreDetails]
      and [_SeriesDataMoreDetails];
    - [pptx/chart/xlsx.py]: [WorkbookWriter._populate_worksheet];
    - [pptx/oxml/chart/series.py]: the [<c:ser>], [<c:val>], [<c:cat>],
      reference and cache element classes.

    Python integers are [Z], text is [string], a Python list that is shared
    and replaced in place lives in a store ([gmap loc (list _)]), a tuple is
    an immutable [list].  An operation that can raise returns [exn + _]. *)

From Stdlib Require Import ZArith String Ascii List Lia DecimalString Sorted.
From stdpp Require Import base option list gmap strings.
From Equations Require Import Equations.

Local Open Scope Z_scope.

(** ** Python primitives *)

Module Py.

(** The exceptions the modelled code can raise. *)
Inductive exn :=
| ValueError
| TypeError
| AttributeError
| NotImplementedError
| InvalidXmlError
| UnicodeDecodeError.

Definition result (A : Type) : Type := exn + A.

Definition ret {A} (a : A) : result A := inr a.
Definition raise {A} (e : exn) : result A := inl e.

#[global] Instance result_ret : MRet result := λ A a, inr a.
#[global] Instance result_bind : MBind result := λ A B k m,
  match m with
  | inl e => inl e
  | inr a => k a
  end.

(** The double quote and the line feed, which the templates use. *)
Definition dq : string := String (ascii_of_nat 34) EmptyString.
Definition nl : string := String (ascii_of_nat 10) EmptyString.

(** ['%d' % n] for an integer. *)
Definition fmt_d (n : Z) : string := NilZero.string_of_int (Z.to_int n).

(** ['%s' % x], that is [str(x)]. *)
Class Str (A : Type) := str : A → string.
#[global] Instance Str_int : Str Z := fmt_d.
#[global] Instance Str_text : Str string := λ s, s.

(** [chr(n)] of Python 2, for [n] within a C long: a one-character string
    for [0 <= n < 256], a [ValueError] otherwise. *)
Definition chr (n : Z) : result string :=
  if bool_decide (0 ≤ n < 256)
  then ret (String (ascii_of_N (Z.to_N n)) EmptyString)
  else raise ValueError.

(** A byte string given to [%s] of a unicode template (the module has
    [unicode_literals]): Python 2 decodes it as ASCII, which raises
    [UnicodeDecodeError] on a byte from 128 on. *)
Definition decode_ascii (bytes : string) : result string :=
  if forallb (λ c, (N_of_ascii c <? 128)%N) (list_ascii_of_string bytes)
  then ret bytes
  else raise UnicodeDecodeError.

(** [ord('A')] and [ord('B')]. *)
Definition ord_A : Z := 65.
Definition ord_B : Z := 66.

(** [x or y] where [x] is [None] or an integer: [x] when it is truthy. *)
Definition truthy_int (x : option Z) : bool :=
  match x with
  | Some n => negb (n =? 0)
  | None => false
  end.

(** [x or y] where [x] is [None] or text: the empty text is falsy. *)
Definition truthy_text (x : option string) : bool :=
  match x with
  | Some EmptyString => false
  | Some _ => true
  | None => false
  end.

(** [max(xs)] of a sequence of integers; [ValueError] on an empty one. *)
Definition max_seq (xs : list Z) : result Z :=
  match xs with
  | [] => raise ValueError
  | x :: xs' => ret (foldl Z.max x xs')
  end.

(** Python 2 orders [None] below every integer: [a < b]. *)
Definition lt_opt (a : Z) (b : option Z) : bool :=
  match b with
  | Some n => a <? n
  | None => false
  end.

(** [a > 0] where [a] may be [None] (Python 2: [None > 0] is false). *)
Definition gt0_opt (a : option Z) : bool :=
  match a with
  | Some n => 0 <? n
  | None => false
  end.

(** [enumerate(xs)]: the elements paired with their positions from 0. *)
Fixpoint enumerate_from {A} (start : Z) (xs : list A) : list (Z * A) :=
  match xs with
  | [] => []
  | x :: xs' => (start, x) :: enumerate_from (start + 1) xs'
  end.
Definition enumerate {A} (xs : list A) : list (Z * A) := enumerate_from 0 xs.

(** [len(xs)]. *)
Definition len {A} (xs : list A) : Z := Z.of_nat (length xs).

(** [s.replace(c, rep)] for a one-character pattern [c]. *)
Fixpoint replace (c : ascii) (rep : string) (s : string) : string :=
  match s with
  | EmptyString => EmptyString
  | String a s' =>
      if Ascii.eqb a c then rep +:+ replace c rep s'
      else String a (replace c rep s')
  end.

(** The address of a list object in the store. *)
Definition loc : Type := positive.

(** What a field holding a sequence refers to: a list object of the store,
    whose contents whoever holds the reference sees change, or a tuple,
    which is a value. *)
Inductive seq_ref (A : Type) :=
| ListObject (l : loc)
| Tuple (xs : list A).
Arguments ListObject {A} l.
Arguments Tuple {A} xs.

(** The current contents of a sequence. *)
Definition deref {A} (h : gmap loc (list A)) (r : seq_ref A) : list A :=
  match r with
  | ListObject l => default [] (h !! l)
  | Tuple xs => xs
  end.

(** ['%s' % x] where [x] is text or [None]. *)
Definition fmt_s_opt (x : option string) : string := default "None" x.

(** [int(text)] for a decimal numeral; [ValueError] otherwise. *)
Definition int_of_text (text : string) : result Z :=
  match NilZero.int_of_string text with
  | Some d => ret (Z.of_int d)
  | None => raise ValueError
  end.

(** [float(text)]: the number type is left open; [None] stands for the
    [ValueError] of a text that is not a number. *)
Class Float (number : Type) := float : string → option number.

(** [sorted(xs, key=...)] on integer keys: a stable insertion sort. *)
Fixpoint insert_by_key {A} (k : Z) (x : A) (sorted : list (Z * A))
    : list (Z * A) :=
  match sorted with
  | [] => [(k, x)]
  | (k', y) :: rest =>
      if k <? k' then (k, x) :: (k', y) :: rest
      else (k', y) :: insert_by_key k x rest
  end.
Definition sorted_by_key {A} (keyed : list (Z * A)) : list A :=
  snd <$> foldl (λ acc '(k, x), insert_by_key k x acc) [] keyed.

(** [sep.join(parts)]. *)
Definition join (sep : string) (parts : list string) : string :=
  String.concat sep parts.

(** Concatenation of a list of text pieces, [''.join(parts)]. *)
Definition cat (parts : list string) : string :=
  foldr String.append EmptyString parts.

End Py.

(** ** The helpers of xlsxwriter and of the standard library *)

Module Xl.

(** Modelled from the spec: [xlsxwriter.utility.xl_col_to_name] is not under
    src/.  The column name is alphabetic, unbounded, with no zero digit:
    0 is A, 25 is Z, 26 is AA.  The loop is the library's: the column number
    is made 1-based, the remainder modulo 26 (26 when it is 0) gives the
    letter, letters accumulate right to left, and the next number is
    [(col_num - 1) / 26]. *)
Equations col_loop (col_num : Z) (col_str : string) : string
  by wf (Z.to_nat col_num) lt :=
  col_loop col_num col_str with decide (col_num ≤ 0) := {
    | left _ => col_str
    | right _ =>
        let remainder := col_num `mod` 26 in
        let remainder := if remainder =? 0 then 26 else remainder in
        let col_letter := ascii_of_N (Z.to_N (Py.ord_A + remainder - 1)) in
        col_loop ((col_num - 1) `div` 26) (String col_letter col_str)
  }.
Next Obligation.
  intros. assert ((col_num - 1) `div` 26 < col_num).
  { apply Z.div_lt_upper_bound; lia. }
  destruct (Z_le_gt_dec 0 ((col_num - 1) `div` 26)); lia.
Qed.

(** [xl_col_to_name(col)]; a negative column gives [None]. *)
Definition xl_col_to_name (col : Z) : option string :=
  if col <? 0 then None else Some (col_loop (col + 1) EmptyString).

(** [xl_rowcol_to_cell(row, col, row_abs=True, col_abs=True)] of the same
    library: the row is made 1-based and both parts get a dollar sign.  A
    negative column has no name and the call gives no cell text; what it
    gives instead differs between versions of the library, and is kept
    apart here as a [TypeError]. *)
Definition xl_rowcol_to_cell_abs (row col : Z) : Py.result string :=
  match xl_col_to_name col with
  | Some col_str => Py.ret ("$" +:+ col_str +:+ "$" +:+ Py.fmt_d (row + 1))
  | None => Py.raise Py.TypeError
  end.

(** [xml.sax.saxutils.escape(data)] of the Python standard library, with its
    default, empty table of further entities: it replaces the ampersand
    first, then the greater-than and the less-than signs. *)
Definition escape (data : string) : string :=
  let data := Py.replace "&" "&amp;" data in
  let data := Py.replace ">" "&gt;" data in
  let data := Py.replace "<" "&lt;" data in
  data.

(** Modelled from the spec: the spreadsheet writer (xlsxwriter) is not under
    src/.  A worksheet is the list of the (row, column, value) cell writes
    it has received; rows and columns are 0-based. *)
Inductive token (value : Type) :=
| Text (s : string)
| Number (v : value).
Arguments Text {value} s.
Arguments Number {value} v.

Definition worksheet (value : Type) : Type := list (Z * Z * token value).

(** [worksheet.write(row, col, token)]. *)
Definition write {value} (ws : worksheet value) (row col : Z)
    (tok : token value) : worksheet value :=
  ws ++ [(row, col, tok)].

(** [worksheet.write_column(row, col, data)]: one write per element, the row
    growing by one each time. *)
Definition write_column {value} (ws : worksheet value) (row col : Z)
    (data : list (token value)) : worksheet value :=
  foldl (λ ws '(i, tok), write ws (row + i) col tok) ws (Py.enumerate data).

End Xl.

(** ** [pptx/chart/xlsx.py] *)

Module WorkbookWriter.
Section WithValue.
Context {value : Type}.

(** A level of categories: a sequence of [(idx, name)]. *)
Definition level : Type := list (Z * string).

(** The [categories] argument: a sequence of label strings, or a sequence
    of levels (lists or tuples). *)
Inductive categories_seq :=
| Flat (labels : list string)
| Levels (lvls : list level).

(** The [values] of a series: a sequence of numbers, or a sequence of
    [(idx, value)] tuples. *)
Inductive values_seq :=
| Dense (vs : list value)
| Sparse (ps : list (Z * value)).

(** What [_populate_worksheet] reads of a series object. *)
Record item_series := {
  index : Z;
  name : string;
  values : values_seq;
}.

(** The body of the loop over the series. *)
Definition write_series (value_start_col : Z) (worksheet : Xl.worksheet value)
    (item_series : item_series) : Xl.worksheet value :=
  let series_col := index item_series + value_start_col in
  let worksheet := Xl.write worksheet 0 series_col (Xl.Text (name item_series)) in
  match values item_series with
  | Sparse ((_ :: _) as ps) =>
      (* len(values) != 0 and isinstance(values[0], tuple) *)
      foldl (λ ws '(idx, token), Xl.write ws (1 + idx) series_col (Xl.Number token))
        worksheet ps
  | Sparse [] => Xl.write_column worksheet 1 series_col []
  | Dense vs => Xl.write_column worksheet 1 series_col (Xl.Number <$> vs)
  end.

(** The first part of [_populate_worksheet]: the categories are written and
    [value_start_col] is chosen. *)
Definition write_categories (worksheet : Xl.worksheet value)
    (categories : categories_seq) : Xl.worksheet value * Z :=
  match categories with
  | Levels ((_ :: _) as lvls) =>
      (* len(categories) != 0 and isinstance(categories[0], (list, tuple)) *)
      (foldl (λ ws '(ilvl, lvl),
                foldl (λ ws '(idx, token), Xl.write ws (1 + idx) ilvl (Xl.Text token))
                  ws lvl)
         worksheet (Py.enumerate lvls),
       Py.len lvls)
  | Levels [] => (Xl.write_column worksheet 1 0 [], 1)
  | Flat labels => (Xl.write_column worksheet 1 0 (Xl.Text <$> labels), 1)
  end.

(** [_populate_worksheet]. *)
Definition _populate_worksheet (worksheet : Xl.worksheet value)
    (categories : categories_seq) (series : list item_series)
    : Xl.worksheet value :=
  let '(worksheet, value_start_col) := write_categories worksheet categories in
  foldl (write_series value_start_col) worksheet series.

End WithValue.
Arguments values_seq value : clear implicits.
Arguments item_series value : clear implicits.
End WorkbookWriter.

(** ** [pptx/chart/data.py] *)

(** *** [_SeriesData] *)

Module SeriesData.
Section WithValue.
Context {value : Type} `{!Py.Str value}.

(** An instance: [_categories] is the reference the constructor was given,
    not a copy of what it refers to. *)
Record _SeriesData := {
  _series_idx : Z;
  _name : string;
  _values : list value;
  _categories : Py.seq_ref string;
}.

(** The store of the category lists: [categories_of h s] is what
    [self._categories] holds when the series is read. *)
Definition categories_of (h : gmap Py.loc (list string)) (s : _SeriesData)
    : list string :=
  Py.deref h (_categories s).

(** [__len__]. *)
Definition __len__ (s : _SeriesData) : Z := Py.len (_values s).

Definition index (s : _SeriesData) : Z := _series_idx s.
Definition name (s : _SeriesData) : string := _name s.
Definition values (s : _SeriesData) : list value := _values s.

(** The series as [_populate_worksheet] reads it. *)
Definition as_item (s : _SeriesData) : WorkbookWriter.item_series value :=
  {| WorkbookWriter.index := index s;
     WorkbookWriter.name := name s;
     WorkbookWriter.values := WorkbookWriter.Dense (values s) |}.

(** [_categories_ref]. *)
Definition _categories_ref (h : gmap Py.loc (list string)) (s : _SeriesData)
    : string :=
  let end_row_number := Py.len (categories_of h s) + 1 in
  "Sheet1!$A$2:$A$" +:+ Py.fmt_d end_row_number.

(** One [<c:pt>] of [_cat_pt_xml] and of [_val_pt_xml]: the template
    applied to [(idx, text)]. *)
Definition pt_xml (idx : Z) (text : string) : string :=
  Py.cat [
    "                <c:pt idx="; Py.dq; Py.fmt_d idx; Py.dq; ">"; Py.nl;
    "                  <c:v>"; text; "</c:v>"; Py.nl;
    "                </c:pt>"; Py.nl ].

(** [_cat_pt_xml]: the loop over [enumerate(self._categories)]. *)
Definition _cat_pt_xml (h : gmap Py.loc (list string)) (s : _SeriesData)
    : string :=
  foldl (λ xml '(idx, name), xml +:+ pt_xml idx (Py.str name))
    EmptyString (Py.enumerate (categories_of h s)).

(** [_cat_tmpl.format(...)]. *)
Definition _cat_tmpl (nsdecls wksht_ref cat_count cat_pt_xml : string)
    : string :=
  Py.cat [
    "          <c:cat"; nsdecls; ">"; Py.nl;
    "            <c:strRef>"; Py.nl;
    "              <c:f>"; wksht_ref; "</c:f>"; Py.nl;
    "              <c:strCache>"; Py.nl;
    "                <c:ptCount val="; Py.dq; cat_count; Py.dq; "/>"; Py.nl;
    cat_pt_xml;
    "              </c:strCache>"; Py.nl;
    "            </c:strRef>"; Py.nl;
    "          </c:cat>"; Py.nl ].

(** [cat_xml]. *)
Definition cat_xml (h : gmap Py.loc (list string)) (s : _SeriesData) : string :=
  _cat_tmpl EmptyString (_categories_ref h s)
    (Py.fmt_d (Py.len (categories_of h s))) (_cat_pt_xml h s).

(** [_col_letter]: [chr(ord('B') + self._series_idx)]. *)
Definition _col_letter (s : _SeriesData) : Py.result string :=
  Py.chr (Py.ord_B + _series_idx s).

(** [_series_name_ref]: ["Sheet1!$%s$1" % self._col_letter], the byte
    string of [chr] formatted into a unicode template. *)
Definition _series_name_ref (s : _SeriesData) : Py.result string :=
  col_letter ← _col_letter s;
  col_letter ← Py.decode_ascii col_letter;
  mret ("Sheet1!$" +:+ col_letter +:+ "$1").

(** [_tx_tmpl.format(...)]. *)
Definition _tx_tmpl (nsdecls wksht_ref series_name : string) : string :=
  Py.cat [
    "          <c:tx"; nsdecls; ">"; Py.nl;
    "            <c:strRef>"; Py.nl;
    "              <c:f>"; wksht_ref; "</c:f>"; Py.nl;
    "              <c:strCache>"; Py.nl;
    "                <c:ptCount val="; Py.dq; "1"; Py.dq; "/>"; Py.nl;
    "                <c:pt idx="; Py.dq; "0"; Py.dq; ">"; Py.nl;
    "                  <c:v>"; series_name; "</c:v>"; Py.nl;
    "                </c:pt>"; Py.nl;
    "              </c:strCache>"; Py.nl;
    "            </c:strRef>"; Py.nl;
    "          </c:tx>"; Py.nl ].

(** [tx_xml]. *)
Definition tx_xml (s : _SeriesData) : Py.result string :=
  wksht_ref ← _series_name_ref s;
  mret (_tx_tmpl EmptyString wksht_ref (Xl.escape (name s))).

(** [_val_pt_xml]: the loop over [enumerate(self._values)]. *)
Definition _val_pt_xml (s : _SeriesData) : string :=
  foldl (λ xml '(idx, value), xml +:+ pt_xml idx (Py.str value))
    EmptyString (Py.enumerate (_values s)).

(** [_val_tmpl.format(...)]. *)
Definition _val_tmpl (nsdecls wksht_ref val_count val_pt_xml : string)
    : string :=
  Py.cat [
    "          <c:val"; nsdecls; ">"; Py.nl;
    "            <c:numRef>"; Py.nl;
    "              <c:f>"; wksht_ref; "</c:f>"; Py.nl;
    "              <c:numCache>"; Py.nl;
    "                <c:formatCode>General</c:formatCode>"; Py.nl;
    "                <c:ptCount val="; Py.dq; val_count; Py.dq; "/>"; Py.nl;
    val_pt_xml;
    "              </c:numCache>"; Py.nl;
    "            </c:numRef>"; Py.nl;
    "          </c:val>"; Py.nl ].

(** [_values_ref]: the byte string of [chr] is formatted into a unicode
    template, as in [_series_name_ref]. *)
Definition _values_ref (s : _SeriesData) : Py.result string :=
  col_letter ← _col_letter s;
  col_letter ← Py.decode_ascii col_letter;
  mret ("Sheet1!$" +:+ col_letter +:+ "$2:$" +:+ col_letter +:+ "$"
        +:+ Py.fmt_d (Py.len (_values s) + 1)).

(** [val_xml]. *)
Definition val_xml (s : _SeriesData) : Py.result string :=
  wksht_ref ← _values_ref s;
  mret (_val_tmpl EmptyString wksht_ref (Py.fmt_d (__len__ s))
          (_val_pt_xml s)).

End WithValue.
Arguments _SeriesData value : clear implicits.
End SeriesData.

(** *** [ChartData] *)

Module ChartData.
Section WithValue.
Context {value : Type} `{!Py.Str value}.
Import SeriesData.

(** An instance: the category list is an object of the store, the series
    list belongs to the instance alone. *)
Record ChartData := {
  _categories : Py.loc;
  _series_lst : list (_SeriesData value);
}.

(** [__init__]: a new, empty category list is allocated. *)
Definition __init__ (h : gmap Py.loc (list string))
    : gmap Py.loc (list string) * ChartData :=
  let l := fresh (dom h) in
  (<[l := []]> h, {| _categories := l; _series_lst := [] |}).

(** [add_series]: the new series receives [self._categories], the list
    object.  The body has no [return] statement, so the call evaluates to
    [None]: the second component. *)
Definition add_series (self : ChartData) (name : string)
    (values : list value) : ChartData * option (_SeriesData value) :=
  let series_idx := Py.len (_series_lst self) in
  let series :=
    {| _series_idx := series_idx; _name := name; _values := values;
       SeriesData._categories := Py.ListObject (_categories self) |} in
  ({| _categories := _categories self;
      _series_lst := _series_lst self ++ [series] |}, None).

(** The [categories] getter: a tuple of the current contents. *)
Definition categories (h : gmap Py.loc (list string)) (self : ChartData)
    : list string :=
  default [] (h !! _categories self).

(** The [categories] setter: [self._categories[:] = categories], the
    contents of the list object are replaced in place. *)
Definition set_categories (h : gmap Py.loc (list string)) (self : ChartData)
    (categories : list string) : gmap Py.loc (list string) :=
  <[_categories self := categories]> h.

(** The [series] property: a tuple of the series. *)
Definition series (self : ChartData) : list (_SeriesData value) :=
  _series_lst self.

(** [xlsx_blob], up to the cells the worksheet receives: the workbook is
    populated from [self.categories] and [self._series_lst]. *)
Definition xlsx_blob (h : gmap Py.loc (list string)) (self : ChartData)
    : Xl.worksheet value :=
  WorkbookWriter._populate_worksheet []
    (WorkbookWriter.Flat (categories h self))
    (SeriesData.as_item <$> _series_lst self).

End WithValue.
Arguments ChartData value : clear implicits.
End ChartData.

(** *** [_SeriesDataMoreDetails] *)

(** The two advisory warnings of the module. *)
Inductive warning :=
| DifferentLengths   (* Categories and Values have different lengths. *)
| ValuesShorter.     (* Length of values is less than that of categories. *)

Module SeriesDataMoreDetails.
Section WithValue.
Context {value : Type} `{!Py.Str value}.

Definition level : Type := WorkbookWriter.level.

(** An instance; [values] and the levels of [categories] are sequences of
    [(idx, value)]. *)
Record _SeriesDataMoreDetails := {
  _series_idx : Z;
  _name : string;
  _values : list (Z * value);
  _categories : Py.seq_ref level;
  _values_len : Z;
  _auto_values_len : bool;
  _categories_len : option Z;
  _format_code : string;
}.

Definition categories_of (h : gmap Py.loc (list level))
    (s : _SeriesDataMoreDetails) : list level :=
  Py.deref h (_categories s).

(** [max(i[0] for i in pairs)]. *)
Definition max_idx {A} (pairs : list (Z * A)) : Py.result Z :=
  Py.max_seq (fst <$> pairs).

(** [max(i[0] for i in values) + 1]. *)
Definition max_idx_plus_1 {A} (pairs : list (Z * A)) : Py.result Z :=
  m ← max_idx pairs;
  mret (m + 1).

(** [max(max(j[0] for j in i) for i in categories) + 1]. *)
Definition max_cat_idx_plus_1 (categories : list level) : Py.result Z :=
  maxes ← mapM max_idx categories;
  m ← Py.max_seq maxes;
  mret (m + 1).

(** [__init__]; the result carries the warnings it has issued. *)
Definition __init__ (h : gmap Py.loc (list level))
    (series_idx : Z) (name : string) (values : list (Z * value))
    (categories : Py.seq_ref level)
    (values_len categories_len : option Z) (format_code : option string)
    : Py.result (_SeriesDataMoreDetails * list warning) :=
  (* self._values_len = values_len or max(i[0] for i in values) + 1 *)
  _values_len' ←
    (if Py.truthy_int values_len then mret (default 0 values_len)
     else max_idx_plus_1 values);
  (* self._auto_values_len = True if values_len else False *)
  let _auto_values_len' := if Py.truthy_int values_len then true else false in
  _categories_len' ←
    (if bool_decide (categories_len = None)
        && negb (Py.len (Py.deref h categories) =? 0)
     then n ← max_cat_idx_plus_1 (Py.deref h categories); mret (Some n)
     else mret categories_len);
  let warnings :=
    if bool_decide (Some _values_len' ≠ _categories_len')
    then [DifferentLengths] else [] in
  (* self._format_code = format_code or 'General' *)
  let _format_code' :=
    if Py.truthy_text format_code then default "General" format_code
    else "General" in
  mret ({| _series_idx := series_idx; _name := name; _values := values;
           _categories := categories; _values_len := _values_len';
           _auto_values_len := _auto_values_len';
           _categories_len := _categories_len';
           _format_code := _format_code' |}, warnings).

Definition categories_len (s : _SeriesDataMoreDetails) : option Z :=
  _categories_len s.
Definition values_len (s : _SeriesDataMoreDetails) : Z := _values_len s.
Definition format_code (s : _SeriesDataMoreDetails) : string := _format_code s.
Definition index (s : _SeriesDataMoreDetails) : Z := _series_idx s.
Definition name (s : _SeriesDataMoreDetails) : string := _name s.
Definition values (s : _SeriesDataMoreDetails) : list (Z * value) := _values s.

(** The [categories_len] setter. *)
Definition set_categories_len (s : _SeriesDataMoreDetails) (v : option Z)
    : _SeriesDataMoreDetails :=
  {| _series_idx := _series_idx s; _name := _name s; _values := _values s;
     _categories := _categories s; _values_len := _values_len s;
     _auto_values_len := _auto_values_len s; _categories_len := v;
     _format_code := _format_code s |}.

(** The [values_len] setter. *)
Definition set_values_len (s : _SeriesDataMoreDetails) (v : Z)
    : _SeriesDataMoreDetails :=
  {| _series_idx := _series_idx s; _name := _name s; _values := _values s;
     _categories := _categories s; _values_len := v;
     _auto_values_len := _auto_values_len s;
     _categories_len := _categories_len s;
     _format_code := _format_code s |}.

(** The [name] setter. *)
Definition set_name (s : _SeriesDataMoreDetails) (v : string)
    : _SeriesDataMoreDetails :=
  {| _series_idx := _series_idx s; _name := v; _values := _values s;
     _categories := _categories s; _values_len := _values_len s;
     _auto_values_len := _auto_values_len s;
     _categories_len := _categories_len s;
     _format_code := _format_code s |}.

(** The [values] setter: the values are stored, then, if
    [self._auto_values_len], the length is computed again, which raises on
    an empty sequence.  The object after the call, and the exception if one
    was raised. *)
Definition set_values (s : _SeriesDataMoreDetails) (_values' : list (Z * value))
    : _SeriesDataMoreDetails * option Py.exn :=
  let s' :=
    {| _series_idx := _series_idx s; _name := _name s; _values := _values';
       _categories := _categories s; _values_len := _values_len s;
       _auto_values_len := _auto_values_len s;
       _categories_len := _categories_len s;
       _format_code := _format_code s |} in
  if _auto_values_len s' then
    match max_idx_plus_1 _values' with
    | inr n => (set_values_len s' n, None)
    | inl e => (s', Some e)
    end
  else (s', None).

(** [is_cat_multilvl]. *)
Definition is_cat_multilvl (h : gmap Py.loc (list level))
    (s : _SeriesDataMoreDetails) : bool :=
  if 1 <? Py.len (categories_of h s) then true else false.

(** [prefix]. *)
Definition prefix (h : gmap Py.loc (list level)) (s : _SeriesDataMoreDetails)
    : string :=
  if is_cat_multilvl h s then "multiLvlStr" else "str".

(** [_categories_ref]; the length of the categories must be an integer to
    be incremented. *)
Definition _categories_ref (h : gmap Py.loc (list level))
    (s : _SeriesDataMoreDetails) : Py.result string :=
  let end_col_number := Py.len (categories_of h s) - 1 in
  match _categories_len s with
  | None => Py.raise Py.TypeError
  | Some end_row_number =>
      cell ← Xl.xl_rowcol_to_cell_abs end_row_number end_col_number;
      mret ("Sheet1!$A$2:" +:+ cell)
  end.

(** The template [pt_xml] of [_cat_pt_xml] applied to [(idx, name)]:
    [pt_indent_spaces.join(('', ..., ..., ...)) % (idx, name)]. *)
Definition cat_pt_tmpl (pt_indent_spaces : string) (idx : Z) (name : string)
    : string :=
  Py.join pt_indent_spaces [
    EmptyString;
    Py.cat ["                  <c:pt idx="; Py.dq; Py.fmt_d idx; Py.dq; ">"; Py.nl];
    Py.cat ["                    <c:v>"; Py.str name; "</c:v>"; Py.nl];
    Py.cat ["                  </c:pt>"; Py.nl] ].

(** [_cat_pt_xml]: the levels are visited in reverse (the reversed
    [range(len(self._categories))]); within a level, a point whose index is
    out of bound is ignored. *)
Definition _cat_pt_xml (h : gmap Py.loc (list level))
    (s : _SeriesDataMoreDetails) : string :=
  let '(lvl_start_tag, lvl_end_tag, pt_indent_spaces) :=
    if is_cat_multilvl h s
    then (Py.cat ["                  <c:lvl>"; Py.nl],
          Py.cat ["                  </c:lvl>"; Py.nl],
          "  ")
    else (EmptyString, EmptyString, EmptyString) in
  let loop_range := reverse (seq 0 (length (categories_of h s))) in
  foldl (λ xml ilvl,
           let lvl := default [] (categories_of h s !! ilvl) in
           let xml := xml +:+ lvl_start_tag in
           let xml :=
             foldl (λ xml '(idx, name),
                      if Py.lt_opt idx (categories_len s)
                      then xml +:+ cat_pt_tmpl pt_indent_spaces idx name
                      else xml)
               xml lvl in
           xml +:+ lvl_end_tag)
    EmptyString loop_range.

(** [_cat_tmpl.format(...)]. *)
Definition _cat_tmpl (nsdecls prefix wksht_ref cat_count cat_pt_xml : string)
    : string :=
  Py.cat [
    "          <c:cat"; nsdecls; ">"; Py.nl;
    "            <c:"; prefix; "Ref>"; Py.nl;
    "              <c:f>"; wksht_ref; "</c:f>"; Py.nl;
    "              <c:"; prefix; "Cache>"; Py.nl;
    "                <c:ptCount val="; Py.dq; cat_count; Py.dq; "/>"; Py.nl;
    cat_pt_xml;
    "              </c:"; prefix; "Cache>"; Py.nl;
    "            </c:"; prefix; "Ref>"; Py.nl;
    "          </c:cat>"; Py.nl ].

(** [cat_xml]. *)
Definition cat_xml (h : gmap Py.loc (list level)) (s : _SeriesDataMoreDetails)
    : Py.result string :=
  if Py.gt0_opt (_categories_len s) then
    wksht_ref ← _categories_ref h s;
    mret (_cat_tmpl EmptyString (prefix h s) wksht_ref
            (Py.fmt_d (default 0 (_categories_len s))) (_cat_pt_xml h s))
  else mret EmptyString.

(** [_col_letter]: [None] when the column number is negative. *)
Definition _col_letter (h : gmap Py.loc (list level))
    (s : _SeriesDataMoreDetails) : option string :=
  Xl.xl_col_to_name (Z.max 1 (Py.len (categories_of h s)) + _series_idx s).

(** [_series_name_ref], inherited from [_SeriesData]. *)
Definition _series_name_ref (h : gmap Py.loc (list level))
    (s : _SeriesDataMoreDetails) : string :=
  "Sheet1!$" +:+ Py.fmt_s_opt (_col_letter h s) +:+ "$1".

(** [tx_xml], inherited from [_SeriesData]. *)
Definition tx_xml (h : gmap Py.loc (list level)) (s : _SeriesDataMoreDetails)
    : string :=
  SeriesData._tx_tmpl EmptyString (_series_name_ref h s) (Xl.escape (name s)).

(** One [<c:pt>] of [_val_pt_xml]: the template applied to [(idx, value)]. *)
Definition val_pt_tmpl (idx : Z) (v : value) : string :=
  Py.cat [
    "                <c:pt idx="; Py.dq; Py.fmt_d idx; Py.dq; ">"; Py.nl;
    "                  <c:v>"; Py.str v; "</c:v>"; Py.nl;
    "                </c:pt>"; Py.nl ].

(** [_val_pt_xml]. *)
Definition _val_pt_xml (s : _SeriesDataMoreDetails) : string :=
  foldl (λ xml '(idx, value),
           if idx <? values_len s then xml +:+ val_pt_tmpl idx value else xml)
    EmptyString (_values s).

(** [_val_tmpl.format(...)]. *)
Definition _val_tmpl (nsdecls wksht_ref format_code val_count val_pt_xml : string)
    : string :=
  Py.cat [
    "          <c:val"; nsdecls; ">"; Py.nl;
    "            <c:numRef>"; Py.nl;
    "              <c:f>"; wksht_ref; "</c:f>"; Py.nl;
    "              <c:numCache>"; Py.nl;
    "                <c:formatCode>"; format_code; "</c:formatCode>"; Py.nl;
    "                <c:ptCount val="; Py.dq; val_count; Py.dq; "/>"; Py.nl;
    val_pt_xml;
    "              </c:numCache>"; Py.nl;
    "            </c:numRef>"; Py.nl;
    "          </c:val>"; Py.nl ].

(** [_values_ref]. *)
Definition _values_ref (h : gmap Py.loc (list level))
    (s : _SeriesDataMoreDetails) : string :=
  let col_letter := Py.fmt_s_opt (_col_letter h s) in
  let end_row_number := _values_len s + 1 in
  "Sheet1!$" +:+ col_letter +:+ "$2:$" +:+ col_letter +:+ "$"
    +:+ Py.fmt_d end_row_number.

(** [val_xml]. *)
Definition val_xml (h : gmap Py.loc (list level)) (s : _SeriesDataMoreDetails)
    : string :=
  _val_tmpl EmptyString (_values_ref h s) (_format_code s)
    (Py.fmt_d (_values_len s)) (_val_pt_xml s).

(** The series as [_populate_worksheet] reads it. *)
Definition as_item (s : _SeriesDataMoreDetails)
    : WorkbookWriter.item_series value :=
  {| WorkbookWriter.index := index s;
     WorkbookWriter.name := name s;
     WorkbookWriter.values := WorkbookWriter.Sparse (values s) |}.

End WithValue.
Arguments _SeriesDataMoreDetails value : clear implicits.
End SeriesDataMoreDetails.

(** *** [ChartDataMoreDetails] *)

Module ChartDataMoreDetails.
Section WithValue.
Context {value : Type} `{!Py.Str value}.
Import SeriesDataMoreDetails.

Record ChartDataMoreDetails := {
  _categories : Py.loc;
  _series_lst : list (_SeriesDataMoreDetails value);
  _categories_len : option Z;
  _values_len : option Z;
}.

(** [__init__]. *)
Definition __init__ (h : gmap Py.loc (list level))
    : gmap Py.loc (list level) * ChartDataMoreDetails :=
  let l := fresh (dom h) in
  (<[l := []]> h,
   {| _categories := l; _series_lst := [];
      _categories_len := None; _values_len := None |}).

(** The [categories] getter, inherited: [tuple(self._categories)]. *)
Definition categories (h : gmap Py.loc (list level))
    (self : ChartDataMoreDetails) : list level :=
  default [] (h !! _categories self).

(** The [categories] setter, inherited: the contents are replaced in
    place. *)
Definition set_categories (h : gmap Py.loc (list level))
    (self : ChartDataMoreDetails) (categories : list level)
    : gmap Py.loc (list level) :=
  <[_categories self := categories]> h.

(** The [categories_len] setter. *)
Definition set_categories_len (self : ChartDataMoreDetails) (v : option Z)
    : ChartDataMoreDetails :=
  {| _categories := _categories self;
     _series_lst :=
       (λ series, SeriesDataMoreDetails.set_categories_len series v)
         <$> _series_lst self;
     _categories_len := v; _values_len := _values_len self |}.

(** The [values_len] setter, with the warning it may issue. *)
Definition set_values_len (self : ChartDataMoreDetails) (v : Z)
    : ChartDataMoreDetails * list warning :=
  ({| _categories := _categories self;
      _series_lst :=
        (λ series, SeriesDataMoreDetails.set_values_len series v)
          <$> _series_lst self;
      _categories_len := _categories_len self; _values_len := Some v |},
   if Py.lt_opt v (_categories_len self) then [ValuesShorter] else []).

(** [add_series]: the new series receives [self.categories], the tuple
    the getter builds.  When the constructor raises, nothing is appended.
    The body has no [return] statement, so the call evaluates to [None]:
    the second component. *)
Definition add_series (h : gmap Py.loc (list level))
    (self : ChartDataMoreDetails) (name : string)
    (values : list (Z * value)) (values_len : option Z)
    (format_code : option string)
    : Py.result (ChartDataMoreDetails
                 * option (_SeriesDataMoreDetails value) * list warning) :=
  let series_idx := Py.len (_series_lst self) in
  '(series, warnings) ←
    SeriesDataMoreDetails.__init__ h series_idx name values
      (Py.Tuple (categories h self))
      (if Py.truthy_int values_len then values_len else _values_len self)
      (_categories_len self) format_code;
  mret ({| _categories := _categories self;
           _series_lst := _series_lst self ++ [series];
           _categories_len := _categories_len self;
           _values_len := _values_len self |}, None, warnings).

(** The [series] property. *)
Definition series (self : ChartDataMoreDetails)
    : list (_SeriesDataMoreDetails value) :=
  _series_lst self.

(** [xlsx_blob], up to the cells the worksheet receives. *)
Definition xlsx_blob (h : gmap Py.loc (list level))
    (self : ChartDataMoreDetails) : Xl.worksheet value :=
  WorkbookWriter._populate_worksheet []
    (WorkbookWriter.Levels (categories h self))
    (SeriesDataMoreDetails.as_item <$> _series_lst self).

End WithValue.
Arguments ChartDataMoreDetails value : clear implicits.
End ChartDataMoreDetails.

(** ** [pptx/oxml/chart/series.py] *)

Module Oxml.

(** An element of the parsed tree: its tag (with the namespace prefix),
    its attributes, its text ([None] when it has none) and its children in
    document order. *)
#[warnings="-register-all"]
Inductive element :=
| Element (tag : string) (attrib : list (string * string))
    (text : option string) (children : list element).

Definition tag (e : element) : string :=
  match e with Element t _ _ _ => t end.
Definition attrib (e : element) : list (string * string) :=
  match e with Element _ a _ _ => a end.
Definition text (e : element) : option string :=
  match e with Element _ _ t _ => t end.
Definition children (e : element) : list element :=
  match e with Element _ _ _ c => c end.

(** All the elements below [e], in document order. *)
Fixpoint descendants (e : element) : list element :=
  match e with
  | Element _ _ _ cs => List.flat_map (λ c, c :: descendants c) cs
  end.

(** [findall]: the children with a given tag. *)
Definition findall (nsptagname : string) (e : element) : list element :=
  filter (λ c, tag c = nsptagname) (children e).

(** Modelled from the spec: the child and attribute descriptors of
    [pptx/oxml/xmlchemy.py] are not under src/.  A missing required child
    is a hard structural failure, surfaced as an explicit error and never as
    a silent default; an optional child that is absent is [None]; a repeated
    child gives the list of the children present, which may be empty. *)
Definition ZeroOrOne (nsptagname : string) (e : element) : option element :=
  head (findall nsptagname e).

Definition OneAndOnlyOne (nsptagname : string) (e : element)
    : Py.result element :=
  match head (findall nsptagname e) with
  | Some child => Py.ret child
  | None => Py.raise Py.InvalidXmlError
  end.

Definition OneOrMore_lst (nsptagname : string) (e : element) : list element :=
  findall nsptagname e.

(** [e.get(attr_name)]. *)
Fixpoint lookup_attr (attr_name : string) (attrs : list (string * string))
    : option string :=
  match attrs with
  | [] => None
  | (k, v) :: rest =>
      if String.eqb k attr_name then Some v else lookup_attr attr_name rest
  end.

(** Modelled from the spec: a required attribute holding an unsigned
    integer (the index of a point, the declared count of a cache); its
    absence is the same structural failure. *)
Definition RequiredAttribute_int (attr_name : string) (e : element)
    : Py.result Z :=
  match lookup_attr attr_name (attrib e) with
  | Some str_value => Py.int_of_text str_value
  | None => Py.raise Py.InvalidXmlError
  end.

(** Reading an attribute of [None] is an [AttributeError]. *)
Definition of_optional {A} (o : option A) : Py.result A :=
  match o with
  | Some a => Py.ret a
  | None => Py.raise Py.AttributeError
  end.

(** *** [CT_StrVal_NumVal_Composite], the [<c:pt>] element *)
Module CT_StrVal_NumVal_Composite.
Definition v : element → Py.result element := OneAndOnlyOne "c:v".
Definition idx : element → Py.result Z := RequiredAttribute_int "idx".

(** [value]: [float(self.v.text)]; the text of an empty [<c:v>] is [None],
    and [float(None)] is a [TypeError]. *)
Definition value {number : Type} `{!Py.Float number} (pt : element)
    : Py.result number :=
  v ← v pt;
  match text v with
  | None => Py.raise Py.TypeError
  | Some t =>
      match Py.float t with
      | Some x => Py.ret x
      | None => Py.raise Py.ValueError
      end
  end.
End CT_StrVal_NumVal_Composite.

(** *** [CT_SeriesComposite], the [<c:ser>] element *)
Module CT_SeriesComposite.
Definition val : element → option element := ZeroOrOne "c:val".
Definition cat : element → option element := ZeroOrOne "c:cat".

(** Modelled from the spec: [xpath] of [pptx/oxml/xmlchemy.py] is not under
    src/.  [self.xpath('./c:val//c:pt')] gives the value points under the
    value child: the [<c:pt>] elements anywhere below a [<c:val>] child, in
    document order. *)
Definition xpath_val_pt (ser : element) : list element :=
  List.flat_map
    (λ val, filter (λ e, tag e = "c:pt") (descendants val))
    (findall "c:val" ser).

(** [val_pts]: those elements sorted by their [idx]. *)
Definition val_pts (ser : element) : Py.result (list element) :=
  keyed ← mapM (λ pt, k ← CT_StrVal_NumVal_Composite.idx pt; mret (k, pt))
               (xpath_val_pt ser);
  mret (Py.sorted_by_key keyed).

Definition idx : element → Py.result element := OneAndOnlyOne "c:idx".
Definition order : element → Py.result element := OneAndOnlyOne "c:order".
Definition tx : element → option element := ZeroOrOne "c:tx".
Definition spPr : element → option element := ZeroOrOne "c:spPr".
Definition invertIfNegative : element → option element :=
  ZeroOrOne "c:invertIfNegative".
Definition smooth : element → option element := ZeroOrOne "c:smooth".

(** [child.addnext(new)] where [child] is the first child with the tag
    [nsptagname] (what the descriptors return): [new] becomes the sibling
    right after it.  The children of the parent afterwards. *)
Fixpoint addnext (nsptagname : string) (new : element)
    (children : list element) : list element :=
  match children with
  | [] => []
  | c :: rest =>
      if decide (tag c = nsptagname) then c :: new :: rest
      else c :: addnext nsptagname new rest
  end.

(** The series element with its children replaced. *)
Definition with_children (ser : element) (cs : list element) : element :=
  Element (tag ser) (attrib ser) (text ser) cs.

(** [self.order.addnext(new)]: reading the required [<c:order>] raises when
    it is absent. *)
Definition order_addnext (ser new : element) : Py.result element :=
  _ ← order ser;
  mret (with_children ser (addnext "c:order" new (children ser))).

(** [_insert_invertIfNegative]: after [<c:spPr>] if there is one, else
    after [<c:tx>] if there is one, else after [<c:order>].  The series after
    the call and the element returned. *)
Definition _insert_invertIfNegative (ser invertIfNegative : element)
    : Py.result (element * element) :=
  match spPr ser with
  | Some _ =>
      mret (with_children ser
              (addnext "c:spPr" invertIfNegative (children ser)),
            invertIfNegative)
  | None =>
      match tx ser with
      | Some _ =>
          mret (with_children ser
                  (addnext "c:tx" invertIfNegative (children ser)),
                invertIfNegative)
      | None =>
          ser' ← order_addnext ser invertIfNegative;
          mret (ser', invertIfNegative)
      end
  end.

(** [_insert_spPr]: after [<c:tx>] if there is one, else after
    [<c:order>]. *)
Definition _insert_spPr (ser spPr : element) : Py.result (element * element) :=
  match tx ser with
  | Some _ =>
      mret (with_children ser (addnext "c:tx" spPr (children ser)), spPr)
  | None =>
      ser' ← order_addnext ser spPr;
      mret (ser', spPr)
  end.

(** [_insert_tx]: after [<c:order>]. *)
Definition _insert_tx (ser tx : element) : Py.result (element * element) :=
  ser' ← order_addnext ser tx;
  mret (ser', tx).
End CT_SeriesComposite.

(** *** [_Base_Ref] and the three reference elements *)
Module _Base_Ref.
Definition cf : element → option element := ZeroOrOne "c:f".
(** [text_cf]: the text of [<c:f>], [None] without one. *)
Definition text_cf (ref : element) : option string :=
  match cf ref with
  | Some f => text f
  | None => None
  end.
End _Base_Ref.

Module CT_MultiLvlStrRef.
Definition cache : element → Py.result element :=
  OneAndOnlyOne "c:multiLvlStrCache".
End CT_MultiLvlStrRef.

Module CT_StrRef.
Definition cache : element → Py.result element := OneAndOnlyOne "c:strCache".
End CT_StrRef.

Module CT_NumRef.
Definition cache : element → Py.result element := OneAndOnlyOne "c:numCache".
End CT_NumRef.

(** *** [_Base_Cache], [_PtMixin] and the cache elements *)
Module _Base_Cache.
Definition formatCode : element → option element := ZeroOrOne "c:formatCode".
Definition ptCount : element → Py.result element := OneAndOnlyOne "c:ptCount".
(** [ptCount.val], the required attribute of [<c:ptCount>]. *)
Definition ptCount_val (cache : element) : Py.result Z :=
  ptCount ← ptCount cache;
  RequiredAttribute_int "val" ptCount.
End _Base_Cache.

Module _PtMixin.
Definition pt_lst : element → list element := OneOrMore_lst "c:pt".

(** [tuple_pts]: the points as [(idx, v.text)]. *)
Definition tuple_pts (e : element) : Py.result (list (Z * option string)) :=
  mapM (λ pt,
          idx ← CT_StrVal_NumVal_Composite.idx pt;
          v ← CT_StrVal_NumVal_Composite.v pt;
          mret (idx, text v))
    (pt_lst e).
End _PtMixin.

Module CT_MultiLvlStrCache.
Definition lvl_lst : element → list element := OneOrMore_lst "c:lvl".
End CT_MultiLvlStrCache.

Module CT_NumCache.
Section WithNumber.
Context {number : Type} `{!Py.Float number}.

(** [text_fomatCode]. *)
Definition text_fomatCode (cache : element) : Py.result (option string) :=
  formatCode ← of_optional (_Base_Cache.formatCode cache);
  mret (text formatCode).

(** [tuple_pts]: [(idx, float(v.text))], or [(idx, v.text)] when the text
    is not a number; [float(None)] is a [TypeError]. *)
Definition tuple_pts (cache : element)
    : Py.result (list (Z * (number + string))) :=
  mapM (λ pt,
          v ← CT_StrVal_NumVal_Composite.v pt;
          value ← match text v with
                  | None => Py.raise Py.TypeError
                  | Some t =>
                      match Py.float t with
                      | Some x => Py.ret (inl x)
                      | None => Py.ret (inr t)
                      end
                  end;
          idx ← CT_StrVal_NumVal_Composite.idx pt;
          mret (idx, value))
    (_PtMixin.pt_lst cache).
End WithNumber.
End CT_NumCache.

(** *** [CT_Val], the [<c:val>] element, with what it inherits from
    [_Base_Seq] *)
Module CT_Val.
Section WithNumber.
Context {number : Type} `{!Py.Float number}.

Definition ref : element → option element := ZeroOrOne "c:numRef".

(** [text_ref]: [self.ref.text_cf]. *)
Definition text_ref (val : element) : Py.result (option string) :=
  ref ← of_optional (ref val);
  mret (_Base_Ref.text_cf ref).

(** [val_ptCount]: [self.ref.cache.ptCount.val]. *)
Definition val_ptCount (val : element) : Py.result Z :=
  ref ← of_optional (ref val);
  cache ← CT_NumRef.cache ref;
  _Base_Cache.ptCount_val cache.

(** [tuples_pts]: [self.ref.cache.tuple_pts]. *)
Definition tuples_pts (val : element)
    : Py.result (list (Z * (number + string))) :=
  ref ← of_optional (ref val);
  cache ← CT_NumRef.cache ref;
  CT_NumCache.tuple_pts cache.
End WithNumber.
End CT_Val.

(** *** [CT_Cat], the [<c:cat>] element *)
Module CT_Cat.
Definition _multilvlstrref : element → option element :=
  ZeroOrOne "c:multiLvlStrRef".
Definition _strref : element → option element := ZeroOrOne "c:strRef".

Definition is_multilvl (cat : element) : bool :=
  match _multilvlstrref cat with
  | None => false
  | Some _ => true
  end.

Definition ref (cat : element) : option element :=
  if is_multilvl cat then _multilvlstrref cat else _strref cat.

(** The [cache] of the reference, which is a [CT_MultiLvlStrRef] or a
    [CT_StrRef]. *)
Definition ref_cache (cat : element) : Py.result element :=
  ref' ← of_optional (ref cat);
  if is_multilvl cat then CT_MultiLvlStrRef.cache ref'
  else CT_StrRef.cache ref'.

Definition text_ref (cat : element) : Py.result (option string) :=
  ref ← of_optional (ref cat);
  mret (_Base_Ref.text_cf ref).

Definition val_ptCount (cat : element) : Py.result Z :=
  cache ← ref_cache cat;
  _Base_Cache.ptCount_val cache.

(** [tuples_pts]: one tuple of points per level, or a single one. *)
Definition tuples_pts (cat : element)
    : Py.result (list (list (Z * option string))) :=
  cache ← ref_cache cat;
  if is_multilvl cat
  then mapM _PtMixin.tuple_pts (CT_MultiLvlStrCache.lvl_lst cache)
  else (pts ← _PtMixin.tuple_pts cache; mret [pts]).
End CT_Cat.

End Oxml.

(** ** Definitions used to state the properties *)

(** The text of one level as [_cat_pt_xml] emits it when there are several
    levels: the points whose index is below [categories_len], between the
    tags of the level. *)
Definition lvl_xml (categories_len : option Z)
    (lvl : SeriesDataMoreDetails.level) : string :=
  Py.cat ["                  <c:lvl>"; Py.nl]
  +:+ Py.cat ((λ p, SeriesDataMoreDetails.cat_pt_tmpl "  " p.1 p.2)
                <$> filter (λ p, Py.lt_opt p.1 categories_len) lvl)
  +:+ Py.cat ["                  </c:lvl>"; Py.nl].

(** The text of the value fragment of a detailed series, written out line
    by line: one point of the cache, then the whole [<c:val>] element around
    the cell range [wksht_ref], the number format, the point count and the
    points. *)
Definition val_pt_text (idx : Z) (v : string) : string :=
  "                <c:pt idx=" +:+ Py.dq +:+ Py.fmt_d idx +:+ Py.dq +:+ ">"
    +:+ Py.nl
  +:+ "                  <c:v>" +:+ v +:+ "</c:v>" +:+ Py.nl
  +:+ "                </c:pt>" +:+ Py.nl.

Definition val_text (wksht_ref format_code : string) (val_count : Z)
    (points : list string) : string :=
  "          <c:val>" +:+ Py.nl
  +:+ "            <c:numRef>" +:+ Py.nl
  +:+ "              <c:f>" +:+ wksht_ref +:+ "</c:f>" +:+ Py.nl
  +:+ "              <c:numCache>" +:+ Py.nl
  +:+ "                <c:formatCode>" +:+ format_code +:+ "</c:formatCode>"
    +:+ Py.nl
  +:+ "                <c:ptCount val=" +:+ Py.dq +:+ Py.fmt_d val_count
    +:+ Py.dq +:+ "/>" +:+ Py.nl
  +:+ String.concat EmptyString points
  +:+ "              </c:numCache>" +:+ Py.nl
  +:+ "            </c:numRef>" +:+ Py.nl
  +:+ "          </c:val>" +:+ Py.nl.

(** The text of the category fragment of a detailed series with several
    levels, written out line by line: one point of a level (two columns
    further in than a point of a single level), one level with its points
    of index below [n], then the whole [<c:cat>] element around the cell
    range [wksht_ref], the point count and the levels. *)
Definition lvl_pt_text (idx : Z) (name : string) : string :=
  "                    <c:pt idx=" +:+ Py.dq +:+ Py.fmt_d idx +:+ Py.dq +:+ ">"
    +:+ Py.nl
  +:+ "                      <c:v>" +:+ name +:+ "</c:v>" +:+ Py.nl
  +:+ "                    </c:pt>" +:+ Py.nl.

Definition lvl_text (n : Z) (lvl : list (Z * string)) : string :=
  "                  <c:lvl>" +:+ Py.nl
  +:+ String.concat EmptyString
        ((λ p : Z * string, lvl_pt_text p.1 p.2)
           <$> filter (λ p : Z * string, p.1 < n) lvl)
  +:+ "                  </c:lvl>" +:+ Py.nl.

Definition multilvl_cat_text (wksht_ref : string) (cat_count : Z)
    (levels : list string) : string :=
  "          <c:cat>" +:+ Py.nl
  +:+ "            <c:multiLvlStrRef>" +:+ Py.nl
  +:+ "              <c:f>" +:+ wksht_ref +:+ "</c:f>" +:+ Py.nl
  +:+ "              <c:multiLvlStrCache>" +:+ Py.nl
  +:+ "                <c:ptCount val=" +:+ Py.dq +:+ Py.fmt_d cat_count
    +:+ Py.dq +:+ "/>" +:+ Py.nl
  +:+ String.concat EmptyString levels
  +:+ "              </c:multiLvlStrCache>" +:+ Py.nl
  +:+ "            </c:multiLvlStrRef>" +:+ Py.nl
  +:+ "          </c:cat>" +:+ Py.nl.

(** The letter of the digit [r] of a column name, [0] for A to [25] for Z. *)
Definition letter (r : Z) : ascii := ascii_of_N (Z.to_N (Py.ord_A + r)).

(** What [escape] does to one character: the ampersand and the two angle
    brackets become entities, every other character stays. *)
Definition escape_char (c : ascii) : string :=
  if Ascii.eqb c "&" then "&amp;"
  else if Ascii.eqb c "<" then "&lt;"
  else if Ascii.eqb c ">" then "&gt;"
  else String c EmptyString.

(** Escaping for the five special characters of XML, as the specification
    words it: the ampersand, the angle brackets and both quotes. *)
Definition escape_five_char (c : ascii) : string :=
  if Ascii.eqb c "&" then "&amp;"
  else if Ascii.eqb c "<" then "&lt;"
  else if Ascii.eqb c ">" then "&gt;"
  else if Ascii.eqb c (ascii_of_nat 34) then "&quot;"
  else if Ascii.eqb c "'" then "&apos;"
  else String c EmptyString.

(** A text with each character replaced by its escaped form. *)
Fixpoint escape_each (f : ascii → string) (s : string) : string :=
  match s with
  | EmptyString => EmptyString
  | String c s' => f c +:+ escape_each f s'
  end.

(** For the examples, numbers are integers and [float] reads a decimal
    integer. *)
Definition float_int : Py.Float Z := λ text,
  match Py.int_of_text text with
  | inr n => Some n
  | inl _ => None
  end.



(** The cells of the categories, as a list: a flat label at position [i] in
    row [1 + i] of column 0; a point [(idx, name)] of the level [ilvl] in
    row [1 + idx] of column [ilvl] (rows and columns from 0). *)
Definition category_cells {value} (categories : WorkbookWriter.categories_seq)
    : Xl.worksheet value :=
  match categories with
  | WorkbookWriter.Flat labels =>
      (λ p : Z * string, (1 + p.1, 0, Xl.Text p.2)) <$> Py.enumerate labels
  | WorkbookWriter.Levels lvls =>
      concat ((λ q : Z * WorkbookWriter.level,
                 (λ p : Z * string, (1 + p.1, q.1, Xl.Text p.2)) <$> q.2)
                <$> Py.enumerate lvls)
  end.

(** The first column of the series: the number of levels, 1 for flat
    or absent categories. *)
Definition value_start_col (categories : WorkbookWriter.categories_seq) : Z :=
  match categories with
  | WorkbookWriter.Levels (lvl :: lvls) => Py.len (lvl :: lvls)
  | _ => 1
  end.

(** The cells of one series: the name in row 0 of its column, a dense value
    at position [i] in row [1 + i], a pair [(idx, value)] in row
    [1 + idx]. *)
Definition series_cells {value} (value_start_col : Z)
    (item_series : WorkbookWriter.item_series value) : Xl.worksheet value :=
  let series_col := WorkbookWriter.index item_series + value_start_col in
  (0, series_col, Xl.Text (WorkbookWriter.name item_series))
  :: match WorkbookWriter.values item_series with
     | WorkbookWriter.Sparse ps =>
         (λ p : Z * value, (1 + p.1, series_col, Xl.Number p.2)) <$> ps
     | WorkbookWriter.Dense vs =>
         (λ p : Z * value, (1 + p.1, series_col, Xl.Number p.2))
           <$> Py.enumerate vs
     end.

(** A sequence of [add_series] calls on a [ChartData]. *)
Definition add_all {value} (cd : ChartData.ChartData value)
    (calls : list (string * list value)) : ChartData.ChartData value :=
  foldl (λ cd '(name, values), (ChartData.add_series cd name values).1)
    cd calls.

(** The series that the call number [k] of a sequence of [add_series] calls
    creates, on a data set that had [start] series and whose category list
    is at [cats]. *)
Definition nth_series {value} (cats : Py.loc) (start : Z) (k : nat)
    (call : string * list value) : SeriesData._SeriesData value :=
  {| SeriesData._series_idx := start + Z.of_nat k;
     SeriesData._name := call.1;
     SeriesData._values := call.2;
     SeriesData._categories := Py.ListObject cats |}.

(** Reading a column name back: a letter counts from 1 for A, the letters
    are the digits of a number in base 26, and the column is that number
    less one. *)
Definition letter_value (c : ascii) : Z := Z.of_N (N_of_ascii c) - 64.

Fixpoint name_value (acc : Z) (name : string) : Z :=
  match name with
  | EmptyString => acc
  | String c rest => name_value (acc * 26 + letter_value c) rest
  end.

Definition name_to_col (name : string) : Z := name_value 0 name - 1.

(** Three insertions into a series element, one after the other, each on
    the series the one before has left. *)
Definition insert_in_turn
    (f g k : Oxml.element → Oxml.element → Py.result (Oxml.element * Oxml.element))
    (ser a b c : Oxml.element) : Py.result Oxml.element :=
  r1 ← f ser a;
  r2 ← g r1.1 b;
  r3 ← k r2.1 c;
  mret r3.1.

(** The four tags the insertions of a series element look for. *)
Definition insertion_tags : list string :=
  ["c:order"; "c:tx"; "c:spPr"; "c:invertIfNegative"].

(** A series with two value points, the one of index 1 first, and its
    category element with a plain string reference. *)
Definition pt_element (idx v : string) : Oxml.element :=
  Oxml.Element "c:pt" [("idx", idx)] None [Oxml.Element "c:v" [] (Some v) []].

Definition num_cache_two_points : Oxml.element :=
  Oxml.Element "c:numCache" [] None [
    Oxml.Element "c:formatCode" [] (Some "General") [];
    Oxml.Element "c:ptCount" [("val", "2")] None [];
    pt_element "1" "7"; pt_element "0" "n/a" ].

Definition ser_two_points : Oxml.element :=
  Oxml.Element "c:ser" [] None [
    Oxml.Element "c:idx" [("val", "0")] None [];
    Oxml.Element "c:order" [("val", "0")] None [];
    Oxml.Element "c:cat" [] None [
      Oxml.Element "c:strRef" [] None [
        Oxml.Element "c:f" [] (Some "Sheet1!$A$2:$A$3") [];
        Oxml.Element "c:strCache" [] None [
          Oxml.Element "c:ptCount" [("val", "2")] None [];
          pt_element "0" "Q1"; pt_element "1" "Q2" ] ] ];
    Oxml.Element "c:val" [] None [
      Oxml.Element "c:numRef" [] None [
        Oxml.Element "c:f" [] (Some "Sheet1!$B$2:$B$3") [];
        num_cache_two_points ] ] ].

(** The row and the column of a cell write. *)
Definition cell_at {value} (c : Z * Z * Xl.token value) : Z * Z :=
  (c.1.1, c.1.2).

(** The series of a data set are numbered by their position. *)
Definition numbered_by_position {value}
    (series : list (SeriesDataMoreDetails._SeriesDataMoreDetails value))
    : Prop :=
  ∀ (i : nat) s, series !! i = Some s →
                 SeriesDataMoreDetails.index s = Z.of_nat i.

(** * Properties *)

(** ** The model on small inputs *)

Example fmt_d_ex :
  Py.fmt_d 0 = "0" ∧ Py.fmt_d 42 = "42" ∧ Py.fmt_d (-7) = "-7".
Proof. by vm_compute. Qed.

Example col_ex :
  Xl.xl_col_to_name 0 = Some "A" ∧ Xl.xl_col_to_name 25 = Some "Z" ∧
  Xl.xl_col_to_name 26 = Some "AA" ∧ Xl.xl_col_to_name 701 = Some "ZZ" ∧
  Xl.xl_col_to_name 702 = Some "AAA" ∧ Xl.xl_col_to_name (-1) = None.
Proof. by vm_compute. Qed.

Example escape_ex : Xl.escape "a<b & c>d" = "a&lt;b &amp; c&gt;d".
Proof. by vm_compute. Qed.

(** A value element whose cache holds the points 1 and 0, in this order, the
    second with a text that is not a number. *)
Example reader_ex :
  let pt idx v :=
    Oxml.Element "c:pt" [("idx", idx)] None [Oxml.Element "c:v" [] (Some v) []] in
  let val :=
    Oxml.Element "c:val" [] None [
      Oxml.Element "c:numRef" [] None [
        Oxml.Element "c:f" [] (Some "Sheet1!$B$2:$B$3") [];
        Oxml.Element "c:numCache" [] None [
          Oxml.Element "c:formatCode" [] (Some "General") [];
          Oxml.Element "c:ptCount" [("val", "2")] None [];
          pt "1" "7"; pt "0" "n/a" ] ] ] in
  @Oxml.CT_Val.tuples_pts Z float_int val = inr [(1, inl 7); (0, inr "n/a")]
  ∧ Oxml.CT_Val.val_ptCount val = inr 2
  ∧ Oxml.CT_Val.text_ref val = inr (Some "Sheet1!$B$2:$B$3")
  ∧ Oxml.CT_SeriesComposite.val_pts (Oxml.Element "c:ser" [] None [val])
    = inr [pt "0" "n/a"; pt "1" "7"].
Proof. by vm_compute. Qed.

(** ** Text and loops *)

Lemma append_String (x : ascii) (a b : string) :
  String x a +:+ b = String x (a +:+ b).
Proof. reflexivity. Qed.

Lemma append_assoc (a b c : string) : (a +:+ b) +:+ c = a +:+ (b +:+ c).
Proof.
  induction a as [|x a IH]; [done |]. rewrite !append_String. by f_equal.
Qed.

Lemma append_nil_r (a : string) : a +:+ EmptyString = a.
Proof. induction a as [|x a IH]; [done |]. rewrite append_String. by f_equal. Qed.

Lemma cat_cons (x : string) (xs : list string) :
  Py.cat (x :: xs) = x +:+ Py.cat xs.
Proof. reflexivity. Qed.

Lemma cat_app (xs ys : list string) :
  Py.cat (xs ++ ys) = Py.cat xs +:+ Py.cat ys.
Proof.
  induction xs as [|x xs IH]; [done |].
  by rewrite <- app_comm_cons, !cat_cons, IH, append_assoc.
Qed.

Lemma concat_cat (parts : list string) :
  String.concat EmptyString parts = Py.cat parts.
Proof.
  induction parts as [|x [|y parts] IH]; [done | |].
  - cbn [String.concat]. by rewrite cat_cons, append_nil_r.
  - change (String.concat EmptyString (x :: y :: parts))
      with (x +:+ EmptyString +:+ String.concat EmptyString (y :: parts)).
    by rewrite IH, cat_cons.
Qed.

Lemma foldl_ext {A B} (f g : A → B → A) (l : list B) (a : A) :
  (∀ a b, f a b = g a b) → foldl f a l = foldl g a l.
Proof.
  intros Hfg. revert a. induction l as [|b l IH]; intros a; [done |].
  cbn [foldl]. by rewrite Hfg, IH.
Qed.

(** A loop that appends one piece per element that passes a test builds the
    concatenation of the pieces of the elements that pass, in order. *)
Lemma foldl_append_filter {A} (f : A → string) (P : A → Prop)
    `{!∀ a, Decision (P a)} (l : list A) (acc : string) :
  foldl (λ xml a, if decide (P a) then xml +:+ f a else xml) acc l
  = acc +:+ Py.cat (f <$> filter P l).
Proof.
  revert acc. induction l as [|a l IH]; intros acc.
  - cbn. by rewrite append_nil_r.
  - rewrite filter_cons. cbn [foldl]. rewrite IH.
    destruct (decide (P a)); [|done].
    by rewrite fmap_cons, cat_cons, append_assoc.
Qed.

Lemma foldl_append_all {A} (f : A → string) (l : list A) (acc : string) :
  foldl (λ xml a, xml +:+ f a) acc l = acc +:+ Py.cat (f <$> l).
Proof.
  revert acc. induction l as [|a l IH]; intros acc.
  - cbn. by rewrite append_nil_r.
  - cbn [foldl]. by rewrite IH, fmap_cons, cat_cons, append_assoc.
Qed.

(** ** The value points of a detailed series *)

Section ValuePoints.
Context {value : Type} `{!Py.Str value}.
Import SeriesDataMoreDetails.

Lemma _val_pt_xml_filter (s : _SeriesDataMoreDetails value) :
  _val_pt_xml s
  = Py.cat ((λ p, val_pt_tmpl p.1 p.2)
              <$> filter (λ p, p.1 < values_len s) (_values s)).
Proof.
  unfold _val_pt_xml.
  etrans; [| apply (foldl_append_filter (λ p, val_pt_tmpl p.1 p.2)
                      (λ p, p.1 < values_len s) (_values s) EmptyString)].
  apply foldl_ext. intros xml [idx v]; cbn [fst snd].
  destruct (Z.ltb_spec idx (values_len s)); case_decide; done || lia.
Qed.

(** C5: the value fragment of a detailed series is the [<c:val>] element
    whose cache holds, after the number format and the point count, exactly
    one point element per supplied pair whose index is below [values_len],
    in the order supplied, each with the index and the value of its pair,
    and nothing for a pair whose index is [values_len] or more; with
    [values_len = 3] and the pairs at 0 and 5, the cache holds the point at
    0 and no other. *)
Theorem C5_value_points_truncated :
  (∀ (h : gmap Py.loc (list level)) (s : _SeriesDataMoreDetails value),
     let col_letter := Py.fmt_s_opt (_col_letter h s) in
     val_xml h s
     = val_text
         ("Sheet1!$" +:+ col_letter +:+ "$2:$" +:+ col_letter +:+ "$"
          +:+ Py.fmt_d (values_len s + 1))
         (format_code s) (values_len s)
         ((λ p, val_pt_text p.1 (Py.str p.2))
            <$> filter (λ p, p.1 < values_len s) (values s)))
  ∧ (∀ (h : gmap Py.loc (list level)) (series_idx : Z) (name : string)
       (categories : Py.seq_ref level) (auto : bool)
       (categories_len : option Z) (format_code : string) (v0 v5 : value),
       let s :=
         {| _series_idx := series_idx; _name := name;
            _values := [(0, v0); (5, v5)]; _categories := categories;
            _values_len := 3; _auto_values_len := auto;
            _categories_len := categories_len;
            _format_code := format_code |} in
       let col_letter := Py.fmt_s_opt (_col_letter h s) in
       val_xml h s
       = val_text
           ("Sheet1!$" +:+ col_letter +:+ "$2:$" +:+ col_letter +:+ "$4")
           format_code 3 [val_pt_text 0 (Py.str v0)]).
Proof.
  assert (Hall : ∀ (h : gmap Py.loc (list level))
                   (s : _SeriesDataMoreDetails value),
            val_xml h s
            = val_text
                ("Sheet1!$" +:+ Py.fmt_s_opt (_col_letter h s) +:+ "$2:$"
                 +:+ Py.fmt_s_opt (_col_letter h s) +:+ "$"
                 +:+ Py.fmt_d (values_len s + 1))
                (format_code s) (values_len s)
                ((λ p, val_pt_text p.1 (Py.str p.2))
                   <$> filter (λ p, p.1 < values_len s) (values s))).
  { intros h s. unfold val_xml, val_text.
    rewrite _val_pt_xml_filter, concat_cat.
    rewrite (list_fmap_ext (λ p, val_pt_text p.1 (Py.str p.2))
               (λ p, val_pt_tmpl p.1 p.2)) by (intros; reflexivity).
    reflexivity. }
  split; [exact Hall |].
  intros h series_idx name categories auto categories_len format_code v0 v5 s
    col_letter.
  rewrite Hall. reflexivity.
Qed.

End ValuePoints.

(** ** The category levels of a detailed series *)

Section CategoryLevels.
Context {value : Type} `{!Py.Str value}.
Import SeriesDataMoreDetails.

Lemma fmap_lookup_seq {A} (d : A) (l : list A) :
  (λ i, default d (l !! i)) <$> seq 0 (length l) = l.
Proof.
  apply list_eq. intros i. rewrite list_lookup_fmap.
  destruct (decide (i < length l)%nat) as [Hlt|Hge].
  - rewrite lookup_seq_lt by done. cbn.
    destruct (lookup_lt_is_Some_2 l i Hlt) as [x Hx]. by rewrite Hx.
  - rewrite lookup_seq_ge by lia. cbn. symmetry. apply lookup_ge_None. lia.
Qed.

Lemma _cat_pt_xml_multilvl (h : gmap Py.loc (list level))
    (s : _SeriesDataMoreDetails value) :
  is_cat_multilvl h s = true →
  _cat_pt_xml h s
  = Py.cat (lvl_xml (categories_len s) <$> reverse (categories_of h s)).
Proof.
  intros Hm. unfold _cat_pt_xml. rewrite Hm.
  etrans.
  { apply (foldl_ext _
             (λ xml ilvl,
                xml +:+ lvl_xml (categories_len s)
                          (default [] (categories_of h s !! ilvl)))).
    intros xml ilvl. cbv zeta. unfold lvl_xml.
    etrans.
    { apply f_equal2; [| reflexivity].
      etrans.
      { apply (foldl_ext _
                 (λ xml p, if decide (Py.lt_opt p.1 (categories_len s))
                           then xml +:+ cat_pt_tmpl "  " p.1 p.2 else xml)).
        intros a [idx name]; cbn [fst snd].
        destruct (Py.lt_opt idx (categories_len s)); by case_decide. }
      apply (foldl_append_filter (λ p, cat_pt_tmpl "  " p.1 p.2)). }
    by rewrite !append_assoc. }
  rewrite foldl_append_all.
  change (EmptyString +:+ ?x) with x.
  f_equal. rewrite !fmap_reverse. f_equal.
  transitivity (lvl_xml (categories_len s)
                  <$> ((λ i, default [] (categories_of h s !! i))
                         <$> seq 0 (length (categories_of h s)))).
  - by rewrite <- list_fmap_compose.
  - by rewrite fmap_lookup_seq.
Qed.

Lemma cat_pt_tmpl_text (idx : Z) (name : string) :
  cat_pt_tmpl "  " idx name = lvl_pt_text idx name.
Proof.
  unfold cat_pt_tmpl, lvl_pt_text, Py.join.
  cbn [String.concat Py.cat foldr]. rewrite !append_nil_r.
  change (EmptyString +:+ ?x) with x.
  rewrite !append_assoc. reflexivity.
Qed.

Lemma lvl_xml_text (n : Z) (lvl : list (Z * string)) :
  lvl_xml (Some n) lvl = lvl_text n lvl.
Proof.
  unfold lvl_xml, lvl_text. rewrite concat_cat.
  rewrite (list_fmap_ext (λ p : Z * string, lvl_pt_text p.1 p.2)
             (λ p, cat_pt_tmpl "  " p.1 p.2))
    by (intros; symmetry; apply cat_pt_tmpl_text).
  assert (Hf : filter (λ p : Z * string, p.1 < n) lvl
               = filter (λ p, Py.lt_opt p.1 (Some n)) lvl).
  { apply list_filter_iff. intros [idx name]. cbn [fst Py.lt_opt].
    destruct (Z.ltb_spec idx n); split; done || lia. }
  rewrite Hf. reflexivity.
Qed.

(** C7: with more than one level of categories, the category fragment of a
    detailed series depends on [categories_len].  When it is a positive
    integer [n], the fragment is the [<c:cat>] element whose multi-level
    cache holds, after the point count, exactly one level element per
    declared level, the levels in the reverse of their declaration order,
    each with its points of index below [n]; for the levels [L0, L1] the
    text of [L1] comes first, then that of [L0].  When it is [None], zero or
    negative, the fragment is the empty text and holds no level. *)
Theorem C7_levels_reversed (h : gmap Py.loc (list level))
    (s : _SeriesDataMoreDetails value) :
  1 < Py.len (categories_of h s) →
  ∃ end_letter,
    Xl.xl_col_to_name (Py.len (categories_of h s) - 1) = Some end_letter
    ∧ cat_xml h s
      = inr (match categories_len s with
             | Some n =>
                 if bool_decide (0 < n)
                 then multilvl_cat_text
                        ("Sheet1!$A$2:$" +:+ end_letter +:+ "$"
                         +:+ Py.fmt_d (n + 1))
                        n (lvl_text n <$> reverse (categories_of h s))
                 else EmptyString
             | None => EmptyString
             end)
    ∧ (∀ (L0 L1 : level) (n : Z),
         categories_of h s = [L0; L1] → categories_len s = Some n → 0 < n →
         cat_xml h s
         = inr (multilvl_cat_text ("Sheet1!$A$2:$B$" +:+ Py.fmt_d (n + 1)) n
                  [lvl_text n L1; lvl_text n L0])).
Proof.
  intros Hlen.
  assert (Hm : is_cat_multilvl h s = true).
  { unfold is_cat_multilvl.
    by destruct (Z.ltb_spec 1 (Py.len (categories_of h s))); [| lia]. }
  assert (∃ end_letter,
             Xl.xl_col_to_name (Py.len (categories_of h s) - 1)
             = Some end_letter) as [end_letter He].
  { unfold Xl.xl_col_to_name.
    destruct (Z.ltb_spec (Py.len (categories_of h s) - 1) 0); [lia |].
    by eexists. }
  assert (Hx : cat_xml h s
               = inr (match categories_len s with
                      | Some n =>
                          if bool_decide (0 < n)
                          then multilvl_cat_text
                                 ("Sheet1!$A$2:$" +:+ end_letter +:+ "$"
                                  +:+ Py.fmt_d (n + 1))
                                 n (lvl_text n <$> reverse (categories_of h s))
                          else EmptyString
                      | None => EmptyString
                      end)).
  { unfold cat_xml, categories_len.
    destruct (_categories_len s) as [n|] eqn:Hn; [| reflexivity].
    cbn [Py.gt0_opt]. destruct (Z.ltb_spec 0 n) as [Hpos|Hneg].
    - rewrite bool_decide_eq_true_2 by done.
      unfold _categories_ref, Xl.xl_rowcol_to_cell_abs. rewrite Hn, He.
      cbn [mbind Py.result_bind mret Py.result_ret]. unfold prefix.
      rewrite Hm, _cat_pt_xml_multilvl by done.
      unfold categories_len. rewrite Hn. cbn [default].
      rewrite (list_fmap_ext (lvl_xml (Some n)) (lvl_text n))
        by (intros; apply lvl_xml_text).
      unfold multilvl_cat_text. rewrite concat_cat. reflexivity.
    - by rewrite bool_decide_eq_false_2 by lia. }
  exists end_letter. split; [exact He |]. split; [exact Hx |].
  intros L0 L1 n Hc Hn Hpos. rewrite Hx, Hn.
  rewrite bool_decide_eq_true_2 by done. rewrite Hc in He |- *.
  injection He as <-. reflexivity.
Qed.

End CategoryLevels.

Lemma C7_levels_reversed_witness :
  let s : SeriesDataMoreDetails._SeriesDataMoreDetails Z :=
    {| SeriesDataMoreDetails._series_idx := 0;
       SeriesDataMoreDetails._name := "S";
       SeriesDataMoreDetails._values := [(0, 1)];
       SeriesDataMoreDetails._categories :=
         Py.Tuple [[(0, "2016"); (2, "2017")]; [(0, "Q1"); (1, "Q2"); (2, "Q1")]];
       SeriesDataMoreDetails._values_len := 1;
       SeriesDataMoreDetails._auto_values_len := false;
       SeriesDataMoreDetails._categories_len := Some 3;
       SeriesDataMoreDetails._format_code := "General" |} in
  1 < Py.len (SeriesDataMoreDetails.categories_of ∅ s)
  ∧ SeriesDataMoreDetails.cat_xml ∅ s
    = inr (multilvl_cat_text "Sheet1!$A$2:$B$4" 3
             [lvl_text 3 [(0, "Q1"); (1, "Q2"); (2, "Q1")];
              lvl_text 3 [(0, "2016"); (2, "2017")]]).
Proof.
  intros s.
  assert (Hlen : 1 < Py.len (SeriesDataMoreDetails.categories_of ∅ s))
    by (vm_compute; reflexivity).
  split; [exact Hlen |].
  destruct (C7_levels_reversed ∅ s Hlen) as (end_letter & _ & _ & Hlevels).
  apply (Hlevels [(0, "2016"); (2, "2017")] [(0, "Q1"); (1, "Q2"); (2, "Q1")] 3);
    [reflexivity | reflexivity | lia].
Defined.

(** C7 as stated fails: a series with two levels of categories, built with
    [categories_len = 0], renders the empty text as its category fragment,
    which holds no level at all. *)
Lemma C7_no_level_at_categories_len_0 :
  let L0 : SeriesDataMoreDetails.level := [(0, "2016"); (2, "2017")] in
  let L1 : SeriesDataMoreDetails.level := [(0, "Q1"); (1, "Q2"); (2, "Q1")] in
  ∃ (s : SeriesDataMoreDetails._SeriesDataMoreDetails Z) (w : list warning),
    SeriesDataMoreDetails.__init__ ∅ 0 "S" [(0, 1)] (Py.Tuple [L0; L1])
      None (Some 0) None
    = inr (s, w)
    ∧ SeriesDataMoreDetails.categories_of ∅ s = [L0; L1]
    ∧ SeriesDataMoreDetails.is_cat_multilvl ∅ s = true
    ∧ SeriesDataMoreDetails.cat_xml ∅ s = inr EmptyString
    ∧ SeriesDataMoreDetails.cat_xml ∅ s
      ≠ inr (multilvl_cat_text "Sheet1!$A$2:$B$1" 0
               [lvl_text 0 L1; lvl_text 0 L0]).
Proof.
  intros L0 L1. eexists _, _. split; [reflexivity |].
  repeat split. discriminate.
Qed.

(** ** The declared length of the values *)

Section ValuesLen.
Context {value : Type} `{!Py.Str value}.
Import SeriesDataMoreDetails.

(** What the constructor stores: the length is the one supplied when it is
    truthy and [max(index) + 1] otherwise, and [_auto_values_len] is set
    exactly when a length was supplied. *)
Lemma __init___values_len (h : gmap Py.loc (list level)) (series_idx : Z)
    (name : string) (values : list (Z * value)) (categories : Py.seq_ref level)
    (values_len categories_len : option Z) (format_code : option string)
    (s : _SeriesDataMoreDetails value) (w : list warning) :
  __init__ h series_idx name values categories values_len categories_len
    format_code = inr (s, w) →
  _auto_values_len s = Py.truthy_int values_len
  ∧ _values s = values
  ∧ (if Py.truthy_int values_len then Some (_values_len s) = values_len
     else max_idx_plus_1 values = inr (_values_len s)).
Proof.
  unfold __init__. intros Hinit.
  destruct (Py.truthy_int values_len) eqn:Ht.
  - destruct values_len as [n|]; [| done]. cbn in Hinit.
    destruct (_ && _) in Hinit; cbn in Hinit.
    + destruct (max_cat_idx_plus_1 _) in Hinit; cbn in Hinit; [done |].
      by inversion Hinit.
    + by inversion Hinit.
  - destruct (max_idx_plus_1 values) as [e|n] eqn:Hmax; cbn in Hinit; [done |].
    destruct (_ && _) in Hinit; cbn in Hinit.
    + destruct (max_cat_idx_plus_1 _) in Hinit; cbn in Hinit; [done |].
      by inversion Hinit.
    + by inversion Hinit.
Qed.

(** The [values] setter derives the length again exactly when
    [_auto_values_len] is set. *)
Lemma set_values_values_len (s : _SeriesDataMoreDetails value)
    (values' : list (Z * value)) :
  _values_len (set_values s values').1
  = if _auto_values_len s
    then match max_idx_plus_1 values' with
         | inr n => n
         | inl _ => _values_len s
         end
    else _values_len s.
Proof.
  unfold set_values. cbn [_auto_values_len].
  destruct (_auto_values_len s); [| done].
  by destruct (max_idx_plus_1 values').
Qed.

(** C6, the code at two inputs.  A series built from the pair at index 0
    with no length supplied gets the length 1 but is not in auto mode:
    assigning values that reach index 4 leaves the length at 1.  A series
    built with the length 10 supplied is in auto mode: assigning the single
    pair at index 0 changes the length to 1. *)
Theorem C6_auto_mode_inverted (v : value) :
  (∃ s w,
     __init__ ∅ 0 "S" [(0, v)] (Py.Tuple []) None None None = inr (s, w)
     ∧ _values_len s = 1
     ∧ _auto_values_len s = false
     ∧ set_values s [(0, v); (4, v)]
       = ({| _series_idx := 0; _name := "S"; _values := [(0, v); (4, v)];
             _categories := Py.Tuple []; _values_len := 1;
             _auto_values_len := false; _categories_len := None;
             _format_code := "General" |}, None))
  ∧ (∃ s w,
       __init__ ∅ 0 "S" [(0, v); (4, v)] (Py.Tuple []) (Some 10) None None
       = inr (s, w)
       ∧ _values_len s = 10
       ∧ _auto_values_len s = true
       ∧ _values_len (set_values s [(0, v)]).1 = 1).
Proof.
  split; eexists _, _; (split; [reflexivity |]); repeat split.
Qed.

End ValuesLen.

(** ** Adding series *)

Section AddSeries.
Context {value : Type} `{!Py.Str value}.

(** [max] of a sequence that is not empty does not raise. *)
Lemma max_seq_nonempty (xs : list Z) : xs ≠ [] → ∃ m, Py.max_seq xs = inr m.
Proof. destruct xs; [done | by eexists]. Qed.


Lemma mapM_max_seq_nonempty (categories : list SeriesDataMoreDetails.level) :
  Forall (λ lvl, lvl ≠ []) categories →
  ∃ maxes, mapM SeriesDataMoreDetails.max_idx categories = inr maxes
           ∧ length maxes = length categories.
Proof.
  induction 1 as [|lvl categories Hlvl _ [maxes [IH Hlen]]].
  - by exists [].
  - destruct lvl as [|p lvl]; [done |].
    eexists (_ :: maxes). cbn. rewrite IH. cbn. split; [done | by rewrite Hlen].
Qed.

Lemma max_cat_idx_plus_1_nonempty (categories : list SeriesDataMoreDetails.level) :
  categories ≠ [] → Forall (λ lvl, lvl ≠ []) categories →
  ∃ n, SeriesDataMoreDetails.max_cat_idx_plus_1 categories = inr n.
Proof.
  intros Hne Hall. unfold SeriesDataMoreDetails.max_cat_idx_plus_1.
  destruct (mapM_max_seq_nonempty categories Hall) as [maxes [-> Hlen]]. cbn.
  destruct maxes as [|m maxes]; [by destruct categories | by eexists].
Qed.



End AddSeries.



(** ** Reassigning the categories *)

Section LiveCategories.
Context {value : Type} `{!Py.Str value}.

Lemma add_all_categories (cd : ChartData.ChartData value)
    (calls : list (string * list value)) :
  ChartData._categories (add_all cd calls) = ChartData._categories cd.
Proof.
  revert cd. induction calls as [|[name values] calls IH]; intros cd; [done |].
  unfold add_all in *. cbn [foldl]. by rewrite IH.
Qed.

(** Every series of a [ChartData] refers to the list object of the data
    set. *)
Lemma add_all_shares (cd : ChartData.ChartData value)
    (calls : list (string * list value)) :
  Forall (λ s, SeriesData._categories s
               = Py.ListObject (ChartData._categories cd))
    (ChartData.series cd) →
  Forall (λ s, SeriesData._categories s
               = Py.ListObject (ChartData._categories cd))
    (ChartData.series (add_all cd calls)).
Proof.
  revert cd. induction calls as [|[name values] calls IH]; intros cd Hcd; [done |].
  unfold add_all in *. cbn [foldl].
  apply (IH (ChartData.add_series cd name values).1).
  cbn. apply Forall_app. split; [done |]. by repeat constructor.
Qed.

(** On a [ChartData], every series added sees the categories assigned
    afterwards: it renders the new sequence. *)
Lemma ChartData_series_see_new_categories (h : gmap Py.loc (list string))
    (calls : list (string * list value)) (categories : list string) :
  let '(h0, cd0) := ChartData.__init__ (value := value) h in
  let cd := add_all cd0 calls in
  let h1 := ChartData.set_categories h0 cd categories in
  ∀ s, s ∈ ChartData.series cd →
    SeriesData.categories_of h1 s = categories
    ∧ SeriesData._cat_pt_xml h1 s
      = Py.cat ((λ p, SeriesData.pt_xml p.1 p.2) <$> Py.enumerate categories).
Proof.
  unfold ChartData.__init__. cbv beta iota zeta. intros s Hs.
  set (cd0 := {| ChartData._categories := fresh (dom h);
                 ChartData._series_lst := [] |}) in *.
  pose proof (add_all_shares cd0 calls (Forall_nil_2 _)) as Hall.
  rewrite Forall_forall in Hall. specialize (Hall s Hs).
  assert (Hcat : SeriesData.categories_of
                   (ChartData.set_categories (<[fresh (dom h):=[]]> h)
                      (add_all cd0 calls) categories) s = categories).
  { unfold SeriesData.categories_of, ChartData.set_categories.
    rewrite Hall, add_all_categories. cbn. by rewrite lookup_insert_eq. }
  split; [done |].
  unfold SeriesData._cat_pt_xml. rewrite Hcat.
  etrans; [| apply (foldl_append_all (λ p, SeriesData.pt_xml p.1 p.2)
                      (Py.enumerate categories) EmptyString)].
  apply foldl_ext. by intros xml [idx name].
Qed.

(** A detailed series that holds a tuple renders the same text whatever the
    store holds. *)
Lemma detailed_tuple_ignores_store
    (h h' : gmap Py.loc (list SeriesDataMoreDetails.level))
    (s : SeriesDataMoreDetails._SeriesDataMoreDetails value)
    (levels : list SeriesDataMoreDetails.level) :
  SeriesDataMoreDetails._categories s = Py.Tuple levels →
  SeriesDataMoreDetails.cat_xml h s = SeriesDataMoreDetails.cat_xml h' s.
Proof.
  intros Hs.
  unfold SeriesDataMoreDetails.cat_xml, SeriesDataMoreDetails._categories_ref,
    SeriesDataMoreDetails.prefix, SeriesDataMoreDetails._cat_pt_xml,
    SeriesDataMoreDetails.is_cat_multilvl, SeriesDataMoreDetails.categories_of.
  by rewrite Hs.
Qed.

(** C3, the code at one input.  On a [ChartDataMoreDetails] whose
    categories are one level with the label [a], a series is added and the
    categories are then assigned one level with the label [b]: the data set
    holds the new categories, the series still refers to the tuple it was
    given and renders the label [a]. *)
Theorem C3_detailed_series_keeps_old_categories (v : value) :
  let '(h0, md0) := ChartDataMoreDetails.__init__ (value := value) ∅ in
  let h1 := ChartDataMoreDetails.set_categories h0 md0 [[(0, "a")]] in
  ∃ md1 s w,
    ChartDataMoreDetails.add_series h1 md0 "S" [(0, v)] None None
    = inr (md1, None, w)
    ∧ ChartDataMoreDetails.series md1 = [s]
    ∧ let h2 := ChartDataMoreDetails.set_categories h1 md1 [[(0, "b")]] in
      ChartDataMoreDetails.categories h2 md1 = [[(0, "b")]]
      ∧ SeriesDataMoreDetails._categories s = Py.Tuple [[(0, "a")]]
      ∧ SeriesDataMoreDetails._cat_pt_xml h2 s
        = SeriesDataMoreDetails.cat_pt_tmpl EmptyString 0 "a"
      ∧ SeriesDataMoreDetails.cat_xml h2 s = SeriesDataMoreDetails.cat_xml h1 s.
Proof.
  cbn. eexists _, _, _. split; [reflexivity |]. split; [reflexivity |].
  repeat split.
Qed.

End LiveCategories.

(** ** Column names *)

Lemma col_loop_stop (col_num : Z) (col_str : string) :
  col_num ≤ 0 → Xl.col_loop col_num col_str = col_str.
Proof.
  intros Hle. rewrite Xl.col_loop_equation_1.
  destruct (decide (col_num ≤ 0)); [done | lia].
Qed.

Lemma col_loop_step (col_num : Z) (col_str : string) :
  0 < col_num →
  Xl.col_loop col_num col_str
  = Xl.col_loop ((col_num - 1) `div` 26)
      (String (letter ((col_num - 1) `mod` 26)) col_str).
Proof.
  intros Hlt. rewrite Xl.col_loop_equation_1.
  destruct (decide (col_num ≤ 0)); [lia |]. cbn [Xl.col_loop_unfold_clause_1].
  cbv zeta. do 2 f_equal. unfold letter. do 2 f_equal.
  destruct (Z.eqb_spec (col_num `mod` 26) 0) as [H0|H0].
  - assert ((col_num - 1) `mod` 26 = 25); [| lia].
    rewrite (Z.div_mod col_num 26) at 1 by lia. rewrite H0.
    replace (26 * col_num `div` 26 + 0 - 1)
      with (25 + (col_num `div` 26 - 1) * 26) by lia.
    by rewrite Z.mod_add.
  - assert ((col_num - 1) `mod` 26 = col_num `mod` 26 - 1); [| lia].
    pose proof (Z.mod_pos_bound col_num 26).
    rewrite (Z.div_mod col_num 26) at 1 by lia.
    replace (26 * col_num `div` 26 + col_num `mod` 26 - 1)
      with ((col_num `mod` 26 - 1) + col_num `div` 26 * 26) by lia.
    rewrite Z.mod_add by lia. apply Z.mod_small. lia.
Qed.

(** The letters accumulate in front of what is already there. *)
Lemma col_loop_acc (col_num : Z) (col_str : string) :
  Xl.col_loop col_num col_str = Xl.col_loop col_num EmptyString +:+ col_str.
Proof.
  destruct (Z_le_gt_dec col_num 0) as [Hle|Hgt].
  { by rewrite !col_loop_stop. }
  revert col_str. pattern col_num. apply Z_lt_induction; [| lia].
  clear col_num Hgt. intros n IH col_str.
  destruct (Z_le_gt_dec n 0) as [Hle|Hgt].
  { by rewrite !col_loop_stop. }
  rewrite !(col_loop_step n) by lia.
  assert (0 ≤ (n - 1) `div` 26 < n) as Hq.
  { split; [apply Z.div_pos; lia |]. apply Z.div_lt_upper_bound; lia. }
  rewrite (IH _ Hq (String _ col_str)), (IH _ Hq (String _ EmptyString)).
  by rewrite append_assoc.
Qed.

(** A column below 26 is named by its letter. *)
Lemma xl_col_to_name_digit (r : Z) :
  0 ≤ r < 26 → Xl.xl_col_to_name r = Some (String (letter r) EmptyString).
Proof.
  intros Hr. unfold Xl.xl_col_to_name.
  destruct (Z.ltb_spec r 0); [lia |]. f_equal.
  rewrite col_loop_step by lia.
  replace (r + 1 - 1) with r by lia.
  rewrite Z.div_small, Z.mod_small by lia. by rewrite col_loop_stop.
Qed.

(** The name of the column [26 * (q + 1) + r] is the name of [q] followed by
    the letter of [r]: base 26 with the digits A to Z and no zero. *)
Lemma xl_col_to_name_snoc (q r : Z) :
  0 ≤ q → 0 ≤ r < 26 →
  Xl.xl_col_to_name (26 * (q + 1) + r)
  = (λ name, name +:+ String (letter r) EmptyString) <$> Xl.xl_col_to_name q.
Proof.
  intros Hq Hr. unfold Xl.xl_col_to_name.
  destruct (Z.ltb_spec (26 * (q + 1) + r) 0); [lia |].
  destruct (Z.ltb_spec q 0); [lia |]. cbn. f_equal.
  rewrite col_loop_step by lia.
  replace (26 * (q + 1) + r + 1 - 1) with (r + (q + 1) * 26) by lia.
  rewrite Z.div_add, Z.mod_add by lia.
  rewrite Z.div_small, Z.mod_small by lia.
  by rewrite col_loop_acc.
Qed.

Lemma decode_ascii_code (n : Z) :
  0 ≤ n < 128 →
  Py.decode_ascii (String (ascii_of_N (Z.to_N n)) EmptyString)
  = inr (String (ascii_of_N (Z.to_N n)) EmptyString).
Proof.
  intros Hn. unfold Py.decode_ascii.
  cbn [list_ascii_of_string forallb].
  rewrite N_ascii_embedding by lia.
  by replace (Z.to_N n <? 128)%N with true by (symmetry; apply N.ltb_lt; lia).
Qed.

Lemma decode_ascii_byte (n : Z) :
  128 ≤ n < 256 →
  Py.decode_ascii (String (ascii_of_N (Z.to_N n)) EmptyString)
  = inl Py.UnicodeDecodeError.
Proof.
  intros Hn. unfold Py.decode_ascii.
  cbn [list_ascii_of_string forallb].
  rewrite N_ascii_embedding by lia.
  by replace (Z.to_N n <? 128)%N with false by (symmetry; apply N.ltb_ge; lia).
Qed.

Section SeriesColumn.
Context {value : Type} `{!Py.Str value}.

(** The single letter of a simple series is the column name while the index
    is at most 24. *)
Lemma simple_refs (s : SeriesData._SeriesData value) (col_letter : string) :
  SeriesData._col_letter s = inr col_letter →
  Py.decode_ascii col_letter = inr col_letter →
  SeriesData._series_name_ref s = inr ("Sheet1!$" +:+ col_letter +:+ "$1")
  ∧ SeriesData._values_ref s
    = inr ("Sheet1!$" +:+ col_letter +:+ "$2:$" +:+ col_letter +:+ "$"
           +:+ Py.fmt_d (Py.len (SeriesData.values s) + 1)).
Proof.
  intros Hl Hd. unfold SeriesData._series_name_ref, SeriesData._values_ref.
  rewrite Hl. cbn [mbind Py.result_bind]. rewrite Hd. split; reflexivity.
Qed.

Lemma simple_col_letter (s : SeriesData._SeriesData value) :
  0 ≤ SeriesData._series_idx s ≤ 24 →
  SeriesData._col_letter s
  = inr (String (letter (1 + SeriesData._series_idx s)) EmptyString)
  ∧ Xl.xl_col_to_name (1 + SeriesData._series_idx s)
    = Some (String (letter (1 + SeriesData._series_idx s)) EmptyString).
Proof.
  intros Hi. split; [| apply xl_col_to_name_digit; lia].
  unfold SeriesData._col_letter, Py.chr.
  rewrite bool_decide_eq_true_2 by (unfold Py.ord_B; lia).
  unfold Py.ret, letter. do 4 f_equal. unfold Py.ord_A, Py.ord_B. lia.
Qed.

(** C4: the column of a detailed series with [w >= 1] levels of categories
    and index [i >= 0] is the alphabetic name of the column [w + i], in base
    26 with the digits A to Z and no zero; the column of a simple series is
    that of [1 + i] while [i <= 24].  A simple series of index 0 is in column
    B, one of index 1 in column C; a detailed series of index 24 with two
    levels is in column AA. *)
Theorem C4_series_column (h : gmap Py.loc (list SeriesDataMoreDetails.level))
    (d : SeriesDataMoreDetails._SeriesDataMoreDetails value)
    (s : SeriesData._SeriesData value) :
  1 ≤ Py.len (SeriesDataMoreDetails.categories_of h d) →
  0 ≤ SeriesDataMoreDetails.index d →
  0 ≤ SeriesData.index s ≤ 24 →
  (SeriesDataMoreDetails._col_letter h d
   = Xl.xl_col_to_name (Py.len (SeriesDataMoreDetails.categories_of h d)
                        + SeriesDataMoreDetails.index d)
   ∧ is_Some (SeriesDataMoreDetails._col_letter h d))
  ∧ (∃ name, SeriesData._col_letter s = inr name
             ∧ Xl.xl_col_to_name (1 + SeriesData.index s) = Some name)
  ∧ (∀ r, 0 ≤ r < 26 →
          Xl.xl_col_to_name r = Some (String (letter r) EmptyString))
  ∧ (∀ q r, 0 ≤ q → 0 ≤ r < 26 →
            Xl.xl_col_to_name (26 * (q + 1) + r)
            = (λ name, name +:+ String (letter r) EmptyString)
                <$> Xl.xl_col_to_name q)
  ∧ (Xl.xl_col_to_name 0 = Some "A" ∧ Xl.xl_col_to_name 25 = Some "Z"
     ∧ Xl.xl_col_to_name 26 = Some "AA")
  ∧ (∀ name (values : list value) categories,
       SeriesData._col_letter
         {| SeriesData._series_idx := 0; SeriesData._name := name;
            SeriesData._values := values;
            SeriesData._categories := categories |} = inr "B"
       ∧ SeriesData._col_letter
           {| SeriesData._series_idx := 1; SeriesData._name := name;
              SeriesData._values := values;
              SeriesData._categories := categories |} = inr "C")
  ∧ (∀ name (values : list (Z * value)) L0 L1 values_len auto categories_len
        format_code,
       SeriesDataMoreDetails._col_letter h
         {| SeriesDataMoreDetails._series_idx := 24;
            SeriesDataMoreDetails._name := name;
            SeriesDataMoreDetails._values := values;
            SeriesDataMoreDetails._categories := Py.Tuple [L0; L1];
            SeriesDataMoreDetails._values_len := values_len;
            SeriesDataMoreDetails._auto_values_len := auto;
            SeriesDataMoreDetails._categories_len := categories_len;
            SeriesDataMoreDetails._format_code := format_code |}
       = Some "AA").
Proof.
  intros Hw Hd Hs. split; [| split; [| split; [| split; [| split; [| split]]]]].
  - unfold SeriesDataMoreDetails._col_letter, SeriesDataMoreDetails.index in *.
    rewrite Z.max_r by lia. split; [done |].
    unfold Xl.xl_col_to_name.
    destruct (Z.ltb_spec (Py.len (SeriesDataMoreDetails.categories_of h d)
                          + SeriesDataMoreDetails._series_idx d) 0); [lia |].
    by eexists.
  - destruct (simple_col_letter s Hs) as [H1 H2]. by eexists.
  - apply xl_col_to_name_digit.
  - apply xl_col_to_name_snoc.
  - by vm_compute.
  - intros. by vm_compute.
  - intros. by vm_compute.
Qed.

End SeriesColumn.

Lemma C4_series_column_witness :
  let h : gmap Py.loc (list SeriesDataMoreDetails.level) := ∅ in
  let d : SeriesDataMoreDetails._SeriesDataMoreDetails Z :=
    {| SeriesDataMoreDetails._series_idx := 24;
       SeriesDataMoreDetails._name := "S";
       SeriesDataMoreDetails._values := [(0, 1)];
       SeriesDataMoreDetails._categories := Py.Tuple [[(0, "a")]; [(0, "b")]];
       SeriesDataMoreDetails._values_len := 1;
       SeriesDataMoreDetails._auto_values_len := false;
       SeriesDataMoreDetails._categories_len := Some 1;
       SeriesDataMoreDetails._format_code := "General" |} in
  let s : SeriesData._SeriesData Z :=
    {| SeriesData._series_idx := 24; SeriesData._name := "S";
       SeriesData._values := [1]; SeriesData._categories := Py.Tuple [] |} in
  1 ≤ Py.len (SeriesDataMoreDetails.categories_of h d)
  ∧ 0 ≤ SeriesDataMoreDetails.index d
  ∧ 0 ≤ SeriesData.index s ≤ 24
  ∧ SeriesDataMoreDetails._col_letter h d = Xl.xl_col_to_name (2 + 24)
  ∧ ∃ name, SeriesData._col_letter s = inr name
            ∧ Xl.xl_col_to_name (1 + 24) = Some name.
Proof.
  intros h d s.
  assert (H1 : 1 ≤ Py.len (SeriesDataMoreDetails.categories_of h d))
    by (vm_compute; discriminate).
  assert (H2 : 0 ≤ SeriesDataMoreDetails.index d) by (vm_compute; discriminate).
  assert (H3 : 0 ≤ SeriesData.index s ≤ 24)
    by (split; vm_compute; discriminate).
  repeat (split; [assumption |]).
  destruct (C4_series_column h d s H1 H2 H3) as [[Hd _] [Hs _]].
  split; [exact Hd | exact Hs].
Defined.

(** C4 as stated fails on a simple series: with index 25 its column is the
    character after Z, while the column 26 is named AA. *)
Lemma C4_simple_index_25 :
  SeriesData._col_letter
    ({| SeriesData._series_idx := 25; SeriesData._name := "S";
        SeriesData._values := [1]; SeriesData._categories := Py.Tuple [] |}
     : SeriesData._SeriesData Z) = inr "["
  ∧ Xl.xl_col_to_name (1 + 25) = Some "AA".
Proof. by vm_compute. Qed.

(** ** Escaping *)

Lemma replace_append (c : ascii) (rep a b : string) :
  Py.replace c rep (a +:+ b) = Py.replace c rep a +:+ Py.replace c rep b.
Proof.
  induction a as [|x a IH]; [done |].
  rewrite append_String. cbn [Py.replace]. rewrite IH.
  destruct (Ascii.eqb x c); [by rewrite append_assoc | done].
Qed.

(** The three replacements of [escape], one after the other, amount to
    escaping each character on its own. *)
Lemma escape_escape_each (data : string) :
  Xl.escape data = escape_each escape_char data.
Proof.
  unfold Xl.escape. cbv zeta.
  induction data as [|c data IH]; [done |].
  cbn [Py.replace escape_each]. rewrite <- IH. unfold escape_char.
  destruct (Ascii.eqb_spec c "&") as [->|Hamp].
  { by rewrite !replace_append. }
  cbn [Py.replace].
  destruct (Ascii.eqb_spec c ">") as [->|Hgt].
  { by rewrite !replace_append. }
  cbn [Py.replace].
  destruct (Ascii.eqb_spec c "<") as [->|Hlt]; [| done].
  done.
Qed.

Section Escaping.
Context {value : Type} `{!Py.Str value}.

(** C8: the name of a series is escaped before it is put in the name
    fragment, for the ampersand and the two angle brackets; the quotes stay
    as they are. *)
Theorem C8_series_name_escaped :
  (∀ s : SeriesData._SeriesData value,
     SeriesData.tx_xml s
     = (wksht_ref ← SeriesData._series_name_ref s;
        mret (SeriesData._tx_tmpl EmptyString wksht_ref
                (escape_each escape_char (SeriesData.name s)))))
  ∧ (∀ h (d : SeriesDataMoreDetails._SeriesDataMoreDetails value),
       SeriesDataMoreDetails.tx_xml h d
       = SeriesData._tx_tmpl EmptyString
           (SeriesDataMoreDetails._series_name_ref h d)
           (escape_each escape_char (SeriesDataMoreDetails.name d)))
  ∧ escape_char "&" = "&amp;" ∧ escape_char "<" = "&lt;"
  ∧ escape_char ">" = "&gt;"
  ∧ escape_char (ascii_of_nat 34) = String (ascii_of_nat 34) EmptyString
  ∧ escape_char "'" = "'".
Proof.
  split; [| split].
  - intros s. unfold SeriesData.tx_xml. by rewrite escape_escape_each.
  - intros h d. unfold SeriesDataMoreDetails.tx_xml.
    by rewrite escape_escape_each.
  - by vm_compute.
Qed.

End Escaping.

(** C8 as stated fails: an apostrophe in the name of a series and an
    ampersand in a category label reach the markup as they are, in a simple
    series and in a detailed one. *)
Lemma C8_quote_and_label_not_escaped :
  let s : SeriesData._SeriesData Z :=
    {| SeriesData._series_idx := 0; SeriesData._name := "'";
       SeriesData._values := [1]; SeriesData._categories := Py.Tuple ["&"] |} in
  let d : SeriesDataMoreDetails._SeriesDataMoreDetails Z :=
    {| SeriesDataMoreDetails._series_idx := 0;
       SeriesDataMoreDetails._name := "'";
       SeriesDataMoreDetails._values := [(0, 1)];
       SeriesDataMoreDetails._categories := Py.Tuple [[(0, "&")]];
       SeriesDataMoreDetails._values_len := 1;
       SeriesDataMoreDetails._auto_values_len := false;
       SeriesDataMoreDetails._categories_len := Some 1;
       SeriesDataMoreDetails._format_code := "General" |} in
  (SeriesData.tx_xml s = inr (SeriesData._tx_tmpl EmptyString "Sheet1!$B$1" "'")
   ∧ SeriesData.tx_xml s
     ≠ inr (SeriesData._tx_tmpl EmptyString "Sheet1!$B$1"
              (escape_each escape_five_char "'")))
  ∧ (SeriesData._cat_pt_xml ∅ s = SeriesData.pt_xml 0 "&"
     ∧ SeriesData._cat_pt_xml ∅ s
       ≠ SeriesData.pt_xml 0 (escape_each escape_five_char "&"))
  ∧ (SeriesDataMoreDetails.tx_xml ∅ d
     = SeriesData._tx_tmpl EmptyString "Sheet1!$B$1" "'"
     ∧ SeriesDataMoreDetails.tx_xml ∅ d
       ≠ SeriesData._tx_tmpl EmptyString "Sheet1!$B$1"
           (escape_each escape_five_char "'"))
  ∧ (SeriesDataMoreDetails._cat_pt_xml ∅ d
     = SeriesDataMoreDetails.cat_pt_tmpl EmptyString 0 "&"
     ∧ SeriesDataMoreDetails._cat_pt_xml ∅ d
       ≠ SeriesDataMoreDetails.cat_pt_tmpl EmptyString 0
           (escape_each escape_five_char "&")).
Proof.
  cbv zeta. repeat split; try (by vm_compute); vm_compute; discriminate.
Qed.

(** ** Category labels in the markup of a simple series *)


(** C2, the code at one input: a [ChartData] with the one category label
    [A&B] and a series of two values.  The category fragment of the series
    holds the label with its bare ampersand, which is not the text of an
    element of well-formed XML. *)
Theorem C2_label_with_ampersand :
  let '(h0, cd0) := ChartData.__init__ (value := Z) ∅ in
  let h1 := ChartData.set_categories h0 cd0 ["A&B"] in
  let cd1 := (ChartData.add_series cd0 "S" [1; 2]).1 in
  ∃ s, ChartData.series cd1 = [s]
       ∧ SeriesData.cat_xml h1 s
         = SeriesData._cat_tmpl EmptyString "Sheet1!$A$2:$A$2" "1"
             (Py.cat [
                "                <c:pt idx="; Py.dq; "0"; Py.dq; ">"; Py.nl;
                "                  <c:v>A&B</c:v>"; Py.nl;
                "                </c:pt>"; Py.nl ])
       ∧ SeriesData.cat_xml h1 s
         ≠ SeriesData._cat_tmpl EmptyString "Sheet1!$A$2:$A$2" "1"
             (SeriesData.pt_xml 0 (Xl.escape "A&B")).
Proof.
  cbn. eexists. split; [reflexivity |].
  split; [by vm_compute | vm_compute; discriminate].
Qed.

(** ** Reading a value reference without a cache *)

Section MissingCache.
Context {number : Type} `{!Py.Float number}.


(** The points of a series found by the search below [<c:val>]: when the
    search finds none, the result is the empty sequence. *)
Lemma val_pts_nothing_found (ser : Oxml.element) :
  Oxml.CT_SeriesComposite.xpath_val_pt ser = [] →
  Oxml.CT_SeriesComposite.val_pts ser = inr [].
Proof. intros Hx. unfold Oxml.CT_SeriesComposite.val_pts. by rewrite Hx. Qed.

End MissingCache.



(** ** The worksheet and the references *)

Lemma foldl_snoc_each {A B} (f : B → A) (l : list B) (acc : list A) :
  foldl (λ acc b, acc ++ [f b]) acc l = acc ++ (f <$> l).
Proof.
  revert acc. induction l as [|b l IH]; intros acc; cbn [foldl].
  - by rewrite app_nil_r.
  - by rewrite IH, fmap_cons, <- app_assoc.
Qed.

Lemma foldl_app_each {A B} (g : B → list A) (l : list B) (acc : list A) :
  foldl (λ acc b, acc ++ g b) acc l = acc ++ concat (g <$> l).
Proof.
  revert acc. induction l as [|b l IH]; intros acc; cbn [foldl].
  - by rewrite app_nil_r.
  - by rewrite IH, fmap_cons, <- app_assoc.
Qed.

Lemma enumerate_from_fmap {A B} (f : A → B) (start : Z) (l : list A) :
  Py.enumerate_from start (f <$> l)
  = (λ p, (p.1, f p.2)) <$> Py.enumerate_from start l.
Proof.
  revert start. induction l as [|a l IH]; intros start; [done |].
  cbn [Py.enumerate_from fmap list_fmap]. by rewrite <- IH.
Qed.

Section Worksheet.
Context {value : Type} `{!Py.Str value}.

Lemma write_column_cells (ws : Xl.worksheet value) (row col : Z)
    (data : list (Xl.token value)) :
  Xl.write_column ws row col data
  = ws ++ ((λ p, (row + p.1, col, p.2)) <$> Py.enumerate data).
Proof.
  unfold Xl.write_column, Xl.write.
  etrans; [| apply (foldl_snoc_each (λ p, (row + p.1, col, p.2)))].
  apply foldl_ext. by intros acc [i tok].
Qed.

Lemma write_series_cells (start : Z) (ws : Xl.worksheet value)
    (item_series : WorkbookWriter.item_series value) :
  WorkbookWriter.write_series start ws item_series
  = ws ++ series_cells start item_series.
Proof.
  unfold WorkbookWriter.write_series, series_cells, Xl.write. cbv zeta.
  destruct (WorkbookWriter.values item_series) as [vs|[|p ps]].
  - rewrite write_column_cells, <- app_assoc. cbn [app]. do 2 f_equal.
    unfold Py.enumerate. rewrite enumerate_from_fmap, <- list_fmap_compose.
    done.
  - rewrite write_column_cells, <- app_assoc. done.
  - etrans.
    { etrans; [| apply (foldl_snoc_each
                          (λ q : Z * value,
                             (1 + q.1, WorkbookWriter.index item_series + start,
                              Xl.Number q.2)))].
      apply foldl_ext. by intros acc [idx token]. }
    by rewrite <- app_assoc.
Qed.

Lemma write_categories_cells (ws : Xl.worksheet value)
    (categories : WorkbookWriter.categories_seq) :
  WorkbookWriter.write_categories ws categories
  = (ws ++ category_cells categories, value_start_col categories).
Proof.
  unfold WorkbookWriter.write_categories, category_cells, value_start_col.
  destruct categories as [labels|[|lvl lvls]].
  - rewrite write_column_cells. do 2 f_equal.
    unfold Py.enumerate. rewrite enumerate_from_fmap, <- list_fmap_compose.
    done.
  - rewrite write_column_cells. done.
  - f_equal.
    etrans; [| apply (foldl_app_each
                        (λ q : Z * WorkbookWriter.level,
                           (λ p, (1 + p.1, q.1, Xl.Text p.2)) <$> q.2))].
    apply foldl_ext. intros acc [ilvl l]. unfold Xl.write.
    etrans; [| apply (foldl_snoc_each
                        (λ p : Z * string, (1 + p.1, ilvl, Xl.Text p.2)))].
    apply foldl_ext. by intros acc' [idx token].
Qed.

(** What [_populate_worksheet] writes: the cells of the categories, then
    the cells of each series in turn. *)
Lemma _populate_worksheet_cells (ws : Xl.worksheet value)
    (categories : WorkbookWriter.categories_seq)
    (series : list (WorkbookWriter.item_series value)) :
  WorkbookWriter._populate_worksheet ws categories series
  = ws ++ category_cells categories
    ++ concat (series_cells (value_start_col categories) <$> series).
Proof.
  unfold WorkbookWriter._populate_worksheet.
  rewrite write_categories_cells.
  etrans.
  { etrans; [| apply (foldl_app_each
                        (series_cells (value_start_col categories)))].
    apply foldl_ext. intros acc it. apply write_series_cells. }
  by rewrite <- app_assoc.
Qed.

(** The column the worksheet uses for a detailed series is the one its
    references name, when the worksheet is given the categories of the
    series. *)
Lemma detailed_column_agrees (h : gmap Py.loc (list SeriesDataMoreDetails.level))
    (d : SeriesDataMoreDetails._SeriesDataMoreDetails value) :
  0 ≤ SeriesDataMoreDetails.index d →
  ∃ col_letter,
    SeriesDataMoreDetails._col_letter h d = Some col_letter
    ∧ Xl.xl_col_to_name
        (SeriesDataMoreDetails.index d
         + value_start_col
             (WorkbookWriter.Levels (SeriesDataMoreDetails.categories_of h d)))
      = Some col_letter.
Proof.
  intros Hi. unfold SeriesDataMoreDetails._col_letter, value_start_col.
  unfold SeriesDataMoreDetails.index in *.
  set (cats := SeriesDataMoreDetails.categories_of h d).
  assert (Z.max 1 (Py.len cats) + SeriesDataMoreDetails._series_idx d
          = SeriesDataMoreDetails._series_idx d
            + match cats with
              | [] => 1
              | lvl :: lvls => Py.len (lvl :: lvls)
              end) as ->.
  { destruct cats as [|lvl lvls]; unfold Py.len; cbn [length]; lia. }
  match goal with |- ∃ _, ?x = _ ∧ _ => destruct x as [name|] eqn:Hx end.
  - by exists name.
  - exfalso. unfold Xl.xl_col_to_name in Hx.
    destruct (Z.ltb_spec
                (SeriesDataMoreDetails._series_idx d
                 + match cats with
                   | [] => 1
                   | lvl :: lvls => Py.len (lvl :: lvls)
                   end) 0) as [Hneg|]; [| done].
    destruct cats; unfold Py.len in Hneg; cbn [length] in Hneg; lia.
Qed.

(** C1: the cells [_populate_worksheet] writes and the references of the
    series agree.  The worksheet receives the cells of the categories, then
    for each series its name in row 1 of the series column and its values
    below: a pair [(idx, value)] of a detailed series in row [idx + 2], every
    pair supplied, also one at or beyond [values_len].  For a detailed series
    whose categories are those the worksheet is given, and for a simple
    series of index at most 24, the column written is the column the name
    and value references spell, so that the cell in row [r] (from 0) is
    [$<col>$<r+1>]; flat categories are in column A, the levels of
    categories in the columns from A on. *)
Theorem C1_cells_match_references
    (h : gmap Py.loc (list SeriesDataMoreDetails.level))
    (d : SeriesDataMoreDetails._SeriesDataMoreDetails value)
    (hs : gmap Py.loc (list string)) (s : SeriesData._SeriesData value) :
  0 ≤ SeriesDataMoreDetails.index d →
  0 ≤ SeriesData.index s ≤ 24 →
  let cats := WorkbookWriter.Levels (SeriesDataMoreDetails.categories_of h d) in
  let col_d := SeriesDataMoreDetails.index d + value_start_col cats in
  let col_s := SeriesData.index s + 1 in
  (∀ ws categories (series : list (WorkbookWriter.item_series value)),
     WorkbookWriter._populate_worksheet ws categories series
     = ws ++ category_cells categories
       ++ concat (series_cells (value_start_col categories) <$> series))
  ∧ series_cells (value_start_col cats) (SeriesDataMoreDetails.as_item d)
    = (0, col_d, Xl.Text (SeriesDataMoreDetails.name d))
      :: ((λ p, (1 + p.1, col_d, Xl.Number p.2))
            <$> SeriesDataMoreDetails.values d)
  ∧ series_cells 1 (SeriesData.as_item s)
    = (0, col_s, Xl.Text (SeriesData.name s))
      :: ((λ p, (1 + p.1, col_s, Xl.Number p.2))
            <$> Py.enumerate (SeriesData.values s))
  ∧ (∃ col_letter,
       Xl.xl_col_to_name col_d = Some col_letter
       ∧ SeriesDataMoreDetails._series_name_ref h d
         = "Sheet1!$" +:+ col_letter +:+ "$1"
       ∧ SeriesDataMoreDetails._values_ref h d
         = "Sheet1!$" +:+ col_letter +:+ "$2:$" +:+ col_letter +:+ "$"
           +:+ Py.fmt_d (SeriesDataMoreDetails.values_len d + 1)
       ∧ ∀ row, Xl.xl_rowcol_to_cell_abs row col_d
                = inr ("$" +:+ col_letter +:+ "$" +:+ Py.fmt_d (row + 1)))
  ∧ (∃ col_letter,
       Xl.xl_col_to_name col_s = Some col_letter
       ∧ SeriesData._series_name_ref s
         = inr ("Sheet1!$" +:+ col_letter +:+ "$1")
       ∧ SeriesData._values_ref s
         = inr ("Sheet1!$" +:+ col_letter +:+ "$2:$" +:+ col_letter +:+ "$"
                +:+ Py.fmt_d (Py.len (SeriesData.values s) + 1))
       ∧ ∀ row, Xl.xl_rowcol_to_cell_abs row col_s
                = inr ("$" +:+ col_letter +:+ "$" +:+ Py.fmt_d (row + 1)))
  ∧ (SeriesData._categories_ref hs s
     = "Sheet1!$A$2:$A$"
       +:+ Py.fmt_d (Py.len (SeriesData.categories_of hs s) + 1)
     ∧ ∀ row, Xl.xl_rowcol_to_cell_abs row 0
              = inr ("$A$" +:+ Py.fmt_d (row + 1)))
  ∧ (∀ n, SeriesDataMoreDetails.categories_len d = Some n →
          1 ≤ Py.len (SeriesDataMoreDetails.categories_of h d) →
          ∃ end_letter,
            Xl.xl_col_to_name
              (Py.len (SeriesDataMoreDetails.categories_of h d) - 1)
            = Some end_letter
            ∧ SeriesDataMoreDetails._categories_ref h d
              = inr ("Sheet1!$A$2:$" +:+ end_letter +:+ "$"
                     +:+ Py.fmt_d (n + 1))).
Proof.
  intros Hd Hs cats col_d col_s.
  split; [apply _populate_worksheet_cells |].
  split; [reflexivity |]. split; [reflexivity |].
  split; [| split; [| split]].
  - destruct (detailed_column_agrees h d Hd) as (col_letter & Hl & Hc).
    exists col_letter. split; [exact Hc |].
    unfold SeriesDataMoreDetails._series_name_ref,
      SeriesDataMoreDetails._values_ref. rewrite Hl. cbv zeta.
    repeat split. intros row. unfold Xl.xl_rowcol_to_cell_abs.
    fold cats in Hc. fold col_d in Hc. by rewrite Hc.
  - destruct (simple_col_letter s Hs) as [Hl Hc].
    eexists. unfold SeriesData.index in col_s.
    replace col_s with (1 + SeriesData._series_idx s) by (unfold col_s; lia).
    split; [exact Hc |].
    destruct (simple_refs s _ Hl) as [Hn Hv];
      [apply decode_ascii_code; unfold Py.ord_A, SeriesData.index in *; lia |].
    split; [exact Hn |]. split; [exact Hv |].
    intros row. unfold Xl.xl_rowcol_to_cell_abs. by rewrite Hc.
  - split; [reflexivity |]. intros row. reflexivity.
  - intros n Hn Hlen. unfold SeriesDataMoreDetails._categories_ref.
    unfold SeriesDataMoreDetails.categories_len in Hn. rewrite Hn.
    unfold Xl.xl_rowcol_to_cell_abs, Xl.xl_col_to_name.
    destruct (Z.ltb_spec (Py.len (SeriesDataMoreDetails.categories_of h d) - 1) 0);
      [lia |].
    eexists. split; [reflexivity |]. reflexivity.
Qed.

End Worksheet.

Lemma C1_cells_match_references_witness :
  let d : SeriesDataMoreDetails._SeriesDataMoreDetails Z :=
    {| SeriesDataMoreDetails._series_idx := 24;
       SeriesDataMoreDetails._name := "S";
       SeriesDataMoreDetails._values := [(0, 1); (2, 3)];
       SeriesDataMoreDetails._categories :=
         Py.Tuple [[(0, "a"); (2, "b")]; [(0, "x"); (1, "y"); (2, "z")]];
       SeriesDataMoreDetails._values_len := 3;
       SeriesDataMoreDetails._auto_values_len := false;
       SeriesDataMoreDetails._categories_len := Some 3;
       SeriesDataMoreDetails._format_code := "General" |} in
  let s : SeriesData._SeriesData Z :=
    {| SeriesData._series_idx := 1; SeriesData._name := "T";
       SeriesData._values := [4; 5]; SeriesData._categories := Py.Tuple ["p"; "q"] |} in
  0 ≤ SeriesDataMoreDetails.index d
  ∧ 0 ≤ SeriesData.index s ≤ 24
  ∧ WorkbookWriter._populate_worksheet []
      (WorkbookWriter.Levels (SeriesDataMoreDetails.categories_of ∅ d))
      [SeriesDataMoreDetails.as_item d]
    = [(1, 0, Xl.Text "a"); (3, 0, Xl.Text "b");
       (1, 1, Xl.Text "x"); (2, 1, Xl.Text "y"); (3, 1, Xl.Text "z");
       (0, 26, Xl.Text "S"); (1, 26, Xl.Number 1); (3, 26, Xl.Number 3)]
  ∧ SeriesDataMoreDetails._values_ref ∅ d = "Sheet1!$AA$2:$AA$4"
  ∧ Xl.xl_rowcol_to_cell_abs 3 26 = inr "$AA$4"
  ∧ SeriesData._values_ref s = inr "Sheet1!$C$2:$C$3"
  ∧ Xl.xl_rowcol_to_cell_abs 2 2 = inr "$C$3".
Proof.
  intros d s.
  assert (Hd : 0 ≤ SeriesDataMoreDetails.index d) by (vm_compute; discriminate).
  assert (Hs : 0 ≤ SeriesData.index s ≤ 24)
    by (split; vm_compute; discriminate).
  split; [exact Hd |]. split; [exact Hs |].
  destruct (C1_cells_match_references ∅ d ∅ s Hd Hs)
    as (Hcells & _ & _ & (ld & Hld & _ & Hvd & Hrd) & (ls & Hls & _ & Hvs & Hrs) & _).
  split; [rewrite Hcells; reflexivity |].
  assert (ld = "AA") as -> by (vm_compute in Hld; congruence).
  assert (ls = "C") as -> by (vm_compute in Hls; congruence).
  split; [exact Hvd |].
  split; [exact (Hrd 3) |].
  split; [exact Hvs |].
  exact (Hrs 2).
Defined.

(** C1 as stated fails in three ways.  A pair of a detailed series at an
    index at or beyond [values_len] is written to the worksheet, below the
    range of the value reference.  A simple series of index 25 is written to
    column 26, named AA, while its references spell the character after Z.
    A detailed series added before the categories of its data set were
    assigned two levels is written to column 2, named C, while its
    references spell B. *)
Lemma C1_cells_and_references_differ :
  (let d : SeriesDataMoreDetails._SeriesDataMoreDetails Z :=
     {| SeriesDataMoreDetails._series_idx := 0;
        SeriesDataMoreDetails._name := "S";
        SeriesDataMoreDetails._values := [(0, 1); (5, 9)];
        SeriesDataMoreDetails._categories := Py.Tuple [[(0, "a")]];
        SeriesDataMoreDetails._values_len := 3;
        SeriesDataMoreDetails._auto_values_len := true;
        SeriesDataMoreDetails._categories_len := Some 1;
        SeriesDataMoreDetails._format_code := "General" |} in
   WorkbookWriter._populate_worksheet []
     (WorkbookWriter.Levels [[(0, "a")]]) [SeriesDataMoreDetails.as_item d]
   = [(1, 0, Xl.Text "a"); (0, 1, Xl.Text "S");
      (1, 1, Xl.Number 1); (6, 1, Xl.Number 9)]
   ∧ SeriesDataMoreDetails.values_len d = 3
   ∧ SeriesDataMoreDetails._values_ref ∅ d = "Sheet1!$B$2:$B$4"
   ∧ SeriesDataMoreDetails._val_pt_xml d
     = SeriesDataMoreDetails.val_pt_tmpl 0 1)
  ∧ (let s : SeriesData._SeriesData Z :=
       {| SeriesData._series_idx := 25; SeriesData._name := "S";
          SeriesData._values := [1]; SeriesData._categories := Py.Tuple [] |} in
     WorkbookWriter._populate_worksheet [] (WorkbookWriter.Flat [])
       [SeriesData.as_item s]
     = [(0, 26, Xl.Text "S"); (1, 26, Xl.Number 1)]
     ∧ Xl.xl_rowcol_to_cell_abs 0 26 = inr "$AA$1"
     ∧ SeriesData._series_name_ref s = inr "Sheet1!$[$1")
  ∧ (let '(h0, md0) := ChartDataMoreDetails.__init__ (value := Z) ∅ in
     let h1 := ChartDataMoreDetails.set_categories h0 md0 [[(0, "a")]] in
     ∃ md1 s w,
       ChartDataMoreDetails.add_series h1 md0 "S" [(0, 4)] None None
       = inr (md1, None, w)
       ∧ ChartDataMoreDetails.series md1 = [s]
       ∧ let h2 := ChartDataMoreDetails.set_categories h1 md1
                     [[(0, "a")]; [(0, "b")]] in
         ChartDataMoreDetails.xlsx_blob h2 md1
         = [(1, 0, Xl.Text "a"); (1, 1, Xl.Text "b");
            (0, 2, Xl.Text "S"); (1, 2, Xl.Number 4)]
         ∧ Xl.xl_rowcol_to_cell_abs 1 2 = inr "$C$2"
         ∧ SeriesDataMoreDetails._values_ref h2 s = "Sheet1!$B$2:$B$2").
Proof.
  split; [| split].
  - cbv zeta. repeat split.
  - cbv zeta. repeat split.
  - cbn. eexists _, _, _. split; [reflexivity |]. split; [reflexivity |].
    cbv zeta. repeat split.
Qed.

(** * Further properties *)

(** ** A [ChartData] and its series *)

Section ChartDataSeries.
Context {value : Type} `{!Py.Str value}.

(** The series list after a sequence of [add_series] calls: the series
    there were, then one series per call, numbered on from the count. *)
Lemma add_all_series_lst (cd : ChartData.ChartData value)
    (calls : list (string * list value)) :
  ChartData._series_lst (add_all cd calls)
  = ChartData._series_lst cd
    ++ imap (nth_series (ChartData._categories cd)
               (Py.len (ChartData._series_lst cd))) calls.
Proof.
  revert cd. induction calls as [|[name values] calls IH]; intros cd.
  - cbn. by rewrite app_nil_r.
  - unfold add_all in *. cbn [foldl]. rewrite IH. cbn [ChartData.add_series fst
      ChartData._series_lst ChartData._categories].
    rewrite <- app_assoc. f_equal. cbn [app imap]. f_equal.
    + unfold nth_series. cbn. f_equal. lia.
    + apply imap_ext. intros k call _. unfold nth_series, Py.len. cbn.
      f_equal. rewrite length_app. cbn. lia.
Qed.

(** X1: on a new [ChartData], after any sequence of [add_series] calls there
    is one series per call, and the series of the call number [i] has the
    index [i], the name and the values of that call, and refers to the
    category list of the data set. *)
Theorem X1_series_follow_calls (h : gmap Py.loc (list string))
    (calls : list (string * list value)) (i : nat) (name : string)
    (values : list value) :
  calls !! i = Some (name, values) →
  let cd := add_all (ChartData.__init__ h).2 calls in
  length (ChartData.series cd) = length calls
  ∧ ChartData.series cd !! i
    = Some {| SeriesData._series_idx := Z.of_nat i;
              SeriesData._name := name;
              SeriesData._values := values;
              SeriesData._categories :=
                Py.ListObject (ChartData._categories cd) |}.
Proof.
  intros Hi cd. unfold ChartData.series. subst cd.
  rewrite add_all_series_lst, add_all_categories.
  unfold ChartData.__init__.
  cbn [snd ChartData._series_lst ChartData._categories app].
  split; [by rewrite length_imap |].
  rewrite list_lookup_imap, Hi. cbn. unfold nth_series. cbn.
  do 2 f_equal.
Qed.

(** X2: a [ChartData] made later has a category list of its own.  Making it
    and assigning its categories leaves the categories of an existing data
    set as they were; the new data set starts with no categories and reads
    back what it is assigned. *)
Theorem X2_new_data_set_categories_apart (h : gmap Py.loc (list string))
    (cd : ChartData.ChartData value) (categories : list string) :
  is_Some (h !! ChartData._categories cd) →
  let h' := (ChartData.__init__ (value := value) h).1 in
  let cd' := (ChartData.__init__ (value := value) h).2 in
  ChartData._categories cd' ≠ ChartData._categories cd
  ∧ ChartData.categories h' cd = ChartData.categories h cd
  ∧ ChartData.categories h' cd' = []
  ∧ ChartData.categories (ChartData.set_categories h' cd' categories) cd'
    = categories
  ∧ ChartData.categories (ChartData.set_categories h' cd' categories) cd
    = ChartData.categories h cd.
Proof.
  intros Hcd h' cd'. subst h' cd'.
  unfold ChartData.__init__, ChartData.categories, ChartData.set_categories.
  cbn [fst snd ChartData._categories].
  assert (Hne : fresh (dom h) ≠ ChartData._categories cd).
  { intros Heq. apply (is_fresh (dom h)). rewrite Heq.
    by apply elem_of_dom. }
  split; [done |].
  rewrite !lookup_insert_eq. rewrite !lookup_insert_ne by done.
  repeat split.
Qed.


End ChartDataSeries.

Lemma X1_series_follow_calls_witness :
  [("East", [1; 2]); ("West", [3; 4])] !! 1%nat = Some ("West", [3; 4])
  ∧ ChartData.series
      (add_all (ChartData.__init__ (value := Z) ∅).2
         [("East", [1; 2]); ("West", [3; 4])]) !! 1%nat
    = Some {| SeriesData._series_idx := 1; SeriesData._name := "West";
              SeriesData._values := [3; 4];
              SeriesData._categories := Py.ListObject (fresh (∅ : gset Py.loc)) |}.
Proof.
  split; [reflexivity |].
  exact (proj2 (X1_series_follow_calls (value := Z) ∅
                  [("East", [1; 2]); ("West", [3; 4])] 1 "West" [3; 4]
                  eq_refl)).
Defined.

Lemma X2_new_data_set_categories_apart_witness :
  let h : gmap Py.loc (list string) := <[1%positive := ["a"; "b"]]> ∅ in
  let cd : ChartData.ChartData Z :=
    {| ChartData._categories := 1%positive; ChartData._series_lst := [] |} in
  is_Some (h !! ChartData._categories cd)
  ∧ ChartData.categories
      (ChartData.set_categories (ChartData.__init__ (value := Z) h).1
         (ChartData.__init__ (value := Z) h).2 ["x"]) cd
    = ["a"; "b"].
Proof.
  intros h cd.
  assert (Hcd : is_Some (h !! ChartData._categories cd)) by (by eexists).
  split; [exact Hcd |].
  destruct (X2_new_data_set_categories_apart h cd ["x"] Hcd)
    as (_ & _ & _ & _ & H5).
  exact H5.
Defined.


(** ** The column of a series *)

Lemma letter_value_letter (r : Z) : 0 ≤ r < 26 → letter_value (letter r) = r + 1.
Proof.
  intros Hr. unfold letter_value, letter, Py.ord_A.
  rewrite N_ascii_embedding by lia. lia.
Qed.

Lemma name_value_append (acc : Z) (a b : string) :
  name_value acc (a +:+ b) = name_value (name_value acc a) b.
Proof.
  revert acc. induction a as [|c a IH]; intros acc; [done |].
  rewrite append_String. cbn [name_value]. apply IH.
Qed.

(** A column name reads back as its column. *)
Lemma name_to_col_xl_col_to_name (col : Z) :
  0 ≤ col →
  ∃ name, Xl.xl_col_to_name col = Some name ∧ name_to_col name = col.
Proof.
  intros Hcol.
  assert (H : 0 ≤ col →
              ∃ name, Xl.xl_col_to_name col = Some name
                      ∧ name_to_col name = col); [| by apply H].
  pattern col. apply Z_lt_induction; [| exact Hcol].
  clear. intros n IH Hn.
  destruct (Z_lt_ge_dec n 26) as [Hlt|Hge].
  - exists (String (letter n) EmptyString).
    split; [apply xl_col_to_name_digit; lia |].
    unfold name_to_col. cbn [name_value]. rewrite letter_value_letter; lia.
  - pose proof (Z.div_mod n 26 ltac:(lia)) as Hdm.
    pose proof (Z.mod_pos_bound n 26 ltac:(lia)) as Hr.
    assert (1 ≤ n `div` 26) as Hq by (apply Z.div_le_lower_bound; lia).
    destruct (IH (n `div` 26 - 1)) as (nq & Hnq & Hv); [lia | lia |].
    exists (nq +:+ String (letter (n `mod` 26)) EmptyString). split.
    + replace n with (26 * (n `div` 26 - 1 + 1) + n `mod` 26) at 1 by lia.
      rewrite xl_col_to_name_snoc by lia. by rewrite Hnq.
    + unfold name_to_col in *. rewrite name_value_append. cbn [name_value].
      rewrite letter_value_letter by lia. lia.
Qed.

Section SeriesColumns.
Context {value : Type} `{!Py.Str value}.

(** X5: for a simple series whose index plus [ord('B')] is within a C long
    of 32 bits, [chr] gives a column letter exactly for an index from -66 to
    189, and raises [ValueError] outside.  The two references, and with them
    the name and value fragments, are text only for an index from -66 to 61,
    where the letter is an ASCII character; from 62 to 189 the letter is a
    byte from 128 on, and formatting it into the unicode reference raises
    [UnicodeDecodeError]; outside -66 to 189 they raise the [ValueError] of
    [chr]. *)
Theorem X5_simple_series_index_range (s : SeriesData._SeriesData value) :
  let i := SeriesData.index s in
  let col_letter := String (ascii_of_N (Z.to_N (66 + i))) EmptyString in
  let outcome (A : Type) (x : A) : Py.result A :=
    if bool_decide (-66 ≤ i ≤ 61) then inr x
    else if bool_decide (62 ≤ i ≤ 189) then inl Py.UnicodeDecodeError
    else inl Py.ValueError in
  -2147483648 ≤ 66 + i ≤ 2147483647 →
  SeriesData._col_letter s
  = (if bool_decide (-66 ≤ i ≤ 189) then inr col_letter
     else inl Py.ValueError)
  ∧ SeriesData._series_name_ref s
    = outcome string ("Sheet1!$" +:+ col_letter +:+ "$1")
  ∧ SeriesData._values_ref s
    = outcome string
        ("Sheet1!$" +:+ col_letter +:+ "$2:$" +:+ col_letter
         +:+ "$" +:+ Py.fmt_d (Py.len (SeriesData.values s) + 1))
  ∧ SeriesData.tx_xml s
    = outcome string
        (SeriesData._tx_tmpl EmptyString
           ("Sheet1!$" +:+ col_letter +:+ "$1")
           (Xl.escape (SeriesData.name s)))
  ∧ SeriesData.val_xml s
    = outcome string
        (SeriesData._val_tmpl EmptyString
           ("Sheet1!$" +:+ col_letter +:+ "$2:$" +:+ col_letter
            +:+ "$" +:+ Py.fmt_d (Py.len (SeriesData.values s) + 1))
           (Py.fmt_d (Py.len (SeriesData.values s)))
           (SeriesData._val_pt_xml s)).
Proof.
  intros i col_letter outcome _.
  assert (Hc : SeriesData._col_letter s
               = if bool_decide (-66 ≤ i ≤ 189) then inr col_letter
                 else inl Py.ValueError).
  { unfold SeriesData._col_letter, Py.chr, Py.ord_B, col_letter, i,
      SeriesData.index.
    destruct (decide (-66 ≤ SeriesData._series_idx s ≤ 189)) as [Hin|Hout].
    - rewrite !bool_decide_eq_true_2 by lia. done.
    - rewrite !bool_decide_eq_false_2 by lia. done. }
  split; [exact Hc |].
  unfold SeriesData.tx_xml, SeriesData.val_xml, SeriesData._series_name_ref,
    SeriesData._values_ref, outcome. rewrite Hc.
  destruct (decide (-66 ≤ i ≤ 61)) as [Hlo|Hlo].
  - rewrite !(bool_decide_eq_true_2 (-66 ≤ i ≤ 61)) by done.
    rewrite bool_decide_eq_true_2 by lia. cbn [mbind Py.result_bind].
    unfold col_letter. rewrite decode_ascii_code by lia. repeat split.
  - rewrite !(bool_decide_eq_false_2 (-66 ≤ i ≤ 61)) by done.
    destruct (decide (62 ≤ i ≤ 189)) as [Hhi|Hhi].
    + rewrite !(bool_decide_eq_true_2 (62 ≤ i ≤ 189)) by done.
      rewrite bool_decide_eq_true_2 by lia. cbn [mbind Py.result_bind].
      unfold col_letter. rewrite decode_ascii_byte by lia. repeat split.
    + rewrite !(bool_decide_eq_false_2 (62 ≤ i ≤ 189)) by done.
      rewrite bool_decide_eq_false_2 by lia. repeat split.
Qed.

(** X6: two simple series whose indices differ, both from 0 to 189, have
    different column letters. *)
Theorem X6_simple_columns_differ (s1 s2 : SeriesData._SeriesData value) :
  0 ≤ SeriesData.index s1 ≤ 189 → 0 ≤ SeriesData.index s2 ≤ 189 →
  SeriesData.index s1 ≠ SeriesData.index s2 →
  SeriesData._col_letter s1 ≠ SeriesData._col_letter s2.
Proof.
  intros H1 H2 Hne Heq. apply Hne.
  unfold SeriesData._col_letter, Py.chr, Py.ord_B, SeriesData.index in *.
  rewrite !bool_decide_eq_true_2 in Heq by lia.
  injection Heq as Heq.
  apply (f_equal N_of_ascii) in Heq.
  rewrite !N_ascii_embedding in Heq by lia. lia.
Qed.

(** X7: two detailed series over the same categories whose indices differ,
    neither negative, have different column letters, however large the
    indices; and each letter reads back as the column of the series. *)
Theorem X7_detailed_columns_differ
    (h : gmap Py.loc (list SeriesDataMoreDetails.level))
    (d1 d2 : SeriesDataMoreDetails._SeriesDataMoreDetails value) :
  0 ≤ SeriesDataMoreDetails.index d1 → 0 ≤ SeriesDataMoreDetails.index d2 →
  SeriesDataMoreDetails.categories_of h d1
  = SeriesDataMoreDetails.categories_of h d2 →
  SeriesDataMoreDetails.index d1 ≠ SeriesDataMoreDetails.index d2 →
  SeriesDataMoreDetails._col_letter h d1 ≠ SeriesDataMoreDetails._col_letter h d2
  ∧ name_to_col <$> SeriesDataMoreDetails._col_letter h d1
    = Some (Z.max 1 (Py.len (SeriesDataMoreDetails.categories_of h d1))
            + SeriesDataMoreDetails.index d1).
Proof.
  intros H1 H2 Hcats Hne.
  unfold SeriesDataMoreDetails._col_letter, SeriesDataMoreDetails.index in *.
  rewrite <- Hcats.
  set (w := Z.max 1 (Py.len (SeriesDataMoreDetails.categories_of h d1))).
  assert (1 ≤ w) by (unfold w; lia).
  destruct (name_to_col_xl_col_to_name
              (w + SeriesDataMoreDetails._series_idx d1)) as (n1 & Hn1 & Hv1);
    [lia |].
  destruct (name_to_col_xl_col_to_name
              (w + SeriesDataMoreDetails._series_idx d2)) as (n2 & Hn2 & Hv2);
    [lia |].
  rewrite Hn1, Hn2. split; [| cbn; by rewrite Hv1].
  intros Heq. injection Heq as Heq. subst n2. lia.
Qed.

End SeriesColumns.

Lemma X5_simple_series_index_range_witness :
  let s : SeriesData._SeriesData Z :=
    {| SeriesData._series_idx := 62; SeriesData._name := "S";
       SeriesData._values := [5; 7];
       SeriesData._categories := Py.Tuple ["a"; "b"] |} in
  -2147483648 ≤ 66 + SeriesData.index s ≤ 2147483647
  ∧ SeriesData._col_letter s
    = inr (String (ascii_of_N 128) EmptyString)
  ∧ SeriesData._series_name_ref s = inl Py.UnicodeDecodeError
  ∧ SeriesData.tx_xml s = inl Py.UnicodeDecodeError
  ∧ SeriesData.val_xml s = inl Py.UnicodeDecodeError.
Proof.
  intros s.
  assert (Hr : -2147483648 ≤ 66 + SeriesData.index s ≤ 2147483647)
    by (vm_compute; split; discriminate).
  split; [exact Hr |].
  destruct (X5_simple_series_index_range s Hr) as (Hc & Hn & _ & Ht & Hv).
  split; [exact Hc |]. split; [exact Hn |]. split; [exact Ht | exact Hv].
Defined.

Lemma X6_simple_columns_differ_witness :
  let s1 : SeriesData._SeriesData Z :=
    {| SeriesData._series_idx := 0; SeriesData._name := "East";
       SeriesData._values := [1]; SeriesData._categories := Py.Tuple [] |} in
  let s2 : SeriesData._SeriesData Z :=
    {| SeriesData._series_idx := 189; SeriesData._name := "West";
       SeriesData._values := [2]; SeriesData._categories := Py.Tuple [] |} in
  0 ≤ SeriesData.index s1 ≤ 189 ∧ 0 ≤ SeriesData.index s2 ≤ 189
  ∧ SeriesData.index s1 ≠ SeriesData.index s2
  ∧ SeriesData._col_letter s1 ≠ SeriesData._col_letter s2.
Proof.
  intros s1 s2.
  assert (H1 : 0 ≤ SeriesData.index s1 ≤ 189) by (cbn; lia).
  assert (H2 : 0 ≤ SeriesData.index s2 ≤ 189) by (cbn; lia).
  assert (H3 : SeriesData.index s1 ≠ SeriesData.index s2) by (cbn; lia).
  repeat (split; [assumption |]).
  exact (X6_simple_columns_differ s1 s2 H1 H2 H3).
Defined.

Lemma X7_detailed_columns_differ_witness :
  let mk idx : SeriesDataMoreDetails._SeriesDataMoreDetails Z :=
    {| SeriesDataMoreDetails._series_idx := idx;
       SeriesDataMoreDetails._name := "S";
       SeriesDataMoreDetails._values := [(0, 1)];
       SeriesDataMoreDetails._categories := Py.Tuple [[(0, "a")]; [(0, "b")]];
       SeriesDataMoreDetails._values_len := 1;
       SeriesDataMoreDetails._auto_values_len := false;
       SeriesDataMoreDetails._categories_len := Some 1;
       SeriesDataMoreDetails._format_code := "General" |} in
  0 ≤ SeriesDataMoreDetails.index (mk 24)
  ∧ 0 ≤ SeriesDataMoreDetails.index (mk 700)
  ∧ SeriesDataMoreDetails.index (mk 24) ≠ SeriesDataMoreDetails.index (mk 700)
  ∧ SeriesDataMoreDetails._col_letter ∅ (mk 24)
    ≠ SeriesDataMoreDetails._col_letter ∅ (mk 700)
  ∧ name_to_col <$> SeriesDataMoreDetails._col_letter ∅ (mk 24) = Some 26.
Proof.
  intros mk.
  assert (H1 : 0 ≤ SeriesDataMoreDetails.index (mk 24)) by (cbn; lia).
  assert (H2 : 0 ≤ SeriesDataMoreDetails.index (mk 700)) by (cbn; lia).
  assert (H3 : SeriesDataMoreDetails.index (mk 24)
               ≠ SeriesDataMoreDetails.index (mk 700)) by (cbn; lia).
  repeat (split; [assumption |]).
  exact (X7_detailed_columns_differ ∅ (mk 24) (mk 700) H1 H2 eq_refl H3).
Defined.

(** ** Building and changing a detailed series *)

Lemma foldl_max_bound (x : Z) (xs : list Z) :
  x ≤ foldl Z.max x xs
  ∧ (∀ y, y ∈ xs → y ≤ foldl Z.max x xs)
  ∧ (foldl Z.max x xs = x ∨ foldl Z.max x xs ∈ xs).
Proof.
  revert x. induction xs as [|a xs IH]; intros x; cbn [foldl].
  - split; [lia |]. split; [by intros y Hy; apply elem_of_nil in Hy | by left].
  - destruct (IH (Z.max x a)) as (H1 & H2 & H3).
    split; [lia |]. split.
    + intros y Hy. apply elem_of_cons in Hy as [->|Hy]; [lia | by apply H2].
    + destruct H3 as [H3|H3].
      * rewrite H3. destruct (Z.max_spec x a) as [[_ ->]|[_ ->]];
          [right; apply list_elem_of_here | by left].
      * right. by apply list_elem_of_further.
Qed.

(** [max] gives an element of the sequence that no element exceeds. *)
Lemma max_seq_spec (xs : list Z) (m : Z) :
  Py.max_seq xs = inr m → m ∈ xs ∧ ∀ y, y ∈ xs → y ≤ m.
Proof.
  destruct xs as [|x xs]; [done |]. cbn. intros [= <-].
  destruct (foldl_max_bound x xs) as (H1 & H2 & H3). split.
  - destruct H3 as [->|H3]; [apply list_elem_of_here |
                             by apply list_elem_of_further].
  - intros y Hy. apply elem_of_cons in Hy as [->|Hy]; [done | by apply H2].
Qed.

Lemma max_idx_plus_1_spec {A} (pairs : list (Z * A)) (n : Z) :
  SeriesDataMoreDetails.max_idx_plus_1 pairs = inr n →
  (∃ p, p ∈ pairs ∧ p.1 + 1 = n) ∧ ∀ p, p ∈ pairs → p.1 < n.
Proof.
  unfold SeriesDataMoreDetails.max_idx_plus_1, SeriesDataMoreDetails.max_idx.
  destruct (Py.max_seq pairs.*1) as [e|m] eqn:Hm; [done |].
  cbn. intros [= <-]. destruct (max_seq_spec _ _ Hm) as [Hin Hle]. split.
  - apply list_elem_of_fmap in Hin as (p & -> & Hp). by exists p.
  - intros p Hp. pose proof (Hle p.1 (list_elem_of_fmap_2 fst _ _ Hp)). lia.
Qed.

Lemma filter_all {A} (P : A → Prop) `{!∀ a, Decision (P a)} (l : list A) :
  (∀ a, a ∈ l → P a) → filter P l = l.
Proof.
  induction l as [|a l IH]; intros Hall; [done |].
  rewrite filter_cons_True by (apply Hall, list_elem_of_here).
  f_equal. apply IH. intros b Hb. by apply Hall, list_elem_of_further.
Qed.

Lemma mapM_max_idx_empty_level (cats : list SeriesDataMoreDetails.level) :
  Exists (λ lvl, lvl = []) cats →
  mapM SeriesDataMoreDetails.max_idx cats = inl Py.ValueError.
Proof.
  induction 1 as [lvl cats ->|lvl cats _ IH]; [done |].
  cbn. destruct lvl as [|p lvl]; [done |]. cbn. by rewrite IH.
Qed.

Section DetailedSeries.
Context {value : Type} `{!Py.Str value}.
Import SeriesDataMoreDetails.

(** X8: a detailed series built with no length of values (or the length 0)
    gets [max(index) + 1]: some pair is at the last index, every pair is
    below the length, and the value fragment holds a point for every pair
    supplied. *)
Theorem X8_derived_values_len_keeps_all (h : gmap Py.loc (list level))
    (series_idx : Z) (name : string) (values : list (Z * value))
    (categories : Py.seq_ref level) (values_len categories_len : option Z)
    (format_code : option string) (s : _SeriesDataMoreDetails value)
    (w : list warning) :
  Py.truthy_int values_len = false →
  __init__ h series_idx name values categories values_len categories_len
    format_code = inr (s, w) →
  (∃ p, p ∈ values ∧ p.1 + 1 = SeriesDataMoreDetails.values_len s)
  ∧ (∀ p, p ∈ values → p.1 < SeriesDataMoreDetails.values_len s)
  ∧ _val_pt_xml s = Py.cat ((λ p, val_pt_tmpl p.1 p.2) <$> values).
Proof.
  intros Ht Hinit.
  destruct (__init___values_len _ _ _ _ _ _ _ _ _ _ Hinit) as (_ & Hv & Hl).
  rewrite Ht in Hl. destruct (max_idx_plus_1_spec _ _ Hl) as [Hex Hall].
  split; [exact Hex |]. split; [exact Hall |].
  rewrite _val_pt_xml_filter, Hv. by rewrite filter_all.
Qed.

(** X9: the constructor of a detailed series raises exactly when it has to
    take the maximum of an empty sequence: no usable length of values and no
    value, or no length of categories and, among the categories, an empty
    level.  It raises nothing but [ValueError]. *)
Theorem X9_init_raises_exactly (h : gmap Py.loc (list level))
    (series_idx : Z) (name : string) (values : list (Z * value))
    (categories : Py.seq_ref level) (values_len categories_len : option Z)
    (format_code : option string) :
  (∀ e, __init__ h series_idx name values categories values_len
          categories_len format_code = inl e → e = Py.ValueError)
  ∧ (__init__ h series_idx name values categories values_len categories_len
       format_code = inl Py.ValueError
     ↔ (Py.truthy_int values_len = false ∧ values = [])
       ∨ (categories_len = None
          ∧ Exists (λ lvl, lvl = []) (Py.deref h categories))).
Proof.
  assert (Hmax : ∀ pairs : list (Z * value),
            max_idx_plus_1 pairs = inl Py.ValueError ∧ pairs = []
            ∨ ∃ n, max_idx_plus_1 pairs = inr n ∧ pairs ≠ []).
  { intros [|p pairs]; [by left | right; by eexists]. }
  assert (Hcat : ∀ cats : list level,
            max_cat_idx_plus_1 cats = inl Py.ValueError
            ∧ (cats = [] ∨ Exists (λ lvl, lvl = []) cats)
            ∨ ∃ n, max_cat_idx_plus_1 cats = inr n
                   ∧ cats ≠ [] ∧ Forall (λ lvl, lvl ≠ []) cats).
  { intros cats. destruct (decide (cats = [])) as [->|Hne]; [left; by split; [| left] |].
    destruct (decide (Forall (λ lvl : level, lvl ≠ []) cats)) as [Hall|Hnot].
    - right. destruct (max_cat_idx_plus_1_nonempty cats Hne Hall) as [n Hn].
      by exists n.
    - left. apply not_Forall_Exists in Hnot; [| apply _].
      assert (Hex : Exists (λ lvl : level, lvl = []) cats).
      { eapply Exists_impl; [exact Hnot |]. intros lvl Hl. cbn in Hl.
        destruct lvl; [done | by destruct Hl]. }
      split; [| by right].
      unfold max_cat_idx_plus_1. by rewrite mapM_max_idx_empty_level. }
  unfold __init__.
  destruct (Py.truthy_int values_len) eqn:Ht.
  - cbn.
    destruct (bool_decide (categories_len = None)) eqn:Hcl; cbn [andb].
    + apply bool_decide_eq_true_1 in Hcl.
      destruct (Py.len (Py.deref h categories) =? 0) eqn:Hlen; cbn [negb].
      * cbn. split; [done |]. split; [done |].
        intros [[? _]|[_ Hex]]; [done |].
        apply Z.eqb_eq in Hlen. unfold Py.len in Hlen.
        destruct (Py.deref h categories); [by inversion Hex | done].
      * destruct (Hcat (Py.deref h categories))
          as [[-> Hwhy]|(n & -> & Hne & Hall)]; cbn.
        -- split; [by intros e [= <-] |]. split; [| done]. intros _. right.
           split; [done |]. destruct Hwhy as [Hnil|Hex]; [| done].
           rewrite Hnil in Hlen. done.
        -- split; [done |]. split; [done |].
           intros [[? _]|[_ Hex]]; [done |].
           apply Exists_exists in Hex as (lvl & Hin & ->).
           rewrite Forall_forall in Hall. by destruct (Hall [] Hin).
    + cbn. apply bool_decide_eq_false_1 in Hcl.
      split; [done |]. split; [done |]. by intros [[? _]|[? _]].
  - destruct (Hmax values) as [[-> ->]|(n & -> & Hne)]; cbn.
    + split; [by intros e [= <-] |]. split; [| done]. intros _. by left.
    + destruct (bool_decide (categories_len = None)) eqn:Hcl; cbn [andb].
      * apply bool_decide_eq_true_1 in Hcl.
        destruct (Py.len (Py.deref h categories) =? 0) eqn:Hlen; cbn [negb].
        -- cbn. split; [done |]. split; [done |].
           intros [[_ ?]|[_ Hex]]; [done |].
           apply Z.eqb_eq in Hlen. unfold Py.len in Hlen.
           destruct (Py.deref h categories); [by inversion Hex | done].
        -- destruct (Hcat (Py.deref h categories))
             as [[-> Hwhy]|(m & -> & Hne' & Hall)]; cbn.
           ++ split; [by intros e [= <-] |]. split; [| done]. intros _. right.
              split; [done |]. destruct Hwhy as [Hnil|Hex]; [| done].
              rewrite Hnil in Hlen. done.
           ++ split; [done |]. split; [done |].
              intros [[_ ?]|[_ Hex]]; [done |].
              apply Exists_exists in Hex as (lvl & Hin & ->).
              rewrite Forall_forall in Hall. by destruct (Hall [] Hin).
      * cbn. apply bool_decide_eq_false_1 in Hcl.
        split; [done |]. split; [done |]. by intros [[_ ?]|[? _]].
Qed.

(** What the constructor stores as the length of the categories, and the
    warning it issues. *)
Lemma __init___categories_len (h : gmap Py.loc (list level)) (series_idx : Z)
    (name : string) (values : list (Z * value)) (categories : Py.seq_ref level)
    (values_len categories_len : option Z) (format_code : option string)
    (s : _SeriesDataMoreDetails value) (w : list warning) :
  __init__ h series_idx name values categories values_len categories_len
    format_code = inr (s, w) →
  _categories s = categories
  ∧ (if bool_decide (categories_len = None)
        && negb (Py.len (Py.deref h categories) =? 0)
     then ∃ n, max_cat_idx_plus_1 (Py.deref h categories) = inr n
               ∧ _categories_len s = Some n
     else _categories_len s = categories_len)
  ∧ w = (if bool_decide (Some (_values_len s) ≠ _categories_len s)
         then [DifferentLengths] else []).
Proof.
  unfold __init__. intros Hinit.
  destruct (if Py.truthy_int values_len
            then mret (default 0 values_len)
            else max_idx_plus_1 values) as [e|vl]; [done |].
  cbn in Hinit.
  destruct (bool_decide (categories_len = None)
            && negb (Py.len (Py.deref h categories) =? 0)); cbn in Hinit.
  - destruct (max_cat_idx_plus_1 (Py.deref h categories)) as [e|n];
      cbn in Hinit; [done |].
    injection Hinit as <- <-. cbn. split; [done |]. split; [by exists n | done].
  - injection Hinit as <- <-. cbn. done.
Qed.

Lemma mapM_inr {A B} (f : A → Py.result B) (l : list A) (k : list B) :
  mapM f l = inr k → Forall2 (λ x y, f x = inr y) l k.
Proof.
  revert k. induction l as [|x l IH]; intros k; cbn.
  - intros [= <-]. constructor.
  - destruct (f x) as [e|y] eqn:Hx; cbn; [done |].
    destruct (mapM f l) as [e|k'] eqn:Hl; cbn; [done |].
    intros [= <-]. constructor; [done | by apply IH].
Qed.

Lemma max_cat_idx_plus_1_spec (cats : list level) (n : Z) :
  max_cat_idx_plus_1 cats = inr n →
  (∃ lvl p, lvl ∈ cats ∧ p ∈ lvl ∧ p.1 + 1 = n)
  ∧ ∀ lvl p, lvl ∈ cats → p ∈ lvl → p.1 < n.
Proof.
  unfold max_cat_idx_plus_1.
  destruct (mapM max_idx cats) as [e|maxes] eqn:Hm; cbn; [done |].
  destruct (Py.max_seq maxes) as [e|m] eqn:Hmax; cbn; [done |].
  intros [= <-]. apply mapM_inr in Hm.
  destruct (max_seq_spec _ _ Hmax) as [Hin Hle]. split.
  - apply list_elem_of_lookup in Hin as [i Hi].
    destruct (Forall2_lookup_r _ _ _ _ _ Hm Hi) as (lvl & Hlvl & Hml).
    unfold max_idx in Hml.
    destruct (max_seq_spec _ _ Hml) as [Hin' _].
    apply list_elem_of_fmap in Hin' as (p & -> & Hp).
    exists lvl, p. split; [by eapply list_elem_of_lookup_2 | done].
  - intros lvl p Hlvl Hp.
    apply list_elem_of_lookup in Hlvl as [i Hi].
    destruct (Forall2_lookup_l _ _ _ _ _ Hm Hi) as (ml & Hml & Hmax_l).
    unfold max_idx in Hmax_l.
    destruct (max_seq_spec _ _ Hmax_l) as [_ Hle'].
    pose proof (Hle' p.1 (list_elem_of_fmap_2 fst _ _ Hp)).
    pose proof (Hle ml (list_elem_of_lookup_2 _ _ _ Hml)). lia.
Qed.

(** X10: a detailed series built over categories, with no length of
    categories given, gets the largest index of all levels plus one: some
    label is at the last index, every label of every level is below the
    length, and no label is left out of the category fragment. *)
Theorem X10_derived_categories_len_keeps_all (h : gmap Py.loc (list level))
    (series_idx : Z) (name : string) (values : list (Z * value))
    (categories : Py.seq_ref level) (values_len : option Z)
    (format_code : option string) (s : _SeriesDataMoreDetails value)
    (w : list warning) :
  Py.deref h categories ≠ [] →
  __init__ h series_idx name values categories values_len None format_code
  = inr (s, w) →
  ∃ n, SeriesDataMoreDetails.categories_len s = Some n
       ∧ (∃ lvl p, lvl ∈ Py.deref h categories ∧ p ∈ lvl ∧ p.1 + 1 = n)
       ∧ (∀ lvl p, lvl ∈ Py.deref h categories → p ∈ lvl → p.1 < n)
       ∧ (∀ lvl, lvl ∈ Py.deref h categories →
                 filter (λ p, Py.lt_opt p.1 (SeriesDataMoreDetails.categories_len s))
                   lvl = lvl).
Proof.
  intros Hne Hinit.
  destruct (__init___categories_len _ _ _ _ _ _ _ _ _ _ Hinit) as (_ & Hl & _).
  rewrite bool_decide_eq_true_2 in Hl by done.
  assert ((Py.len (Py.deref h categories) =? 0) = false) as Hz.
  { apply Z.eqb_neq. unfold Py.len. destruct (Py.deref h categories); [done |].
    cbn [length]. lia. }
  rewrite Hz in Hl. cbn in Hl. destruct Hl as (n & Hmax & Hn).
  destruct (max_cat_idx_plus_1_spec _ _ Hmax) as [Hex Hall].
  exists n. unfold categories_len. rewrite Hn.
  split; [done |]. split; [exact Hex |]. split; [exact Hall |].
  intros lvl Hlvl. apply filter_all. intros p Hp. cbn.
  apply Is_true_true, Z.ltb_lt. by apply (Hall lvl).
Qed.

Lemma _cat_pt_xml_single (h : gmap Py.loc (list level))
    (s : _SeriesDataMoreDetails value) :
  is_cat_multilvl h s = false →
  _cat_pt_xml h s
  = Py.cat ((λ lvl,
               Py.cat ((λ p, cat_pt_tmpl EmptyString p.1 p.2)
                         <$> filter (λ p, Py.lt_opt p.1 (categories_len s)) lvl))
              <$> reverse (categories_of h s)).
Proof.
  intros Hm. unfold _cat_pt_xml. rewrite Hm.
  etrans.
  { apply (foldl_ext _
             (λ xml ilvl,
                xml +:+ Py.cat ((λ p, cat_pt_tmpl EmptyString p.1 p.2)
                          <$> filter (λ p, Py.lt_opt p.1 (categories_len s))
                                (default [] (categories_of h s !! ilvl))))).
    intros xml ilvl. cbv zeta. rewrite !append_nil_r.
    etrans.
    { apply (foldl_ext _
               (λ xml p, if decide (Py.lt_opt p.1 (categories_len s))
                         then xml +:+ cat_pt_tmpl EmptyString p.1 p.2 else xml)).
      intros a [idx name]; cbn [fst snd].
      destruct (Py.lt_opt idx (categories_len s)); by case_decide. }
    apply (foldl_append_filter (λ p, cat_pt_tmpl EmptyString p.1 p.2)). }
  rewrite foldl_append_all.
  change (EmptyString +:+ ?x) with x.
  f_equal. rewrite !fmap_reverse. f_equal.
  transitivity ((λ lvl,
                   Py.cat ((λ p, cat_pt_tmpl EmptyString p.1 p.2)
                             <$> filter (λ p, Py.lt_opt p.1 (categories_len s)) lvl))
                  <$> ((λ i, default [] (categories_of h s !! i))
                         <$> seq 0 (length (categories_of h s)))).
  - by rewrite <- list_fmap_compose.
  - by rewrite fmap_lookup_seq.
Qed.

(** X11: with at most one level of categories, the points of the category
    fragment of a detailed series are those of the level whose index is
    below the length of the categories, in order, with no level element
    around them, and the reference is a plain string reference. *)
Theorem X11_cat_points_of_one_level (h : gmap Py.loc (list level))
    (s : _SeriesDataMoreDetails value) :
  Py.len (categories_of h s) ≤ 1 →
  _cat_pt_xml h s
  = Py.cat ((λ lvl,
               Py.cat ((λ p, cat_pt_tmpl EmptyString p.1 p.2)
                         <$> filter (λ p, Py.lt_opt p.1 (categories_len s)) lvl))
              <$> categories_of h s)
  ∧ prefix h s = "str".
Proof.
  intros Hlen.
  assert (Hm : is_cat_multilvl h s = false).
  { unfold is_cat_multilvl.
    by destruct (Z.ltb_spec 1 (Py.len (categories_of h s))); [lia |]. }
  split; [| unfold prefix; by rewrite Hm].
  rewrite _cat_pt_xml_single by done.
  unfold Py.len in Hlen.
  destruct (categories_of h s) as [|lvl [|lvl' cats]]; [done | done |].
  cbn [length] in Hlen. lia.
Qed.

(** X12: a detailed series built over no categories and with no length of
    categories has no length of categories, the constructor warns that the
    lengths differ, and the category fragment is the empty text whatever
    the categories later are. *)
Theorem X12_series_without_categories (h : gmap Py.loc (list level))
    (series_idx : Z) (name : string) (values : list (Z * value))
    (categories : Py.seq_ref level) (values_len : option Z)
    (format_code : option string) (s : _SeriesDataMoreDetails value)
    (w : list warning) :
  Py.deref h categories = [] →
  __init__ h series_idx name values categories values_len None format_code
  = inr (s, w) →
  SeriesDataMoreDetails.categories_len s = None
  ∧ w = [DifferentLengths]
  ∧ ∀ h', cat_xml h' s = inr EmptyString.
Proof.
  intros Hnil Hinit.
  destruct (__init___categories_len _ _ _ _ _ _ _ _ _ _ Hinit) as (_ & Hl & Hw).
  rewrite Hnil in Hl. cbn in Hl. unfold categories_len.
  split; [exact Hl |]. split.
  - rewrite Hw, Hl. by rewrite bool_decide_eq_true_2.
  - intros h'. unfold cat_xml. by rewrite Hl.
Qed.


End DetailedSeries.

Lemma X8_derived_values_len_keeps_all_witness :
  ∃ s w,
    Py.truthy_int None = false
    ∧ SeriesDataMoreDetails.__init__ (value := Z) ∅ 0 "S" [(0, 1); (4, 2)]
        (Py.Tuple []) None None None = inr (s, w)
    ∧ SeriesDataMoreDetails.values_len s = 5
    ∧ SeriesDataMoreDetails._val_pt_xml s
      = Py.cat ((λ p, SeriesDataMoreDetails.val_pt_tmpl p.1 p.2)
                  <$> [(0, 1); (4, 2)]).
Proof.
  eexists _, _. split; [reflexivity |]. split; [reflexivity |].
  split; [reflexivity |].
  exact (proj2 (proj2 (X8_derived_values_len_keeps_all (value := Z) ∅ 0 "S"
                         [(0, 1); (4, 2)] (Py.Tuple []) None None None _ _
                         eq_refl eq_refl))).
Defined.

Lemma X9_init_raises_exactly_witness :
  (Py.truthy_int (Some 0) = false ∧ ([] : list (Z * Z)) = [])
  ∧ SeriesDataMoreDetails.__init__ (value := Z) ∅ 0 "S" []
      (Py.Tuple [[(0, "a")]]) (Some 0) None None = inl Py.ValueError.
Proof.
  split; [by split |].
  apply (proj2 (X9_init_raises_exactly (value := Z) ∅ 0 "S" []
                  (Py.Tuple [[(0, "a")]]) (Some 0) None None)).
  left. by split.
Defined.

Lemma X10_derived_categories_len_keeps_all_witness :
  ∃ s w,
    Py.deref (∅ : gmap Py.loc (list SeriesDataMoreDetails.level))
      (Py.Tuple [[(0, "a"); (3, "b")]; [(1, "x")]]) ≠ []
    ∧ SeriesDataMoreDetails.__init__ (value := Z) ∅ 0 "S" [(0, 1)]
        (Py.Tuple [[(0, "a"); (3, "b")]; [(1, "x")]]) None None None
      = inr (s, w)
    ∧ ∃ n, SeriesDataMoreDetails.categories_len s = Some n
           ∧ ∀ lvl p, lvl ∈ [[(0, "a"); (3, "b")]; [(1, "x")]] → p ∈ lvl →
                      p.1 < n.
Proof.
  eexists _, _.
  assert (Hne : Py.deref (∅ : gmap Py.loc (list SeriesDataMoreDetails.level))
                  (Py.Tuple [[(0, "a"); (3, "b")]; [(1, "x")]]) ≠ []) by done.
  split; [exact Hne |]. split; [reflexivity |].
  destruct (X10_derived_categories_len_keeps_all (value := Z) ∅ 0 "S" [(0, 1)]
              (Py.Tuple [[(0, "a"); (3, "b")]; [(1, "x")]]) None None _ _
              Hne eq_refl) as (n & Hn & _ & Hall & _).
  exists n. split; [exact Hn | exact Hall].
Defined.

Lemma X11_cat_points_of_one_level_witness :
  let s : SeriesDataMoreDetails._SeriesDataMoreDetails Z :=
    {| SeriesDataMoreDetails._series_idx := 0;
       SeriesDataMoreDetails._name := "S";
       SeriesDataMoreDetails._values := [(0, 1)];
       SeriesDataMoreDetails._categories := Py.Tuple [[(0, "a"); (3, "b")]];
       SeriesDataMoreDetails._values_len := 1;
       SeriesDataMoreDetails._auto_values_len := false;
       SeriesDataMoreDetails._categories_len := Some 2;
       SeriesDataMoreDetails._format_code := "General" |} in
  Py.len (SeriesDataMoreDetails.categories_of ∅ s) ≤ 1
  ∧ SeriesDataMoreDetails._cat_pt_xml ∅ s
    = SeriesDataMoreDetails.cat_pt_tmpl EmptyString 0 "a"
  ∧ SeriesDataMoreDetails.prefix ∅ s = "str".
Proof.
  intros s.
  assert (Hlen : Py.len (SeriesDataMoreDetails.categories_of ∅ s) ≤ 1)
    by (vm_compute; discriminate).
  split; [exact Hlen |].
  destruct (X11_cat_points_of_one_level ∅ s Hlen) as [Hx Hp].
  split; [rewrite Hx; reflexivity | exact Hp].
Defined.

Lemma X12_series_without_categories_witness :
  ∃ s w,
    Py.deref (∅ : gmap Py.loc (list SeriesDataMoreDetails.level)) (Py.Tuple [])
    = []
    ∧ SeriesDataMoreDetails.__init__ (value := Z) ∅ 0 "S" [(0, 1)]
        (Py.Tuple []) None None None = inr (s, w)
    ∧ w = [DifferentLengths]
    ∧ SeriesDataMoreDetails.cat_xml ∅ s = inr EmptyString.
Proof.
  eexists _, _. split; [reflexivity |]. split; [reflexivity |].
  destruct (X12_series_without_categories (value := Z) ∅ 0 "S" [(0, 1)]
              (Py.Tuple []) None None _ _ eq_refl eq_refl) as (_ & Hw & Hc).
  split; [exact Hw | exact (Hc ∅)].
Defined.


(** ** The lengths of a [ChartDataMoreDetails] *)

Section DataSetLengths.
Context {value : Type} `{!Py.Str value}.

(** Assigning [values_len] or [categories_len] on the data set stores
    the length on the data set and on every series it holds, and changes
    nothing else of the series; assigning [values_len] warns exactly when
    the length is below an integer [categories_len] of the data set. *)
Lemma lengths_reach_every_series
    (md : ChartDataMoreDetails.ChartDataMoreDetails value) (v : Z)
    (c : option Z) :
  let rest (s : SeriesDataMoreDetails._SeriesDataMoreDetails value) :=
    (SeriesDataMoreDetails._series_idx s, SeriesDataMoreDetails._name s,
     SeriesDataMoreDetails._values s, SeriesDataMoreDetails._categories s,
     SeriesDataMoreDetails._auto_values_len s,
     SeriesDataMoreDetails._format_code s) in
  let mv := (ChartDataMoreDetails.set_values_len md v).1 in
  let mc := ChartDataMoreDetails.set_categories_len md c in
  (ChartDataMoreDetails._values_len mv = Some v
   ∧ SeriesDataMoreDetails.values_len <$> ChartDataMoreDetails.series mv
     = replicate (length (ChartDataMoreDetails.series md)) v
   ∧ (λ s, (rest s, SeriesDataMoreDetails.categories_len s))
       <$> ChartDataMoreDetails.series mv
     = (λ s, (rest s, SeriesDataMoreDetails.categories_len s))
         <$> ChartDataMoreDetails.series md
   ∧ (ChartDataMoreDetails.set_values_len md v).2
     = match ChartDataMoreDetails._categories_len md with
       | Some n => if v <? n then [ValuesShorter] else []
       | None => []
       end)
  ∧ (ChartDataMoreDetails._categories_len mc = c
     ∧ SeriesDataMoreDetails.categories_len <$> ChartDataMoreDetails.series mc
       = replicate (length (ChartDataMoreDetails.series md)) c
     ∧ (λ s, (rest s, SeriesDataMoreDetails.values_len s))
         <$> ChartDataMoreDetails.series mc
       = (λ s, (rest s, SeriesDataMoreDetails.values_len s))
           <$> ChartDataMoreDetails.series md).
Proof.
  intros rest mv mc. subst mv mc.
  unfold ChartDataMoreDetails.set_values_len,
    ChartDataMoreDetails.set_categories_len, ChartDataMoreDetails.series.
  cbn [fst snd ChartDataMoreDetails._values_len
         ChartDataMoreDetails._categories_len ChartDataMoreDetails._series_lst].
  split; [split; [done |]; split; [| split] | split; [done |]; split].
  - induction (ChartDataMoreDetails._series_lst md) as [|s l IH]; [done |].
    cbn. f_equal. exact IH.
  - rewrite <- list_fmap_compose. by apply list_fmap_ext.
  - unfold Py.lt_opt. by destruct (ChartDataMoreDetails._categories_len md).
  - induction (ChartDataMoreDetails._series_lst md) as [|s l IH]; [done |].
    cbn. f_equal. exact IH.
  - rewrite <- list_fmap_compose. by apply list_fmap_ext.
Qed.

(** X14: once a length of values other than 0 is assigned on the data set,
    [add_series] with no length of its own builds the series with that
    length and with [_auto_values_len] set, for an empty sequence of values
    too, provided the data set has a [categories_len] or none of its
    category levels is empty.  With no [categories_len] and an empty level,
    the call raises [ValueError], the length of the categories having no
    maximum to be computed from.  With no length of values on the data set,
    [add_series] with an empty sequence of values raises [ValueError]. *)
Theorem X14_added_series_takes_the_assigned_length
    (h : gmap Py.loc (list SeriesDataMoreDetails.level))
    (md : ChartDataMoreDetails.ChartDataMoreDetails value) (v : Z)
    (name : string) (values : list (Z * value)) (format_code : option string) :
  v ≠ 0 →
  let mv := (ChartDataMoreDetails.set_values_len md v).1 in
  (ChartDataMoreDetails._categories_len md ≠ None
   ∨ Forall (λ lvl, lvl ≠ []) (ChartDataMoreDetails.categories h md) →
   ∃ md' s w,
     ChartDataMoreDetails.add_series h mv name values None format_code
     = inr (md', None, w)
     ∧ ChartDataMoreDetails.series md' = ChartDataMoreDetails.series mv ++ [s]
     ∧ SeriesDataMoreDetails.values_len s = v
     ∧ SeriesDataMoreDetails._auto_values_len s = true
     ∧ SeriesDataMoreDetails.values s = values
     ∧ SeriesDataMoreDetails.index s
       = Py.len (ChartDataMoreDetails.series md))
  ∧ (ChartDataMoreDetails._categories_len md = None →
     Exists (λ lvl, lvl = []) (ChartDataMoreDetails.categories h md) →
     ChartDataMoreDetails.add_series h mv name values None format_code
     = inl Py.ValueError)
  ∧ (ChartDataMoreDetails._values_len md = None →
     ChartDataMoreDetails.add_series h md name [] None format_code
     = inl Py.ValueError).
Proof.
  intros Hv mv.
  assert (Ht : Py.truthy_int (Some v) = true).
  { cbn. by destruct (Z.eqb_spec v 0). }
  assert (Hcat : ChartDataMoreDetails.categories h mv
                 = ChartDataMoreDetails.categories h md) by reflexivity.
  split; [| split].
  - intros Hcats. subst mv. unfold ChartDataMoreDetails.add_series,
      ChartDataMoreDetails.set_values_len.
    cbn [fst ChartDataMoreDetails._values_len ChartDataMoreDetails._series_lst
           ChartDataMoreDetails._categories_len ChartDataMoreDetails._categories
           Py.truthy_int].
    unfold SeriesDataMoreDetails.__init__.
    rewrite Ht. cbn [default mbind Py.result_bind mret Py.result_ret].
    change (ChartDataMoreDetails.categories h
              {| ChartDataMoreDetails._categories :=
                   ChartDataMoreDetails._categories md;
                 ChartDataMoreDetails._series_lst :=
                   (λ series, SeriesDataMoreDetails.set_values_len series v)
                     <$> ChartDataMoreDetails._series_lst md;
                 ChartDataMoreDetails._categories_len :=
                   ChartDataMoreDetails._categories_len md;
                 ChartDataMoreDetails._values_len := Some v |})
      with (ChartDataMoreDetails.categories h md).
    cbn [Py.deref].
    destruct (bool_decide (ChartDataMoreDetails._categories_len md = None)
              && negb (Py.len (ChartDataMoreDetails.categories h md) =? 0))
      eqn:Hb.
    + apply andb_true_iff in Hb as [Hnone Hlen].
      apply bool_decide_eq_true_1 in Hnone.
      destruct Hcats as [Hsome|Hall]; [done |].
      destruct (max_cat_idx_plus_1_nonempty
                  (ChartDataMoreDetails.categories h md)) as [n Hn];
        [| done |].
      { intros Hnil. by rewrite Hnil in Hlen. }
      rewrite Hn. cbn. eexists _, _, _. split; [reflexivity |].
      cbn. repeat split. unfold Py.len. by rewrite length_fmap.
    + cbn. eexists _, _, _. split; [reflexivity |].
      cbn. repeat split. unfold Py.len. by rewrite length_fmap.
  - intros Hnone Hex. unfold ChartDataMoreDetails.add_series.
    rewrite Hcat. subst mv. unfold ChartDataMoreDetails.set_values_len.
    cbn [fst ChartDataMoreDetails._values_len ChartDataMoreDetails._series_lst
           ChartDataMoreDetails._categories_len ChartDataMoreDetails._categories
           Py.truthy_int].
    unfold SeriesDataMoreDetails.__init__.
    rewrite Ht, Hnone. cbn [default mbind Py.result_bind mret Py.result_ret].
    cbn [Py.deref]. rewrite bool_decide_eq_true_2 by done.
    assert (Hlen : negb (Py.len (ChartDataMoreDetails.categories h md) =? 0)
                   = true).
    { destruct Hex; reflexivity. }
    rewrite Hlen. cbn [andb].
    unfold SeriesDataMoreDetails.max_cat_idx_plus_1.
    by rewrite mapM_max_idx_empty_level.
  - intros Hnone. unfold ChartDataMoreDetails.add_series.
    rewrite Hnone. reflexivity.
Qed.

End DataSetLengths.

Lemma X14_added_series_takes_the_assigned_length_witness :
  let h : gmap Py.loc (list SeriesDataMoreDetails.level) :=
    <[1%positive := [[(0, "a"); (1, "b")]]]> ∅ in
  let md : ChartDataMoreDetails.ChartDataMoreDetails Z :=
    {| ChartDataMoreDetails._categories := 1%positive;
       ChartDataMoreDetails._series_lst := [];
       ChartDataMoreDetails._categories_len := None;
       ChartDataMoreDetails._values_len := None |} in
  (4 : Z) ≠ 0
  ∧ Forall (λ lvl, lvl ≠ []) (ChartDataMoreDetails.categories h md)
  ∧ (∃ md' s w,
       ChartDataMoreDetails.add_series h
         (ChartDataMoreDetails.set_values_len md 4).1 "S" [] None None
       = inr (md', None, w)
       ∧ SeriesDataMoreDetails.values_len s = 4
       ∧ ChartDataMoreDetails.series md' = [s])
  ∧ ChartDataMoreDetails.add_series h md "S" [] None None = inl Py.ValueError
  ∧ Exists (λ lvl, lvl = [])
      (ChartDataMoreDetails.categories (<[1%positive := [[(0, "a")]; []]]> ∅) md)
  ∧ ChartDataMoreDetails.add_series (<[1%positive := [[(0, "a")]; []]]> ∅)
      (ChartDataMoreDetails.set_values_len md 4).1 "S" [(0, 7)] None None
    = inl Py.ValueError.
Proof.
  intros h md.
  assert (H4 : (4 : Z) ≠ 0) by done.
  assert (Hc : Forall (λ lvl : SeriesDataMoreDetails.level, lvl ≠ [])
                 (ChartDataMoreDetails.categories h md)).
  { repeat constructor. done. }
  split; [exact H4 |]. split; [exact Hc |].
  destruct (X14_added_series_takes_the_assigned_length h md 4 "S" [] None H4)
    as (Hadd & _ & Hraise).
  destruct (Hadd (or_intror Hc)) as (md' & s & w & Ha & Hs & Hl & _).
  split; [exists md', s, w; split; [exact Ha |]; split; [exact Hl | exact Hs] |].
  split; [exact (Hraise eq_refl) |].
  assert (He : Exists (λ lvl : SeriesDataMoreDetails.level, lvl = [])
                 (ChartDataMoreDetails.categories
                    (<[1%positive := [[(0, "a")]; []]]> ∅) md)).
  { apply Exists_cons_tl, Exists_cons_hd. reflexivity. }
  split; [exact He |].
  destruct (X14_added_series_takes_the_assigned_length
              (<[1%positive := [[(0, "a")]; []]]> ∅) md 4 "S" [(0, 7)] None H4)
    as (_ & Hempty & _).
  exact (Hempty eq_refl He).
Defined.

(** ** Reading points *)

Lemma insert_by_key_perm {A} (k : Z) (x : A) (l : list (Z * A)) :
  Py.insert_by_key k x l ≡ₚ (k, x) :: l.
Proof.
  induction l as [|[k' y] l IH]; [done |]. cbn.
  destruct (k <? k'); [done |]. rewrite IH. apply Permutation_swap.
Qed.

Lemma insert_by_key_sorted {A} (k : Z) (x : A) (l : list (Z * A)) :
  StronglySorted (λ a b, a.1 ≤ b.1) l →
  StronglySorted (λ a b, a.1 ≤ b.1) (Py.insert_by_key k x l).
Proof.
  induction 1 as [|[k' y] l Hs IH Hall]; cbn.
  - repeat constructor.
  - destruct (Z.ltb_spec k k').
    + constructor; [by constructor |]. constructor; [cbn; lia |].
      eapply Forall_impl; [exact Hall |]. cbn. intros; lia.
    + constructor; [exact IH |].
      rewrite insert_by_key_perm. constructor; [cbn; lia | exact Hall].
Qed.

Lemma sort_keyed {A} (keyed acc : list (Z * A)) :
  StronglySorted (λ a b, a.1 ≤ b.1) acc →
  let r := foldl (λ acc '(k, x), Py.insert_by_key k x acc) acc keyed in
  StronglySorted (λ a b, a.1 ≤ b.1) r ∧ r ≡ₚ keyed ++ acc.
Proof.
  revert acc. induction keyed as [|[k x] keyed IH]; intros acc Hacc; cbn.
  - done.
  - destruct (IH (Py.insert_by_key k x acc) (insert_by_key_sorted _ _ _ Hacc))
      as [Hs Hp].
    split; [exact Hs |]. rewrite Hp, insert_by_key_perm.
    by rewrite Permutation_middle.
Qed.

(** X15: when [val_pts] gives a result, it holds the [<c:pt>] elements found
    below [<c:val>], each once, in ascending order of their [idx]. *)
Theorem X15_val_pts_sorted (ser : Oxml.element) (pts : list Oxml.element) :
  Oxml.CT_SeriesComposite.val_pts ser = inr pts →
  pts ≡ₚ Oxml.CT_SeriesComposite.xpath_val_pt ser
  ∧ ∃ keys, mapM Oxml.CT_StrVal_NumVal_Composite.idx pts = inr keys
            ∧ StronglySorted Z.le keys.
Proof.
  unfold Oxml.CT_SeriesComposite.val_pts.
  destruct (mapM _ (Oxml.CT_SeriesComposite.xpath_val_pt ser))
    as [e|keyed] eqn:Hk; cbn; [done |].
  intros [= <-]. apply mapM_inr in Hk.
  assert (Hkeyed : Forall (λ kp, Oxml.CT_StrVal_NumVal_Composite.idx kp.2
                                 = inr kp.1) keyed
                   ∧ snd <$> keyed = Oxml.CT_SeriesComposite.xpath_val_pt ser).
  { induction Hk as [|pt kp xs keyed Hpt _ [IH1 IH2]]; [done |].
    destruct (Oxml.CT_StrVal_NumVal_Composite.idx pt) as [e|k] eqn:Hi;
      cbn in Hpt; [done |].
    injection Hpt as <-. cbn. split; [by constructor | by rewrite IH2]. }
  destruct Hkeyed as [Hidx Hsnd].
  unfold Py.sorted_by_key.
  destruct (sort_keyed keyed [] (SSorted_nil _)) as [Hs Hp].
  cbv zeta in Hs, Hp. rewrite app_nil_r in Hp.
  set (r := foldl _ [] keyed) in *.
  split; [by rewrite Hp, Hsnd |].
  exists (fst <$> r). split.
  - assert (Hr : Forall (λ kp, Oxml.CT_StrVal_NumVal_Composite.idx kp.2
                               = inr kp.1) r) by (by rewrite Hp).
    clear -Hr. induction Hr as [|kp r Hkp _ IH]; [done |].
    cbn. rewrite Hkp. cbn. cbn in IH. by rewrite IH.
  - clear -Hs. induction Hs as [|kp r _ IH Hall]; cbn; constructor; [done |].
    apply Forall_fmap. exact Hall.
Qed.

Section NumCachePoints.
Context {number : Type} `{!Py.Float number}.

(** X16: when [tuple_pts] of a numeric cache gives a result, there is one
    tuple per [<c:pt>] child, in document order; its first part is the
    [idx] of the point, its second the number the text of [<c:v>] stands
    for, or that text itself when it is not a number. *)
Theorem X16_num_cache_tuples (cache : Oxml.element)
    (tuples : list (Z * (number + string))) :
  Oxml.CT_NumCache.tuple_pts cache = inr tuples →
  Forall2
    (λ pt t,
       Oxml.CT_StrVal_NumVal_Composite.idx pt = inr t.1
       ∧ ∃ v text,
           Oxml.CT_StrVal_NumVal_Composite.v pt = inr v
           ∧ Oxml.text v = Some text
           ∧ t.2 = match Py.float text with
                   | Some x => inl x
                   | None => inr text
                   end)
    (Oxml._PtMixin.pt_lst cache) tuples
  ∧ Oxml._PtMixin.tuple_pts cache
    = inr ((λ pt_t : Oxml.element * (Z * (number + string)),
              (pt_t.2.1,
               match Oxml.CT_StrVal_NumVal_Composite.v pt_t.1 with
               | inr v => Oxml.text v
               | inl _ => None
               end))
             <$> zip (Oxml._PtMixin.pt_lst cache) tuples).
Proof.
  unfold Oxml.CT_NumCache.tuple_pts, Oxml._PtMixin.tuple_pts.
  intros Hm. apply mapM_inr in Hm.
  induction Hm as [|pt t pts tuples Hpt _ [IH1 IH2]].
  - split; [constructor | done].
  - destruct (Oxml.CT_StrVal_NumVal_Composite.v pt) as [e|v] eqn:Hv;
      cbn in Hpt; [done |].
    destruct (Oxml.text v) as [text|] eqn:Ht; cbn in Hpt; [| done].
    destruct (Oxml.CT_StrVal_NumVal_Composite.idx pt) as [e|k] eqn:Hi.
    { by destruct (Py.float text). }
    assert (t = (k, match Py.float text with
                    | Some x => inl x
                    | None => inr text
                    end)) as ->.
    { destruct (Py.float text); cbn in Hpt; by injection Hpt as <-. }
    split.
    + constructor; [| exact IH1]. split; [done |]. by exists v, text.
    + cbn. rewrite Hi. cbn. rewrite Hv. cbn. rewrite IH2. cbn.
      by rewrite Ht.
Qed.

End NumCachePoints.

(** X17: when [tuples_pts] of a [<c:cat>] element gives a result, it holds
    a single sequence of points under a plain string reference, and one
    sequence per [<c:lvl>] element of the cache under a multi-level one. *)
Theorem X17_cat_tuples_shape (cat : Oxml.element)
    (tuples : list (list (Z * option string))) :
  Oxml.CT_Cat.tuples_pts cat = inr tuples →
  ∃ cache,
    Oxml.CT_Cat.ref_cache cat = inr cache
    ∧ if Oxml.CT_Cat.is_multilvl cat
      then length tuples = length (Oxml.CT_MultiLvlStrCache.lvl_lst cache)
           ∧ Forall2 (λ lvl pts, Oxml._PtMixin.tuple_pts lvl = inr pts)
               (Oxml.CT_MultiLvlStrCache.lvl_lst cache) tuples
      else ∃ pts, tuples = [pts] ∧ Oxml._PtMixin.tuple_pts cache = inr pts.
Proof.
  unfold Oxml.CT_Cat.tuples_pts.
  destruct (Oxml.CT_Cat.ref_cache cat) as [e|cache]; cbn; [done |].
  intros Ht. exists cache. split; [done |].
  destruct (Oxml.CT_Cat.is_multilvl cat).
  - apply mapM_inr in Ht. split; [| exact Ht].
    symmetry. by eapply Forall2_length.
  - destruct (Oxml._PtMixin.tuple_pts cache) as [e|pts]; cbn in Ht; [done |].
    injection Ht as <-. by exists pts.
Qed.

Lemma X15_val_pts_sorted_witness :
  Oxml.CT_SeriesComposite.val_pts ser_two_points
  = inr [pt_element "0" "n/a"; pt_element "1" "7"]
  ∧ [pt_element "0" "n/a"; pt_element "1" "7"]
    ≡ₚ Oxml.CT_SeriesComposite.xpath_val_pt ser_two_points.
Proof.
  split; [reflexivity |].
  exact (proj1 (X15_val_pts_sorted ser_two_points
                  [pt_element "0" "n/a"; pt_element "1" "7"] eq_refl)).
Defined.

Lemma X16_num_cache_tuples_witness :
  @Oxml.CT_NumCache.tuple_pts Z float_int num_cache_two_points
  = inr [(1, inl 7); (0, inr "n/a")]
  ∧ Oxml._PtMixin.tuple_pts num_cache_two_points
    = inr [(1, Some "7"); (0, Some "n/a")].
Proof.
  split; [reflexivity |].
  exact (proj2 (@X16_num_cache_tuples Z float_int num_cache_two_points
                  [(1, inl 7); (0, inr "n/a")] eq_refl)).
Defined.

Lemma X17_cat_tuples_shape_witness :
  ∃ cat,
    Oxml.CT_SeriesComposite.cat ser_two_points = Some cat
    ∧ Oxml.CT_Cat.tuples_pts cat = inr [[(0, Some "Q1"); (1, Some "Q2")]]
    ∧ ∃ cache, Oxml.CT_Cat.ref_cache cat = inr cache
               ∧ Oxml._PtMixin.tuple_pts cache
                 = inr [(0, Some "Q1"); (1, Some "Q2")].
Proof.
  eexists. split; [reflexivity |]. split; [reflexivity |].
  destruct (X17_cat_tuples_shape _ [[(0, Some "Q1"); (1, Some "Q2")]]
              (eq_refl : Oxml.CT_Cat.tuples_pts
                           (Oxml.Element "c:cat" [] None [
                              Oxml.Element "c:strRef" [] None [
                                Oxml.Element "c:f" [] (Some "Sheet1!$A$2:$A$3") [];
                                Oxml.Element "c:strCache" [] None [
                                  Oxml.Element "c:ptCount" [("val", "2")] None [];
                                  pt_element "0" "Q1"; pt_element "1" "Q2" ] ] ])
                         = inr [[(0, Some "Q1"); (1, Some "Q2")]]))
    as (cache & Hc & Hshape).
  exists cache. split; [exact Hc |].
  cbn in Hshape. destruct Hshape as (pts & [= <-] & Hp). exact Hp.
Defined.

(** ** Inserting children into a series element *)

Lemma ZeroOrOne_app_ne (T : string) (e : Oxml.element)
    (pre l : list Oxml.element) :
  Forall (λ c, Oxml.tag c ≠ T) pre →
  Oxml.ZeroOrOne T (Oxml.CT_SeriesComposite.with_children e (pre ++ l))
  = Oxml.ZeroOrOne T (Oxml.CT_SeriesComposite.with_children e l).
Proof.
  intros Hpre. unfold Oxml.ZeroOrOne, Oxml.findall,
    Oxml.CT_SeriesComposite.with_children. cbn [Oxml.children].
  rewrite filter_app. induction Hpre as [|c pre Hc _ IH]; [done |].
  by rewrite filter_cons_False.
Qed.

Lemma ZeroOrOne_cons_eq (T : string) (e x : Oxml.element)
    (l : list Oxml.element) :
  Oxml.tag x = T →
  Oxml.ZeroOrOne T (Oxml.CT_SeriesComposite.with_children e (x :: l)) = Some x.
Proof.
  intros Hx. unfold Oxml.ZeroOrOne, Oxml.findall,
    Oxml.CT_SeriesComposite.with_children. cbn [Oxml.children].
  by rewrite filter_cons_True.
Qed.

Lemma ZeroOrOne_cons_ne (T : string) (e x : Oxml.element)
    (l : list Oxml.element) :
  Oxml.tag x ≠ T →
  Oxml.ZeroOrOne T (Oxml.CT_SeriesComposite.with_children e (x :: l))
  = Oxml.ZeroOrOne T (Oxml.CT_SeriesComposite.with_children e l).
Proof.
  intros Hx. unfold Oxml.ZeroOrOne, Oxml.findall,
    Oxml.CT_SeriesComposite.with_children. cbn [Oxml.children].
  by rewrite filter_cons_False.
Qed.

Lemma ZeroOrOne_none (T : string) (e : Oxml.element) (l : list Oxml.element) :
  Forall (λ c, Oxml.tag c ≠ T) l →
  Oxml.ZeroOrOne T (Oxml.CT_SeriesComposite.with_children e l) = None.
Proof.
  intros Hl. rewrite <- (app_nil_r l). by rewrite ZeroOrOne_app_ne.
Qed.

Lemma addnext_app_ne (T : string) (new : Oxml.element)
    (pre l : list Oxml.element) :
  Forall (λ c, Oxml.tag c ≠ T) pre →
  Oxml.CT_SeriesComposite.addnext T new (pre ++ l)
  = pre ++ Oxml.CT_SeriesComposite.addnext T new l.
Proof.
  induction 1 as [|c pre Hc _ IH]; [done |]. cbn.
  destruct (decide (Oxml.tag c = T)); [done | by rewrite IH].
Qed.

Lemma addnext_cons_eq (T : string) (new x : Oxml.element)
    (l : list Oxml.element) :
  Oxml.tag x = T →
  Oxml.CT_SeriesComposite.addnext T new (x :: l) = x :: new :: l.
Proof. intros Hx. cbn. by destruct (decide (Oxml.tag x = T)). Qed.

Lemma addnext_cons_ne (T : string) (new x : Oxml.element)
    (l : list Oxml.element) :
  Oxml.tag x ≠ T →
  Oxml.CT_SeriesComposite.addnext T new (x :: l)
  = x :: Oxml.CT_SeriesComposite.addnext T new l.
Proof. intros Hx. cbn. by destruct (decide (Oxml.tag x = T)). Qed.

Lemma with_children_id (e : Oxml.element) :
  Oxml.CT_SeriesComposite.with_children e (Oxml.children e) = e.
Proof. by destruct e. Qed.

Lemma with_children_twice (e : Oxml.element) (l1 l2 : list Oxml.element) :
  Oxml.CT_SeriesComposite.with_children
    (Oxml.CT_SeriesComposite.with_children e l1) l2
  = Oxml.CT_SeriesComposite.with_children e l2.
Proof. reflexivity. Qed.

Lemma not_insertion_tag (T : string) (l : list Oxml.element) :
  T ∈ insertion_tags →
  Forall (λ c, Oxml.tag c ∉ insertion_tags) l →
  Forall (λ c, Oxml.tag c ≠ T) l.
Proof.
  intros HT Hl. eapply Forall_impl; [exact Hl |].
  intros c Hc Heq. apply Hc. by rewrite Heq.
Qed.

(** X18: a series element whose children are [pre], the [<c:order>] element
    and [post], none of [pre] and [post] being an order, name, shape
    properties or invert-if-negative element.  Inserting a name, shape
    properties and invert-if-negative element, in any of the six orders,
    leaves the same children: [pre], order, name, shape properties,
    invert-if-negative, [post]. *)
Theorem X18_insertions_in_any_order (ser o t p n : Oxml.element)
    (pre post : list Oxml.element) :
  Oxml.children ser = pre ++ o :: post →
  Oxml.tag o = "c:order" → Oxml.tag t = "c:tx" → Oxml.tag p = "c:spPr" →
  Oxml.tag n = "c:invertIfNegative" →
  Forall (λ c, Oxml.tag c ∉ insertion_tags) pre →
  Forall (λ c, Oxml.tag c ∉ insertion_tags) post →
  let final :=
    Oxml.CT_SeriesComposite.with_children ser
      (pre ++ o :: t :: p :: n :: post) in
  let tx := Oxml.CT_SeriesComposite._insert_tx in
  let spPr := Oxml.CT_SeriesComposite._insert_spPr in
  let inv := Oxml.CT_SeriesComposite._insert_invertIfNegative in
  insert_in_turn tx spPr inv ser t p n = inr final
  ∧ insert_in_turn tx inv spPr ser t n p = inr final
  ∧ insert_in_turn spPr tx inv ser p t n = inr final
  ∧ insert_in_turn spPr inv tx ser p n t = inr final
  ∧ insert_in_turn inv tx spPr ser n t p = inr final
  ∧ insert_in_turn inv spPr tx ser n p t = inr final.
Proof.
  intros Hser Ho Ht Hp Hn Hpre Hpost final tx spPr inv.
  rewrite <- (with_children_id ser) at 1 2 3 4 5 6. rewrite Hser.
  subst final tx spPr inv.
  pose proof (not_insertion_tag "c:order" pre ltac:(set_solver) Hpre).
  pose proof (not_insertion_tag "c:tx" pre ltac:(set_solver) Hpre).
  pose proof (not_insertion_tag "c:spPr" pre ltac:(set_solver) Hpre).
  pose proof (not_insertion_tag "c:invertIfNegative" pre ltac:(set_solver) Hpre).
  pose proof (not_insertion_tag "c:order" post ltac:(set_solver) Hpost).
  pose proof (not_insertion_tag "c:tx" post ltac:(set_solver) Hpost).
  pose proof (not_insertion_tag "c:spPr" post ltac:(set_solver) Hpost).
  pose proof (not_insertion_tag "c:invertIfNegative" post ltac:(set_solver) Hpost).
  unfold insert_in_turn, Oxml.CT_SeriesComposite._insert_tx,
    Oxml.CT_SeriesComposite._insert_spPr,
    Oxml.CT_SeriesComposite._insert_invertIfNegative,
    Oxml.CT_SeriesComposite.order_addnext,
    Oxml.CT_SeriesComposite.order, Oxml.CT_SeriesComposite.tx,
    Oxml.CT_SeriesComposite.spPr, Oxml.OneAndOnlyOne, Py.ret, Py.raise.
  change (head (Oxml.findall ?T ?e)) with (Oxml.ZeroOrOne T e).
  repeat split;
    repeat first
      [ rewrite with_children_twice
      | rewrite ZeroOrOne_app_ne by done
      | rewrite ZeroOrOne_cons_eq by done
      | rewrite ZeroOrOne_cons_ne by congruence
      | rewrite ZeroOrOne_none by done
      | rewrite addnext_app_ne by done
      | rewrite addnext_cons_eq by done
      | rewrite addnext_cons_ne by congruence
      | progress cbn [mbind mret Py.result_bind Py.result_ret fst snd
                        Oxml.children
                        Oxml.CT_SeriesComposite.with_children] ];
    reflexivity.
Qed.

Lemma X18_insertions_in_any_order_witness :
  let idx := Oxml.Element "c:idx" [("val", "0")] None [] in
  let o := Oxml.Element "c:order" [("val", "0")] None [] in
  let val := Oxml.Element "c:val" [] None [] in
  let t := Oxml.Element "c:tx" [] None [] in
  let p := Oxml.Element "c:spPr" [] None [] in
  let n := Oxml.Element "c:invertIfNegative" [("val", "0")] None [] in
  let ser := Oxml.Element "c:ser" [] None [idx; o; val] in
  Oxml.children ser = [idx] ++ o :: [val]
  ∧ Forall (λ c, Oxml.tag c ∉ insertion_tags) [idx]
  ∧ Forall (λ c, Oxml.tag c ∉ insertion_tags) [val]
  ∧ insert_in_turn Oxml.CT_SeriesComposite._insert_invertIfNegative
      Oxml.CT_SeriesComposite._insert_spPr Oxml.CT_SeriesComposite._insert_tx
      ser n p t
    = inr (Oxml.Element "c:ser" [] None [idx; o; t; p; n; val]).
Proof.
  intros idx o val t p n ser.
  assert (Hpre : Forall (λ c, Oxml.tag c ∉ insertion_tags) [idx]).
  { repeat constructor. unfold insertion_tags. intros Hin.
    repeat (apply elem_of_cons in Hin as [Hin|Hin]; [discriminate Hin |]).
    by apply elem_of_nil in Hin. }
  assert (Hpost : Forall (λ c, Oxml.tag c ∉ insertion_tags) [val]).
  { repeat constructor. unfold insertion_tags. intros Hin.
    repeat (apply elem_of_cons in Hin as [Hin|Hin]; [discriminate Hin |]).
    by apply elem_of_nil in Hin. }
  split; [reflexivity |]. split; [exact Hpre |]. split; [exact Hpost |].
  destruct (X18_insertions_in_any_order ser o t p n [idx] [val] eq_refl
              eq_refl eq_refl eq_refl eq_refl Hpre Hpost)
    as (_ & _ & _ & _ & _ & H6).
  exact H6.
Defined.

Section PointValue.
Context {number : Type} `{!Py.Float number}.

(** X19: the tuples of a numeric cache against the [value] of its points.
    Where [value] gives a number, the tuple holds that number; where
    [value] raises [ValueError] because the text is not a number, the tuple
    holds the text; when [tuple_pts] gives a result, [value] raises nothing
    else on a point of the cache. *)
Theorem X19_tuples_and_point_values (cache : Oxml.element)
    (tuples : list (Z * (number + string))) :
  Oxml.CT_NumCache.tuple_pts cache = inr tuples →
  Forall2
    (λ pt t,
       match Oxml.CT_StrVal_NumVal_Composite.value pt with
       | inr x => t.2 = inl x
       | inl e =>
           e = Py.ValueError
           ∧ ∃ v text, Oxml.CT_StrVal_NumVal_Composite.v pt = inr v
                       ∧ Oxml.text v = Some text ∧ t.2 = inr text
       end)
    (Oxml._PtMixin.pt_lst cache) tuples.
Proof.
  unfold Oxml.CT_NumCache.tuple_pts. intros Hm. apply mapM_inr in Hm.
  eapply Forall2_impl; [exact Hm |]. clear. intros pt t Hpt. cbn in Hpt.
  unfold Oxml.CT_StrVal_NumVal_Composite.value.
  destruct (Oxml.CT_StrVal_NumVal_Composite.v pt) as [e|v]; cbn in *; [done |].
  destruct (Oxml.text v) as [text|] eqn:Ht; cbn in *; [| done].
  destruct (Py.float text) as [x|]; cbn in *.
  - destruct (Oxml.CT_StrVal_NumVal_Composite.idx pt); cbn in Hpt; [done |].
    by injection Hpt as <-.
  - destruct (Oxml.CT_StrVal_NumVal_Composite.idx pt); cbn in Hpt; [done |].
    injection Hpt as <-. split; [done |]. by exists v, text.
Qed.

End PointValue.

Lemma X19_tuples_and_point_values_witness :
  @Oxml.CT_NumCache.tuple_pts Z float_int num_cache_two_points
  = inr [(1, inl 7); (0, inr "n/a")]
  ∧ @Oxml.CT_StrVal_NumVal_Composite.value Z float_int (pt_element "1" "7")
    = inr 7
  ∧ @Oxml.CT_StrVal_NumVal_Composite.value Z float_int (pt_element "0" "n/a")
    = inl Py.ValueError
  ∧ Forall2
      (λ pt t,
         match @Oxml.CT_StrVal_NumVal_Composite.value Z float_int pt with
         | inr x => t.2 = inl x
         | inl e =>
             e = Py.ValueError
             ∧ ∃ v text, Oxml.CT_StrVal_NumVal_Composite.v pt = inr v
                         ∧ Oxml.text v = Some text ∧ t.2 = inr text
         end)
      (Oxml._PtMixin.pt_lst num_cache_two_points)
      [(1, inl 7); (0, inr "n/a")].
Proof.
  split; [reflexivity |]. split; [reflexivity |]. split; [reflexivity |].
  exact (@X19_tuples_and_point_values Z float_int num_cache_two_points
           [(1, inl 7); (0, inr "n/a")] eq_refl).
Defined.

(** ** The worksheet of a [ChartData] *)

Section NoCellTwice.
Context {value : Type} `{!Py.Str value}.

Lemma enumerate_cells_NoDup {A} (tok : A → Xl.token value) (col start : Z)
    (l : list A) :
  NoDup (cell_at <$> ((λ p : Z * A, (1 + p.1, col, tok p.2))
                        <$> Py.enumerate_from start l))
  ∧ ∀ rc, rc ∈ cell_at <$> ((λ p : Z * A, (1 + p.1, col, tok p.2))
                              <$> Py.enumerate_from start l) →
          1 + start ≤ rc.1 ∧ rc.2 = col.
Proof.
  revert start. induction l as [|a l IH]; intros start.
  - split; [constructor | by intros rc Hrc; apply elem_of_nil in Hrc].
  - destruct (IH (start + 1)) as [Hnd Hin].
    cbn [Py.enumerate_from fmap list_fmap]. split.
    + apply NoDup_cons. split; [| exact Hnd].
      intros Hx. apply Hin in Hx. cbn in Hx. lia.
    + intros rc Hrc. apply elem_of_cons in Hrc as [->|Hrc]; [cbn; lia |].
      apply Hin in Hrc. lia.
Qed.

Lemma series_blocks_NoDup (off : Z) (calls : list (string * list value)) :
  NoDup (cell_at <$> concat
           (imap (λ (k : nat) (call : string * list value),
                    (0, Z.of_nat k + off, Xl.Text call.1)
                    :: ((λ p : Z * value,
                           (1 + p.1, Z.of_nat k + off, Xl.Number p.2))
                          <$> Py.enumerate call.2))
              calls))
  ∧ ∀ rc, rc ∈ cell_at <$> concat
                 (imap (λ (k : nat) (call : string * list value),
                          (0, Z.of_nat k + off, Xl.Text call.1)
                          :: ((λ p : Z * value,
                                 (1 + p.1, Z.of_nat k + off, Xl.Number p.2))
                                <$> Py.enumerate call.2))
                    calls) →
          off ≤ rc.2.
Proof.
  revert off. induction calls as [|call calls IH]; intros off.
  - split; [constructor | by intros rc Hrc; apply elem_of_nil in Hrc].
  - rewrite imap_cons.
    rewrite (imap_ext _
               (λ (k : nat) (call : string * list value),
                  (0, Z.of_nat k + (off + 1), Xl.Text call.1)
                  :: ((λ p : Z * value,
                         (1 + p.1, Z.of_nat k + (off + 1), Xl.Number p.2))
                        <$> Py.enumerate call.2)) calls).
    2:{ intros k c _. cbn. by replace (Z.of_nat (S k) + off)
          with (Z.of_nat k + (off + 1)) by lia. }
    destruct (IH (off + 1)) as [Hnd Hin].
    destruct (enumerate_cells_NoDup (A := value) Xl.Number (0 + off) 0 call.2)
      as [Hnd1 Hin1].
    cbn [concat]. rewrite fmap_app. cbn [fmap list_fmap].
    change (Z.of_nat 0) with 0. split.
    + apply NoDup_app. split; [| split; [| exact Hnd]].
      * apply NoDup_cons. split; [| exact Hnd1].
        intros Hx. apply Hin1 in Hx. cbn in Hx. lia.
      * intros rc Hrc Hrc'. apply Hin in Hrc'.
        apply elem_of_cons in Hrc as [->|Hrc]; [cbn in Hrc'; lia |].
        apply Hin1 in Hrc. lia.
    + intros rc Hrc. apply elem_of_app in Hrc as [Hrc|Hrc].
      * apply elem_of_cons in Hrc as [->|Hrc]; [cbn; lia |].
        apply Hin1 in Hrc. lia.
      * apply Hin in Hrc. lia.
Qed.

(** X4: the worksheet of a [ChartData] built by a sequence of [add_series]
    calls holds the categories in column 0 from row 1 on, and for the call
    number [k] the name in row 0 of column [k + 1] and the values below it,
    from row 1 on; no two of these writes are for the same cell. *)
Theorem X4_worksheet_of_chart_data (h : gmap Py.loc (list string))
    (calls : list (string * list value)) (categories : list string) :
  let cd := add_all (ChartData.__init__ h).2 calls in
  let h1 := ChartData.set_categories (ChartData.__init__ (value := value) h).1
              cd categories in
  ChartData.xlsx_blob h1 cd
  = ((λ p : Z * string, (1 + p.1, 0, Xl.Text p.2)) <$> Py.enumerate categories)
    ++ concat
         (imap (λ (k : nat) (call : string * list value),
                  (0, Z.of_nat k + 1, Xl.Text call.1)
                  :: ((λ p : Z * value,
                         (1 + p.1, Z.of_nat k + 1, Xl.Number p.2))
                        <$> Py.enumerate call.2))
            calls)
  ∧ NoDup (cell_at <$> ChartData.xlsx_blob h1 cd).
Proof.
  intros cd h1.
  assert (Hblob :
    ChartData.xlsx_blob h1 cd
    = ((λ p : Z * string, (1 + p.1, 0, Xl.Text p.2))
         <$> Py.enumerate categories)
      ++ concat
           (imap (λ (k : nat) (call : string * list value),
                    (0, Z.of_nat k + 1, Xl.Text call.1)
                    :: ((λ p : Z * value,
                           (1 + p.1, Z.of_nat k + 1, Xl.Number p.2))
                          <$> Py.enumerate call.2))
              calls)).
  { unfold ChartData.xlsx_blob.
    rewrite _populate_worksheet_cells. cbn [app].
    assert (Hcat : ChartData.categories h1 cd = categories).
    { subst h1 cd. unfold ChartData.categories, ChartData.set_categories.
      by rewrite lookup_insert_eq. }
    rewrite Hcat. unfold category_cells. f_equal. f_equal.
    subst cd. rewrite add_all_series_lst. unfold ChartData.__init__.
    cbn [app snd ChartData._series_lst ChartData._categories].
    rewrite fmap_imap, fmap_imap. apply imap_ext. intros k [name values] _.
    unfold series_cells, value_start_col, SeriesData.as_item, nth_series,
      Py.len. cbn. do 2 f_equal. }
  split; [exact Hblob |].
  rewrite Hblob. rewrite fmap_app.
  destruct (enumerate_cells_NoDup (A := string) Xl.Text 0 0 categories)
    as [Hnd1 Hin1].
  destruct (series_blocks_NoDup 1 calls) as [Hnd2 Hin2].
  apply NoDup_app. split; [exact Hnd1 |]. split; [| exact Hnd2].
  intros rc Hrc Hrc'. apply Hin1 in Hrc. apply Hin2 in Hrc'. lia.
Qed.

End NoCellTwice.

(** ** The indices of the series of a [ChartDataMoreDetails] *)

Section DetailedIndices.
Context {value : Type} `{!Py.Str value}.

Lemma __init___index (h : gmap Py.loc (list SeriesDataMoreDetails.level))
    (series_idx : Z) (name : string) (values : list (Z * value))
    (categories : Py.seq_ref SeriesDataMoreDetails.level)
    (values_len categories_len : option Z) (format_code : option string)
    (s : SeriesDataMoreDetails._SeriesDataMoreDetails value)
    (w : list warning) :
  SeriesDataMoreDetails.__init__ h series_idx name values categories
    values_len categories_len format_code = inr (s, w) →
  SeriesDataMoreDetails.index s = series_idx
  ∧ SeriesDataMoreDetails._categories s = categories.
Proof.
  unfold SeriesDataMoreDetails.__init__. intros Hinit.
  destruct (if Py.truthy_int values_len
            then mret (default 0 values_len)
            else SeriesDataMoreDetails.max_idx_plus_1 values) as [e|vl];
    [done |].
  cbn in Hinit.
  destruct (_ && _) in Hinit; cbn in Hinit.
  - destruct (SeriesDataMoreDetails.max_cat_idx_plus_1 _) in Hinit;
      cbn in Hinit; [done |].
    by injection Hinit as <- _.
  - by injection Hinit as <- _.
Qed.

(** X20: in a [ChartDataMoreDetails] whose series are numbered by their
    position, they still are after [add_series] (when it does not raise)
    and after [values_len] or [categories_len] is assigned; the series
    added holds a tuple of the categories the data set has at that time. *)
Theorem X20_series_stay_numbered
    (h : gmap Py.loc (list SeriesDataMoreDetails.level))
    (md md' : ChartDataMoreDetails.ChartDataMoreDetails value)
    (name : string) (values : list (Z * value)) (values_len : option Z)
    (format_code : option string)
    (r : option (SeriesDataMoreDetails._SeriesDataMoreDetails value))
    (w : list warning) (v : Z) (c : option Z) :
  numbered_by_position (ChartDataMoreDetails.series md) →
  ChartDataMoreDetails.add_series h md name values values_len format_code
  = inr (md', r, w) →
  numbered_by_position (ChartDataMoreDetails.series md')
  ∧ (∃ s, ChartDataMoreDetails.series md'
          = ChartDataMoreDetails.series md ++ [s]
          ∧ SeriesDataMoreDetails._categories s
            = Py.Tuple (ChartDataMoreDetails.categories h md))
  ∧ numbered_by_position
      (ChartDataMoreDetails.series (ChartDataMoreDetails.set_values_len md' v).1)
  ∧ numbered_by_position
      (ChartDataMoreDetails.series
         (ChartDataMoreDetails.set_categories_len md' c)).
Proof.
  intros Hnum Hadd. unfold ChartDataMoreDetails.add_series in Hadd.
  destruct (SeriesDataMoreDetails.__init__ _ _ _ _ _ _ _ _)
    as [e|[s w']] eqn:Hinit; cbn in Hadd; [done |].
  injection Hadd as <- <- <-.
  destruct (__init___index _ _ _ _ _ _ _ _ _ _ Hinit) as [Hidx Hcat].
  assert (Hnum' : numbered_by_position
                    (ChartDataMoreDetails._series_lst md ++ [s])).
  { intros i s' Hi. apply lookup_app_Some in Hi as [Hi|[Hge Hi]].
    - by apply Hnum.
    - apply list_lookup_singleton_Some in Hi as [Hi <-].
      rewrite Hidx. unfold Py.len. lia. }
  cbn [ChartDataMoreDetails.series ChartDataMoreDetails._series_lst
         ChartDataMoreDetails.set_values_len
         ChartDataMoreDetails.set_categories_len fst].
  split; [exact Hnum' |]. split; [by exists s |]. split.
  - intros i s' Hi. rewrite list_lookup_fmap in Hi.
    destruct ((ChartDataMoreDetails._series_lst md ++ [s]) !! i)
      as [s0|] eqn:H0; [| done].
    cbn in Hi. injection Hi as <-. exact (Hnum' i s0 H0).
  - intros i s' Hi. rewrite list_lookup_fmap in Hi.
    destruct ((ChartDataMoreDetails._series_lst md ++ [s]) !! i)
      as [s0|] eqn:H0; [| done].
    cbn in Hi. injection Hi as <-. exact (Hnum' i s0 H0).
Qed.

End DetailedIndices.

Lemma X20_series_stay_numbered_witness :
  let h : gmap Py.loc (list SeriesDataMoreDetails.level) :=
    <[1%positive := [[(0, "a"); (1, "b")]]]> ∅ in
  let md : ChartDataMoreDetails.ChartDataMoreDetails Z :=
    {| ChartDataMoreDetails._categories := 1%positive;
       ChartDataMoreDetails._series_lst := [];
       ChartDataMoreDetails._categories_len := None;
       ChartDataMoreDetails._values_len := None |} in
  ∃ md' r w,
    numbered_by_position (ChartDataMoreDetails.series md)
    ∧ ChartDataMoreDetails.add_series h md "S" [(0, 5); (1, 7)] None None
      = inr (md', r, w)
    ∧ numbered_by_position (ChartDataMoreDetails.series md')
    ∧ ∃ s, ChartDataMoreDetails.series md' = [s]
           ∧ SeriesDataMoreDetails._categories s
             = Py.Tuple [[(0, "a"); (1, "b")]].
Proof.
  intros h md. eexists _, _, _.
  assert (Hnum : numbered_by_position (ChartDataMoreDetails.series md))
    by (intros i s Hi; by destruct i).
  split; [exact Hnum |]. split; [reflexivity |].
  destruct (X20_series_stay_numbered h md _ "S" [(0, 5); (1, 7)] None None
              _ _ 0 None Hnum eq_refl) as (H1 & H2 & _).
  split; [exact H1 | exact H2].
Defined.
